(** * Ad_Post_Agent: plan building, plan normalisation and the content workflow

    A shallow embedding of the Python sources

      - content_orchestration.py     (module [Orchestration])
      - content_orchestrationfal.py  (module [Fal])
      - test(1).py                   (module [Legacy])
      - main.py                      (module [Main])

    [load_platform_rules], [deep_merge] and [build_generation_plan] are the
    same code in the three files and are embedded once. *)

From Stdlib Require Import List String Ascii ZArith Bool Lia Arith.
From Stdlib Require Import DecimalString.
Import ListNotations.
Open Scope string_scope.
Open Scope list_scope.

(* ================================================================== *)
(** * Python values *)
(* ================================================================== *)

(** What [json.load] produces and what the plans are made of: [None],
    booleans, integers, strings, lists, and dictionaries with string keys.
    A dictionary keeps its insertion order, as a Python [dict] does. *)
Unset Elimination Schemes.
Inductive value : Type :=
| VNone
| VBool (b : bool)
| VInt (z : Z)
| VStr (s : string)
| VList (l : list value)
| VDict (d : list (string * value)).
Set Elimination Schemes.

(** [Dict[str, Any]] *)
Definition dict : Type := list (string * value).

Section ValueInduction.
Variable P : value -> Prop.
Hypothesis HNone : P VNone.
Hypothesis HBool : forall b, P (VBool b).
Hypothesis HInt : forall z, P (VInt z).
Hypothesis HStr : forall s, P (VStr s).
Hypothesis HList : forall l, Forall P l -> P (VList l).
Hypothesis HDict : forall d, Forall (fun kv => P (snd kv)) d -> P (VDict d).

Fixpoint value_nested_ind (v : value) : P v :=
  match v with
  | VNone => HNone
  | VBool b => HBool b
  | VInt z => HInt z
  | VStr s => HStr s
  | VList l =>
      HList l ((fix go (l : list value) : Forall P l :=
                  match l with
                  | [] => Forall_nil P
                  | x :: r => Forall_cons x (value_nested_ind x) (go r)
                  end) l)
  | VDict d =>
      HDict d ((fix go (d : dict) : Forall (fun kv => P (snd kv)) d :=
                  match d with
                  | [] => Forall_nil _
                  | kv :: r =>
                      Forall_cons kv (value_nested_ind (snd kv)) (go r)
                  end) d)
  end.
End ValueInduction.

(** ** Dictionary operations *)

(** [d.get(k)] / [d[k]] / [k in d]: the entry stored under [k]. *)
Fixpoint dict_get {A : Type} (d : list (string * A)) (k : string) : option A :=
  match d with
  | [] => None
  | (k', v) :: r => if String.eqb k' k then Some v else dict_get r k
  end.

(** [k in d] *)
Definition dict_mem {A : Type} (d : list (string * A)) (k : string) : bool :=
  match dict_get d k with Some _ => true | None => false end.

(** [d[k] = v]: an existing key keeps its position, a new key goes last. *)
Fixpoint dict_set (d : dict) (k : string) (v : value) : dict :=
  match d with
  | [] => [(k, v)]
  | (k', v') :: r =>
      if String.eqb k' k then (k', v) :: r else (k', v') :: dict_set r k v
  end.

(** [d.get(k, default)] *)
Definition dict_get_default (d : dict) (k : string) (default : value) : value :=
  match dict_get d k with Some v => v | None => default end.

(** [d.keys()] *)
Definition keys (d : dict) : list string := map fst d.

(** A Python dictionary holds each key once, and so do the dictionaries
    nested in it. *)
Fixpoint wf_value (v : value) : Prop :=
  match v with
  | VList l =>
      (fix all (l : list value) : Prop :=
         match l with [] => True | x :: r => wf_value x /\ all r end) l
  | VDict d =>
      NoDup (map fst d) /\
      (fix all (d : dict) : Prop :=
         match d with [] => True | kv :: r => wf_value (snd kv) /\ all r end) d
  | _ => True
  end.

Definition wf_dict (d : dict) : Prop := wf_value (VDict d).

(** ** [copy.deepcopy] *)

Fixpoint deepcopy (v : value) : value :=
  match v with
  | VList l => VList (map deepcopy l)
  | VDict d => VDict (map (fun kv => (fst kv, deepcopy (snd kv))) d)
  | _ => v
  end.

Definition deepcopy_dict (d : dict) : dict :=
  map (fun kv => (fst kv, deepcopy (snd kv))) d.

(* ================================================================== *)
(** * UTILS: [deep_merge] *)
(* ================================================================== *)

(** [deep_merge(base, override)] with [override] given as the value
    [VDict override]; the recursion descends into the values of [override]. *)
Fixpoint deep_merge_into (base : dict) (override : value) {struct override} : dict :=
  match override with
  | VDict items =>
      (fix loop (items : list (string * value)) (result : dict) {struct items} : dict :=
         match items with
         | [] => result
         | kv :: rest =>
             loop rest
               (match dict_get result (fst kv), snd kv with
                | Some (VDict rk), VDict _ =>
                    dict_set result (fst kv) (VDict (deep_merge_into rk (snd kv)))
                | _, _ => dict_set result (fst kv) (deepcopy (snd kv))
                end)
         end) items (deepcopy_dict base)
  | _ => deepcopy_dict base
  end.

Definition deep_merge (base override : dict) : dict :=
  deep_merge_into base (VDict override).

(** One turn of the loop [for k, v in override.items()] on [result]. *)
Definition merge_step (result : dict) (kv : string * value) : dict :=
  match dict_get result (fst kv), snd kv with
  | Some (VDict rk), VDict vo =>
      dict_set result (fst kv) (VDict (deep_merge rk vo))
  | _, _ => dict_set result (fst kv) (deepcopy (snd kv))
  end.

(* ================================================================== *)
(** * Exceptions *)
(* ================================================================== *)

Inductive exn : Type :=
| ValueError (msg : string)
| KeyError (key_repr : string)
| AttributeError (msg : string)
| TypeError (msg : string)
| IndexError (msg : string)
| ServiceError (msg : string)      (* raised by a client library (Gemini, Replicate, fal) *)
| GraphRecursionError (msg : string).

Inductive result (A : Type) : Type :=
| Ok (a : A)
| Raise (e : exn).
Arguments Ok {A} a.
Arguments Raise {A} e.

(** [str(e)]; a [KeyError] prints the [repr] of its key. *)
Definition str_exn (e : exn) : string :=
  match e with
  | KeyError m | ValueError m | AttributeError m | TypeError m | IndexError m
  | ServiceError m | GraphRecursionError m => m
  end.

(** [KeyError(k)] for a string key [k] *)
Definition key_error (k : string) : exn := KeyError ("'" ++ k ++ "'").

(* ================================================================== *)
(** * Strings *)
(* ================================================================== *)

(** [str.upper()] on the ASCII letters; other bytes are kept. *)
Definition upper_ascii (c : ascii) : ascii :=
  let n := nat_of_ascii c in
  if (97 <=? n)%nat && (n <=? 122)%nat then ascii_of_nat (n - 32) else c.

Fixpoint upper (s : string) : string :=
  match s with
  | EmptyString => EmptyString
  | String c r => String (upper_ascii c) (upper r)
  end.

(* ================================================================== *)
(** * BUILD GENERATION PLAN (FROM JSON) *)
(* ================================================================== *)

(** What [load_platform_rules] returns: the ["PLATFORM_RULES"] object of
    platform_rules_config.json, platform -> intent -> constraints, the shape
    of the fallback configuration the loader writes and of the two
    [Dict[str, Any]] arguments [deep_merge] is called with.  Reading the
    file is outside the model: the loaded rules are a parameter. *)
Definition rules_t : Type := list (string * list (string * dict)).

Definition build_generation_plan (rules : rules_t) (platform intent : string)
  : result dict :=
  let platform := upper platform in
  match dict_get rules platform with
  | None => Raise (ValueError ("Platform " ++ platform ++ " not found"))
  | Some intents =>
      if negb (dict_mem intents intent) then
        Raise (ValueError ("Intent " ++ intent ++ " not found for platform "
                             ++ platform))
      else
        match dict_get intents "DEFAULT" with
        | None => Raise (key_error "DEFAULT")
        | Some default =>
            match dict_get intents intent with
            | None => Raise (key_error intent)
            | Some specific =>
                let merged := deep_merge default specific in
                Ok (dict_set merged "_meta"
                      (VDict [("platform", VStr platform);
                              ("intent", VStr intent)]))
            end
        end
  end.

(** The fallback configuration written by [load_platform_rules] of
    content_orchestration.py when the file does not exist. *)
Definition dummy_rules : rules_t :=
  [("X", [("DEFAULT",
           [("content_type", VStr "post");
            ("objective", VStr "engagement");
            ("tone", VStr "professional");
            ("text_constraints", VDict [("max_chars", VInt 280)]);
            ("media_constraints", VDict [("type", VStr "optional")])])])].

(** The same with the ["PROMO"] intent of test(1).py. *)
Definition dummy_rules_promo : rules_t :=
  [("X", [("DEFAULT",
           [("content_type", VStr "post");
            ("objective", VStr "engagement");
            ("tone", VStr "professional");
            ("text_constraints", VDict [("max_chars", VInt 280)]);
            ("media_constraints", VDict [("type", VStr "optional")])]);
          ("PROMO", [("objective", VStr "conversion")])])].

(** The merge as the words describe it, key by key: the intent's value
    wins, except that two dictionaries are merged recursively. *)
Definition merged_entry (base_v override_v : option value) : option value :=
  match override_v with
  | None => base_v
  | Some (VDict vo) =>
      match base_v with
      | Some (VDict vb) => Some (VDict (deep_merge vb vo))
      | _ => Some (VDict vo)
      end
  | Some v => Some v
  end.

(** A configuration whose platform defines an intent but no ["DEFAULT"]. *)
Definition rules_without_default : rules_t :=
  [("X", [("PROMO", [("objective", VStr "conversion")])])].

(** The ["_meta"] entry [build_generation_plan] stores. *)
Definition meta_entry (platform intent : string) : value :=
  VDict [("platform", VStr (upper platform)); ("intent", VStr intent)].

(* ================================================================== *)
(** * Python operations on values *)
(* ================================================================== *)

(** The result monad: a Python expression evaluates to a value or raises. *)
Definition bind {A B : Type} (m : result A) (k : A -> result B) : result B :=
  match m with
  | Ok a => k a
  | Raise e => Raise e
  end.

Notation "x <- m ;; k" := (bind m (fun x => k))
  (at level 61, m at next level, right associativity).

(** [type(v).__name__] *)
Definition type_name (v : value) : string :=
  match v with
  | VNone => "NoneType"
  | VBool _ => "bool"
  | VInt _ => "int"
  | VStr _ => "str"
  | VList _ => "list"
  | VDict _ => "dict"
  end.

(** [bool(v)] *)
Definition truthy (v : value) : bool :=
  match v with
  | VNone => false
  | VBool b => b
  | VInt z => negb (z =? 0)%Z
  | VStr s => negb (String.eqb s "")
  | VList l => match l with [] => false | _ => true end
  | VDict d => match d with [] => false | _ => true end
  end.

(** [a == b]: numbers compare by value ([True == 1]), lists element by
    element, dictionaries entry by entry whatever their order. *)
Fixpoint py_eq (a b : value) {struct a} : bool :=
  match a, b with
  | VNone, VNone => true
  | VBool x, VBool y => Bool.eqb x y
  | VInt x, VInt y => (x =? y)%Z
  | VBool x, VInt y => ((if x then 1 else 0) =? y)%Z
  | VInt x, VBool y => (x =? (if y then 1 else 0))%Z
  | VStr s, VStr t => String.eqb s t
  | VList la, VList lb =>
      (fix go (la lb : list value) {struct la} : bool :=
         match la, lb with
         | [], [] => true
         | x :: ra, y :: rb => py_eq x y && go ra rb
         | _, _ => false
         end) la lb
  | VDict da, VDict db =>
      (List.length da =? List.length db)%nat &&
      (fix go (da : dict) {struct da} : bool :=
         match da with
         | [] => true
         | kv :: ra =>
             match dict_get db (fst kv) with
             | Some w => py_eq (snd kv) w
             | None => false
             end && go ra
         end) da
  | _, _ => false
  end.

(** [x in l] for a list [l] *)
Definition py_in (x : value) (l : list value) : bool :=
  existsb (fun y => py_eq x y) l.

(** [obj.get(k, default)]; only a dictionary has [get]. *)
Definition py_get (obj : value) (k : string) (default : value) : result value :=
  match obj with
  | VDict d => Ok (dict_get_default d k default)
  | _ => Raise (AttributeError
                  ("'" ++ type_name obj ++ "' object has no attribute 'get'"))
  end.

(** [d[k]] on a dictionary *)
Definition dict_item (d : dict) (k : string) : result value :=
  match dict_get d k with
  | Some v => Ok v
  | None => Raise (key_error k)
  end.

(** [obj[k]] with a string [k] *)
Definition py_getitem (obj : value) (k : string) : result value :=
  match obj with
  | VDict d => dict_item d k
  | VStr _ => Raise (TypeError "string indices must be integers, not 'str'")
  | VList _ =>
      Raise (TypeError "list indices must be integers or slices, not str")
  | _ => Raise (TypeError
                  ("'" ++ type_name obj ++ "' object is not subscriptable"))
  end.

(** [l[0]] on a list *)
Definition list_first (l : list value) : result value :=
  match l with
  | x :: _ => Ok x
  | [] => Raise (IndexError "list index out of range")
  end.

(** An [Optional[str]] argument as a value. *)
Definition of_optional_str (o : option string) : value :=
  match o with
  | Some s => VStr s
  | None => VNone
  end.

(** The two Jinja2 templates of a file; the text is that of the file. *)
Inductive template : Type :=
| TEXT_PROMPT_TEMPLATE
| MEDIA_PROMPT_TEMPLATE.

(* ================================================================== *)
(** * External services *)
(* ================================================================== *)

(** A request sent to one of the generation services. *)
Inductive event : Type :=
| GeminiGenerateContent (model contents : string)
| ReplicateRun (ref : string) (input : dict) (image_file : option string)
| FalSubscribe (application : string) (arguments : dict).

(** A computation that may call the services: given the requests sent so
    far, it returns or raises, and reports the requests it sent itself. *)
Definition M (A : Type) : Type := list event -> result A * list event.

Definition ret {A : Type} (a : A) : M A := fun _ => (Ok a, []).

Definition raise {A : Type} (e : exn) : M A := fun _ => (Raise e, []).

Definition lift {A : Type} (r : result A) : M A := fun _ => (r, []).

Definition bindM {A B : Type} (m : M A) (k : A -> M B) : M B :=
  fun history =>
    match m history with
    | (Ok a, sent) =>
        let (r, sent') := k a (history ++ sent) in (r, sent ++ sent')
    | (Raise e, sent) => (Raise e, sent)
    end.

Notation "x <~ m ;; k" := (bindM m (fun x => k))
  (at level 61, m at next level, right associativity).

(** [try: body  except Exception as e: handler(e)] *)
Definition try_except {A : Type} (body : M A) (handler : exn -> M A) : M A :=
  fun history =>
    match body history with
    | (Ok a, sent) => (Ok a, sent)
    | (Raise e, sent) =>
        let (r, sent') := handler e (history ++ sent) in (r, sent ++ sent')
    end.

(** The services answer depending on what they were sent before. *)
Definition gemini_service : Type :=
  list event -> string -> result (option string).
Definition replicate_service : Type :=
  list event -> string -> dict -> option string -> result value.
Definition fal_service : Type :=
  list event -> string -> dict -> result dict.

(** ** Strings, continued *)

Definition nl : string := String (ascii_of_nat 10) EmptyString.

(** A text given line by line. *)
Definition lines (l : list string) : string := String.concat nl l.

(** ASCII white space, as [str.isspace] sees it. *)
Definition is_space (c : ascii) : bool :=
  let n := nat_of_ascii c in
  ((9 <=? n) && (n <=? 13) || (28 <=? n) && (n <=? 32))%nat.

Fixpoint lstrip (s : string) : string :=
  match s with
  | String c r => if is_space c then lstrip r else s
  | EmptyString => EmptyString
  end.

Fixpoint rstrip (s : string) : string :=
  match s with
  | String c r =>
      match rstrip r with
      | EmptyString => if is_space c then EmptyString else String c EmptyString
      | r' => String c r'
      end
  | EmptyString => EmptyString
  end.

(** [s.strip()] *)
Definition strip (s : string) : string := rstrip (lstrip s).

(** [obj.startswith(p)]; only a string has it. *)
Definition py_startswith (obj : value) (p : string) : result bool :=
  match obj with
  | VStr s => Ok (String.prefix p s)
  | _ => Raise (AttributeError
                  ("'" ++ type_name obj
                       ++ "' object has no attribute 'startswith'"))
  end.

(** [range(n)]: the number of turns of [for i in range(n)]. *)
Definition py_range (n : value) : result nat :=
  match n with
  | VInt z => Ok (Z.to_nat z)
  | VBool b => Ok (if b then 1%nat else 0%nat)
  | _ => Raise (TypeError
                  ("'" ++ type_name n
                       ++ "' object cannot be interpreted as an integer"))
  end.

(** [for x in xs: acc.append(f(x))] *)
Fixpoint for_each {A B : Type} (xs : list A) (f : A -> M B) : M (list B) :=
  match xs with
  | [] => ret []
  | x :: r => y <~ f x ;; ys <~ for_each r f ;; ret (y :: ys)
  end.

(** [len(obj)] *)
Definition py_len (obj : value) : result nat :=
  match obj with
  | VStr s => Ok (String.length s)
  | VList l => Ok (List.length l)
  | VDict d => Ok (List.length d)
  | _ => Raise (TypeError
                  ("object of type '" ++ type_name obj ++ "' has no len()"))
  end.

(** [obj[0]] *)
Definition py_first (obj : value) : result value :=
  match obj with
  | VList l => list_first l
  | VStr (String c _) => Ok (VStr (String c EmptyString))
  | VStr EmptyString => Raise (IndexError "string index out of range")
  | VDict _ => Raise (KeyError "0")
  | _ => Raise (TypeError
                  ("'" ++ type_name obj ++ "' object is not subscriptable"))
  end.

(** [state[key]] for a key of the state that may not have been set *)
Definition state_item {A : Type} (field : option A) (key : string) : result A :=
  match field with
  | Some v => Ok v
  | None => Raise (key_error key)
  end.

(** A key of an update replaces the key of the state. *)
Definition or_else {A : Type} (new old : option A) : option A :=
  match new with
  | Some v => Some v
  | None => old
  end.

(** [bool(s)] for an [Optional[str]] that may be missing *)
Definition present (s : option (option string)) : bool :=
  match s with
  | Some (Some t) => negb (String.eqb t "")
  | _ => false
  end.

(* ================================================================== *)
(** * content_orchestration.py *)
(* ================================================================== *)

Module Orchestration.

(** NORMALIZE PLAN (FINAL SHAPE) *)
Definition normalize_plan (raw : dict) (user_media_choice : option string)
  : result dict :=
  let user_media_choice := of_optional_str user_media_choice in
  let media := dict_get_default raw "media_constraints" (VDict []) in
  let text := dict_get_default raw "text_constraints" (VDict []) in
  raw_type <- py_get media "type" VNone ;;
  let allowed_types :=
    if py_eq raw_type (VStr "optional") then [VStr "image"; VStr "video"]
    else if py_eq raw_type (VStr "image_or_short_video") then
      [VStr "image"; VStr "video"]
    else if py_in raw_type [VStr "image"; VStr "video";
                            VStr "photo_carousel"; VStr "text_only"] then
      [raw_type]
    else [] in
  let selected_type :=
    if py_in user_media_choice allowed_types then user_media_choice
    else VNone in
  selected_type <-
    (if negb (truthy selected_type) && truthy (VList allowed_types) then
       if py_in raw_type allowed_types then Ok raw_type
       else list_first allowed_types
     else Ok selected_type) ;;
  image <- py_get media "image" (VDict []) ;;
  video <- py_get media "video" (VDict []) ;;
  image_count <- py_get media "image_count" VNone ;;
  aspect_ratio <- py_get media "aspect_ratio" VNone ;;
  safe_zone_required <- py_get media "safe_zone_required" (VBool false) ;;
  ugc_style <- py_get media "ugc_style" (VBool false) ;;
  supports_audio <- py_get media "supports_audio" (VBool false) ;;
  recommended_use_cases <- py_get media "recommended_use_cases" (VList []) ;;
  Ok [("platform", dict_get_default raw "platform" VNone);
      ("content_type", dict_get_default raw "content_type" VNone);
      ("objective", dict_get_default raw "objective" VNone);
      ("tone", dict_get_default raw "tone" VNone);
      ("text_constraints", text);
      ("media_constraints",
        VDict [("allowed_types", VList allowed_types);
               ("selected_type", selected_type);
               ("raw", media);
               ("image", image);
               ("video", video);
               ("image_count", image_count);
               ("aspect_ratio", aspect_ratio);
               ("safe_zone_required", safe_zone_required);
               ("ugc_style", ugc_style);
               ("supports_audio", supports_audio);
               ("recommended_use_cases", recommended_use_cases)]);
      ("cta_style", dict_get_default raw "cta_style" VNone);
      ("optimization_goal", dict_get_default raw "optimization_goal" VNone);
      ("variation_count", dict_get_default raw "variation_count" VNone);
      ("_meta", dict_get_default raw "_meta" VNone)].

Section WithExternal.

(** Jinja2: rendering template [t] with the keyword arguments as context. *)
Variable render : template -> dict -> string.

(** BUILD PROMPTS *)
Definition build_text_prompt (plan : dict) : result string :=
  platform <- dict_item plan "platform" ;;
  objective <- dict_item plan "objective" ;;
  content_type <- dict_item plan "content_type" ;;
  tone <- dict_item plan "tone" ;;
  text_constraints <- dict_item plan "text_constraints" ;;
  Ok (render TEXT_PROMPT_TEMPLATE
        [("platform", platform); ("objective", objective);
         ("content_type", content_type); ("tone", tone);
         ("text_constraints", text_constraints)]).

Definition build_media_prompt (plan : dict) : result (option string) :=
  media_constraints <- dict_item plan "media_constraints" ;;
  media_type <- py_get media_constraints "selected_type" VNone ;;
  if negb (truthy media_type) || py_eq media_type (VStr "text_only") then
    Ok None
  else
    platform <- dict_item plan "platform" ;;
    content_type <- dict_item plan "content_type" ;;
    objective <- dict_item plan "objective" ;;
    media_constraints <- dict_item plan "media_constraints" ;;
    Ok (Some (render MEDIA_PROMPT_TEMPLATE
                [("platform", platform); ("content_type", content_type);
                 ("objective", objective); ("media_type", media_type);
                 ("media_constraints", media_constraints)])).

(** [str(v)], as an f-string formats a value *)
Variable py_str : value -> string.

(** USER INPUTS -> STRUCTURED NATURAL LANGUAGE *)
Definition build_text_user_data_block (user_inputs : dict) : string :=
  lines [""; "====================";
         "USER PROVIDED DATA";
         "====================";
         "";
         "CONTENT IDEA:";
         py_str (dict_get_default user_inputs "content_idea" VNone);
         "";
         "CONTEXT / DESCRIPTION:";
         py_str (dict_get_default user_inputs "description" VNone);
         "";
         "REFERENCE TEXT:";
         py_str (dict_get_default user_inputs "reference_text" VNone);
         "";
         "====================";
         "RULES";
         "====================";
         "- All fields above are provided by the user";
         "- Use them as the sole source of truth";
         "- Do NOT invent missing information";
         ""].

Definition build_media_user_data_block (user_inputs uploaded_files : dict)
  : string :=
  lines [""; "====================";
         "USER PROVIDED DATA";
         "====================";
         "";
         "CORE IDEA:";
         py_str (dict_get_default user_inputs "content_idea" VNone);
         "";
         "CONTEXT / DESCRIPTION:";
         py_str (dict_get_default user_inputs "description" VNone);
         "";
         (if truthy (dict_get_default uploaded_files "reference_image" VNone)
          then lines [""; "VISUAL REFERENCE:";
                      "Use the attached image(s) as visual/style reference.";
                      ""]
          else "");
         "";
         (if truthy (dict_get_default uploaded_files "video_init_image" VNone)
          then lines [""; "INITIAL FRAME:";
                      "Use the attached image as the starting frame.";
                      ""]
          else "");
         "";
         "====================";
         "RULES";
         "====================";
         "- All fields above are provided by the user";
         "- Use them as the sole source of truth";
         "- Do NOT invent visual elements not implied by the data";
         ""].

(** FINAL MODEL INPUT (WHAT YOU SEND TO MODELS): the dictionary
    [build_final_model_input] returns, a literal with these three keys. *)
Record final_model_input : Type := {
  text_model_input : string;
  media_payload : dict;
  generation_plan : dict
}.

Definition build_final_model_input (plan user_inputs uploaded_files : dict)
  : result final_model_input :=
  text_prompt <- build_text_prompt plan ;;
  media_prompt <- build_media_prompt plan ;;
  let text_user_data := build_text_user_data_block user_inputs in
  let media_user_data :=
    build_media_user_data_block user_inputs uploaded_files in
  let media_constraints :=
    dict_get_default plan "media_constraints" (VDict []) in
  selected_type <- py_get media_constraints "selected_type" VNone ;;
  allowed_types <- py_get media_constraints "allowed_types" (VList []) ;;
  image <- py_get media_constraints "image" VNone ;;
  video <- py_get media_constraints "video" VNone ;;
  image_count <- py_get media_constraints "image_count" VNone ;;
  aspect_ratio <- py_get media_constraints "aspect_ratio" VNone ;;
  safe_zone_required <-
    py_get media_constraints "safe_zone_required" (VBool false) ;;
  ugc_style <- py_get media_constraints "ugc_style" (VBool false) ;;
  supports_audio <- py_get media_constraints "supports_audio" (VBool false) ;;
  recommended_use_cases <-
    py_get media_constraints "recommended_use_cases" (VList []) ;;
  let media_payload :=
    [("media_model_input",
       match media_prompt with
       | Some p =>
           if String.eqb p "" then VNone
           else VStr (p ++ nl ++ nl ++ media_user_data)
       | None => VNone
       end);
     ("media_type", selected_type);
     ("media_constraints",
       VDict [("allowed_types", allowed_types);
              ("selected_type", selected_type);
              ("image", image);
              ("video", video);
              ("image_count", image_count);
              ("aspect_ratio", aspect_ratio);
              ("safe_zone_required", safe_zone_required);
              ("ugc_style", ugc_style);
              ("supports_audio", supports_audio);
              ("recommended_use_cases", recommended_use_cases)]);
     ("reference_image",
       dict_get_default uploaded_files "reference_image" VNone);
     ("video_init_image",
       dict_get_default uploaded_files "video_init_image" VNone)] in
  Ok {| text_model_input := text_prompt ++ nl ++ nl ++ text_user_data;
        media_payload := media_payload;
        generation_plan := plan |}.

(** Gemini Setup *)
Variable gemini : gemini_service.

Definition MODEL_NAME : string := "gemini-2.5-flash".

(** [client.models.generate_content(model=..., contents=...)]: the [text]
    of the response. *)
Definition generate_content (model contents : string) : M (option string) :=
  fun history =>
    (gemini history contents, [GeminiGenerateContent model contents]).

Definition generate_text_with_gemini (prompt : string) : M string :=
  try_except
    (text <~ generate_content MODEL_NAME prompt ;;
     match text with
     | Some t => ret (strip t)
     | None =>
         raise (AttributeError "'NoneType' object has no attribute 'strip'")
     end)
    (fun e => ret ("Error generating text with Gemini: " ++ str_exn e)%string).

(** Replicate Setup *)
Variable replicate : replicate_service.

(** [os.path.exists] and [open(path, "rb")] *)
Variable path_exists : string -> bool.
Variable open_rb : string -> result unit.

(** [replicate.run(ref, input=input)]; [image_file] is the file whose open
    handle is passed as [input["image"]]. *)
Definition replicate_run (ref : string) (input : dict)
    (image_file : option string) : M value :=
  fun history =>
    (replicate history ref input image_file,
     [ReplicateRun ref input image_file]).

(** [str(output[0])] for a non-empty list, [str(output)] otherwise. *)
Definition first_output (output : value) : string :=
  match output with
  | VList (x :: _) => py_str x
  | _ => py_str output
  end.

Definition generate_image_with_replicate (prompt : string)
    (reference_image : value) : M string :=
  let input_params := [("prompt", VStr prompt)] in
  try_except
    (output <~ replicate_run "black-forest-labs/flux-schnell"
                 input_params None ;;
     ret (first_output output))
    (fun e => ret ("Error generating image: " ++ str_exn e)%string).

(** The [finally] clause closes the file; nothing in the model sees it. *)
Definition generate_video_with_replicate (prompt : string)
    (init_image : value) : M string :=
  let input_params := [("prompt", VStr prompt);
                       ("aspect_ratio", VStr "16:9");
                       ("model", VStr "0.9.1")] in
  prepared <~
    (if truthy init_image then
       is_url <~ lift (py_startswith init_image "http") ;;
       if (is_url : bool) then
         ret (dict_set input_params "image" init_image, None)
       else
         match init_image with
         | VStr path =>
             if path_exists path then
               _ <~ lift (open_rb path) ;;
               ret (input_params, Some path)
             else ret (input_params, None)
         | _ => ret (input_params, None)
         end
     else ret (input_params, None)) ;;
  try_except
    (output <~ replicate_run
                 "lightricks/ltx-video:8c47da66681d081eeb4d1261853087de23923a268a"
                 (fst prepared) (snd prepared) ;;
     ret (first_output output))
    (fun e => ret ("Error generating video: " ++ str_exn e)%string).

(** ORCHESTRATION ENTRY POINT *)

(** The media step of [orchestrate_content_generation], the body of its
    [try]. *)
Definition generate_media (plan : dict) (final_input : final_model_input)
    (media_type : value) (visual_prompt : string) : M value :=
  if py_eq media_type (VStr "image") then
    url <~ generate_image_with_replicate visual_prompt
             (dict_get_default (media_payload final_input)
                "reference_image" VNone) ;;
    ret (VStr url)
  else if py_eq media_type (VStr "video") then
    url <~ generate_video_with_replicate visual_prompt
             (dict_get_default (media_payload final_input)
                "video_init_image" VNone) ;;
    ret (VStr url)
  else if py_eq media_type (VStr "photo_carousel") then
    media_constraints <~ lift (dict_item plan "media_constraints") ;;
    image_count_constraints <~
      lift (py_get media_constraints "image_count" (VDict [])) ;;
    min_images <~
      lift (match image_count_constraints with
            | VDict _ => py_get image_count_constraints "min" (VInt 1)
            | _ => Ok (VInt 1)
            end) ;;
    turns <~ lift (py_range min_images) ;;
    carousel_urls <~
      for_each (seq 0 turns)
        (fun i =>
           url <~ generate_image_with_replicate
                    (visual_prompt ++ " - Slide "
                       ++ py_str (VInt (Z.of_nat i + 1)))
                    (dict_get_default (media_payload final_input)
                       "reference_image" VNone) ;;
           ret (VStr url)) ;;
    ret (VList carousel_urls)
  else ret VNone.

(** The loaded rules are the parameter [rules]. *)
Definition orchestrate_content_generation (rules : rules_t)
    (platform intent : string) (user_inputs uploaded_files : dict)
    (user_media_choice : option string) : M dict :=
  raw_plan <~ lift (build_generation_plan rules platform intent) ;;
  plan <~ lift (normalize_plan raw_plan user_media_choice) ;;
  final_input <~
    lift (build_final_model_input plan user_inputs uploaded_files) ;;
  post_text <~ generate_text_with_gemini (text_model_input final_input) ;;
  media_type <~ lift (dict_item (media_payload final_input) "media_type") ;;
  if negb (truthy media_type) || py_eq media_type (VStr "text_only") then
    ret [("text", VStr post_text); ("media", VNone)]
  else
    let visual_prompt_request :=
      ("Based on this social media post: '" ++ post_text
         ++ "', create a detailed visual prompt for an " ++ py_str media_type
         ++ " generation. Focus on style, lighting, and composition. Return only the prompt.")%string in
    visual_prompt <~ generate_text_with_gemini visual_prompt_request ;;
    media_result <~
      try_except (generate_media plan final_input media_type visual_prompt)
        (fun e => ret VNone) ;;
    ret [("text", VStr post_text); ("media", media_result)].

End WithExternal.

End Orchestration.

(* ================================================================== *)
(** * content_orchestrationfal.py *)
(* ================================================================== *)

Module Fal.

Definition normalize_plan (raw : dict) (user_media_choice : option string)
  : result dict :=
  let user_media_choice := of_optional_str user_media_choice in
  let media := dict_get_default raw "media_constraints" (VDict []) in
  let text := dict_get_default raw "text_constraints" (VDict []) in
  raw_type <- py_get media "type" VNone ;;
  let allowed_types :=
    if py_in raw_type [VStr "optional"; VStr "image_or_short_video"] then
      [VStr "image"; VStr "video"]
    else if py_in raw_type [VStr "video"; VStr "photo_carousel";
                            VStr "text_only"] then
      [raw_type]
    else [] in
  selected_type <-
    (if py_in user_media_choice allowed_types then Ok user_media_choice
     else if truthy (VList allowed_types) then list_first allowed_types
     else Ok VNone) ;;
  image <- py_get media "image" (VDict []) ;;
  video <- py_get media "video" (VDict []) ;;
  image_count <- py_get media "image_count" VNone ;;
  aspect_ratio <- py_get media "aspect_ratio" VNone ;;
  safe_zone_required <- py_get media "safe_zone_required" (VBool false) ;;
  ugc_style <- py_get media "ugc_style" (VBool false) ;;
  supports_audio <- py_get media "supports_audio" (VBool false) ;;
  recommended_use_cases <- py_get media "recommended_use_cases" (VList []) ;;
  Ok [("platform", dict_get_default raw "platform" VNone);
      ("content_type", dict_get_default raw "content_type" VNone);
      ("objective", dict_get_default raw "objective" VNone);
      ("tone", dict_get_default raw "tone" VNone);
      ("text_constraints", text);
      ("media_constraints",
        VDict [("allowed_types", VList allowed_types);
               ("selected_type", selected_type);
               ("raw", media);
               ("image", image);
               ("video", video);
               ("image_count", image_count);
               ("aspect_ratio", aspect_ratio);
               ("safe_zone_required", safe_zone_required);
               ("ugc_style", ugc_style);
               ("supports_audio", supports_audio);
               ("recommended_use_cases", recommended_use_cases)]);
      ("cta_style", dict_get_default raw "cta_style" VNone);
      ("optimization_goal", dict_get_default raw "optimization_goal" VNone);
      ("variation_count", dict_get_default raw "variation_count" VNone);
      ("_meta", dict_get_default raw "_meta" VNone)].

Section WithExternal.

Variable render : template -> dict -> string.

Definition build_text_prompt (plan : dict) : result string :=
  platform <- dict_item plan "platform" ;;
  objective <- dict_item plan "objective" ;;
  content_type <- dict_item plan "content_type" ;;
  tone <- dict_item plan "tone" ;;
  text_constraints <- dict_item plan "text_constraints" ;;
  Ok (render TEXT_PROMPT_TEMPLATE
        [("platform", platform); ("objective", objective);
         ("content_type", content_type); ("tone", tone);
         ("text_constraints", text_constraints)]).

Definition build_media_prompt (plan : dict) : result (option string) :=
  media_constraints <- dict_item plan "media_constraints" ;;
  media_type <- py_getitem media_constraints "selected_type" ;;
  if negb (truthy media_type) || py_eq media_type (VStr "text_only") then
    Ok None
  else
    platform <- dict_item plan "platform" ;;
    content_type <- dict_item plan "content_type" ;;
    objective <- dict_item plan "objective" ;;
    media_constraints <- dict_item plan "media_constraints" ;;
    Ok (Some (render MEDIA_PROMPT_TEMPLATE
                [("platform", platform); ("content_type", content_type);
                 ("objective", objective); ("media_type", media_type);
                 ("media_constraints", media_constraints)])).

Variable py_str : value -> string.

Definition build_text_user_data_block (user_inputs : dict) : string :=
  lines [""; "====================";
         "USER PROVIDED DATA";
         "====================";
         "";
         "CONTENT IDEA:";
         py_str (dict_get_default user_inputs "content_idea" VNone);
         "";
         "CONTEXT / DESCRIPTION:";
         py_str (dict_get_default user_inputs "description" VNone);
         "";
         "REFERENCE TEXT:";
         py_str (dict_get_default user_inputs "reference_text" VNone);
         "";
         "====================";
         "RULES";
         "====================";
         "- All fields above are provided by the user";
         "- Use them as the sole source of truth";
         "- Do NOT invent missing information";
         ""].

Definition build_media_user_data_block (user_inputs uploaded_files : dict)
  : string :=
  lines [""; "====================";
         "USER PROVIDED DATA";
         "====================";
         "";
         "CORE IDEA:";
         py_str (dict_get_default user_inputs "content_idea" VNone);
         "";
         "CONTEXT / DESCRIPTION:";
         py_str (dict_get_default user_inputs "description" VNone);
         "";
         (if truthy (dict_get_default uploaded_files "reference_image" VNone)
          then lines [""; "VISUAL REFERENCE:";
                      "Use the attached image(s) as visual/style reference.";
                      ""]
          else "");
         "";
         (if truthy (dict_get_default uploaded_files "video_init_image" VNone)
          then lines [""; "INITIAL FRAME:";
                      "Use the attached image as the starting frame.";
                      ""]
          else "");
         "";
         "====================";
         "RULES";
         "====================";
         "- All fields above are provided by the user";
         "- Use them as the sole source of truth";
         "- Do NOT invent visual elements not implied by the data";
         ""].

(** The dictionary [build_final_model_input] returns, a literal with these
    four keys. *)
Record final_model_input : Type := {
  fi_text_model_input : string;
  fi_media_model_input : option string;
  fi_media_payload : dict;
  fi_generation_plan : dict
}.

Definition build_final_model_input (plan user_inputs uploaded_files : dict)
  : result final_model_input :=
  text_prompt <- build_text_prompt plan ;;
  media_prompt <- build_media_prompt plan ;;
  let text_user_data := build_text_user_data_block user_inputs in
  let media_user_data :=
    build_media_user_data_block user_inputs uploaded_files in
  Ok {| fi_text_model_input := text_prompt ++ nl ++ nl ++ text_user_data;
        fi_media_model_input :=
          match media_prompt with
          | Some p =>
              if String.eqb p "" then None
              else Some (p ++ nl ++ nl ++ media_user_data)%string
          | None => None
          end;
        fi_media_payload :=
          [("reference_image",
             dict_get_default uploaded_files "reference_image" VNone);
           ("video_init_image",
             dict_get_default uploaded_files "video_init_image" VNone)];
        fi_generation_plan := plan |}.

(** Gemini Setup *)
Variable gemini : gemini_service.

Definition MODEL_NAME : string := "gemini-2.5-flash".

Definition generate_content (model contents : string) : M (option string) :=
  fun history =>
    (gemini history contents, [GeminiGenerateContent model contents]).

Definition generate_text_with_gemini (prompt : string) : M string :=
  try_except
    (text <~ generate_content MODEL_NAME prompt ;;
     match text with
     | Some t => ret (strip t)
     | None =>
         raise (AttributeError "'NoneType' object has no attribute 'strip'")
     end)
    (fun e => ret ("Error generating text with Gemini: " ++ str_exn e)%string).

(** fal.ai Setup *)
Variable fal : fal_service.

(** [fal_client.subscribe(application, arguments=arguments, with_logs=True)] *)
Definition subscribe (application : string) (arguments : dict) : M dict :=
  fun history =>
    (fal history application arguments, [FalSubscribe application arguments]).

Definition generate_image_with_fal (prompt : string)
    (constraints reference_image : value) : M value :=
  width <~ lift (py_get constraints "width" (VInt 1024)) ;;
  height <~ lift (py_get constraints "height" (VInt 1024)) ;;
  let arguments := [("prompt", VStr prompt);
                    ("output_format", VStr "png");
                    ("width", width);
                    ("height", height)] in
  let arguments :=
    if truthy reference_image then
      dict_set arguments "image_input" (VList [reference_image])
    else arguments in
  try_except
    (result <~ subscribe "fal-ai/nano-banana" arguments ;;
     if dict_mem result "images" then
       images <~ lift (dict_item result "images") ;;
       n <~ lift (py_len images) ;;
       if (0 <? n)%nat then
         image <~ lift (py_first images) ;;
         lift (py_getitem image "url")
       else ret (VStr (py_str (VDict result)))
     else ret (VStr (py_str (VDict result))))
    (fun e =>
       ret (VStr ("Error generating image with fal.ai: " ++ str_exn e))).

Definition generate_video_with_fal (prompt : string)
    (constraints init_image : value) : M value :=
  duration <~ lift (py_get constraints "max_duration_sec" (VInt 8)) ;;
  resolution <~ lift (py_get constraints "resolution" (VStr "1080p")) ;;
  aspect_ratio <~ lift (py_get constraints "aspect_ratio" (VStr "16:9")) ;;
  generate_audio <~
    lift (py_get constraints "supports_audio" (VBool true)) ;;
  let arguments := [("prompt", VStr prompt);
                    ("duration", duration);
                    ("resolution", resolution);
                    ("aspect_ratio", aspect_ratio);
                    ("generate_audio", generate_audio)] in
  let arguments :=
    if truthy init_image then dict_set arguments "image" init_image
    else arguments in
  try_except
    (result <~ subscribe "fal-ai/veo3" arguments ;;
     if dict_mem result "video" then
       video <~ lift (dict_item result "video") ;;
       lift (py_getitem video "url")
     else ret (VStr (py_str (VDict result))))
    (fun e =>
       ret (VStr ("Error generating video with fal.ai: " ++ str_exn e))).

(** AgentState Definition.  A key that has not been set yet is [None];
    [generated_media_url] also holds the list of a carousel. *)
Record AgentState : Type := {
  (* Inputs *)
  platform : option string;
  intent : option string;
  user_inputs : option dict;
  uploaded_files : option dict;
  user_media_choice : option (option string);
  (* Intermediate Data *)
  generation_plan : option dict;
  text_model_input : option string;
  media_payload : option dict;
  visual_prompt : option (option string);
  (* Outputs *)
  generated_text : option (option string);
  generated_media_url : option value;
  (* Status & Errors *)
  status : option string;
  errors : option (list string)
}.

(** The dictionary with no key. *)
Definition no_keys : AgentState :=
  {| platform := None; intent := None; user_inputs := None;
     uploaded_files := None; user_media_choice := None;
     generation_plan := None; text_model_input := None;
     media_payload := None; visual_prompt := None;
     generated_text := None; generated_media_url := None;
     status := None; errors := None |}.

(** The state after a node's returned dictionary has been written to it:
    the keys of the update replace those of the state. *)
Definition apply_update (state update : AgentState) : AgentState :=
  {| platform := or_else (platform update) (platform state);
     intent := or_else (intent update) (intent state);
     user_inputs := or_else (user_inputs update) (user_inputs state);
     uploaded_files := or_else (uploaded_files update) (uploaded_files state);
     user_media_choice :=
       or_else (user_media_choice update) (user_media_choice state);
     generation_plan :=
       or_else (generation_plan update) (generation_plan state);
     text_model_input :=
       or_else (text_model_input update) (text_model_input state);
     media_payload := or_else (media_payload update) (media_payload state);
     visual_prompt := or_else (visual_prompt update) (visual_prompt state);
     generated_text := or_else (generated_text update) (generated_text state);
     generated_media_url :=
       or_else (generated_media_url update) (generated_media_url state);
     status := or_else (status update) (status state);
     errors := or_else (errors update) (errors state) |}.

(** [{"errors": state.get("errors", []) + [message], "status": "failed"}] *)
Definition failed (state : AgentState) (message : string) : AgentState :=
  {| platform := None; intent := None; user_inputs := None;
     uploaded_files := None; user_media_choice := None;
     generation_plan := None; text_model_input := None;
     media_payload := None; visual_prompt := None;
     generated_text := None; generated_media_url := None;
     status := Some "failed";
     errors := Some (match errors state with Some l => l | None => [] end
                     ++ [message])%list |}.

(** LangGraph Nodes *)

(** The loaded rules *)
Variable rules : rules_t.

Definition planner_body (state : AgentState) : M AgentState :=
  p <~ lift (state_item (platform state) "platform") ;;
  i <~ lift (state_item (intent state) "intent") ;;
  raw_plan <~ lift (build_generation_plan rules p i) ;;
  choice <~ lift (state_item (user_media_choice state) "user_media_choice") ;;
  plan <~ lift (normalize_plan raw_plan choice) ;;
  ret {| platform := None; intent := None; user_inputs := None;
         uploaded_files := None; user_media_choice := None;
         generation_plan := Some plan; text_model_input := None;
         media_payload := None; visual_prompt := None;
         generated_text := None; generated_media_url := None;
         status := Some "plan_generated"; errors := Some [] |}.

Definition planner_node (state : AgentState) : M AgentState :=
  try_except (planner_body state)
    (fun e => ret (failed state ("Planner failed: " ++ str_exn e))).

Definition prompt_engineer_body (state : AgentState) : M AgentState :=
  plan <~ lift (state_item (generation_plan state) "generation_plan") ;;
  inputs <~ lift (state_item (user_inputs state) "user_inputs") ;;
  files <~ lift (state_item (uploaded_files state) "uploaded_files") ;;
  final_input <~ lift (build_final_model_input plan inputs files) ;;
  ret {| platform := None; intent := None; user_inputs := None;
         uploaded_files := None; user_media_choice := None;
         generation_plan := None;
         text_model_input := Some (fi_text_model_input final_input);
         media_payload := Some (fi_media_payload final_input);
         visual_prompt := Some (fi_media_model_input final_input);
         generated_text := None; generated_media_url := None;
         status := Some "prompts_engineered"; errors := Some [] |}.

Definition prompt_engineer_node (state : AgentState) : M AgentState :=
  try_except (prompt_engineer_body state)
    (fun e => ret (failed state ("Prompt Engineer failed: " ++ str_exn e))).

Definition copywriter_body (state : AgentState) : M AgentState :=
  if negb (match text_model_input state with
           | Some t => negb (String.eqb t "")
           | None => false
           end)
  then raise (ValueError "Text model input missing.")
  else
    prompt <~ lift (state_item (text_model_input state) "text_model_input") ;;
    post_text <~ generate_text_with_gemini prompt ;;
    ret {| platform := None; intent := None; user_inputs := None;
           uploaded_files := None; user_media_choice := None;
           generation_plan := None; text_model_input := None;
           media_payload := None; visual_prompt := None;
           generated_text := Some (Some post_text);
           generated_media_url := None;
           status := Some "text_generated"; errors := Some [] |}.

Definition copywriter_node (state : AgentState) : M AgentState :=
  try_except (copywriter_body state)
    (fun e => ret (failed state ("Copywriter failed: " ++ str_exn e))).

(** [state["generation_plan"]["media_constraints"].get("selected_type")] *)
Definition selected_media_type (state : AgentState) : result value :=
  plan <- state_item (generation_plan state) "generation_plan" ;;
  media_constraints <- dict_item plan "media_constraints" ;;
  py_get media_constraints "selected_type" VNone.

Definition visual_refiner_body (state : AgentState) : M AgentState :=
  media_type <~ lift (selected_media_type state) ;;
  if negb (truthy media_type) || py_eq media_type (VStr "text_only") then
    ret {| platform := None; intent := None; user_inputs := None;
           uploaded_files := None; user_media_choice := None;
           generation_plan := None; text_model_input := None;
           media_payload := None; visual_prompt := Some None;
           generated_text := None; generated_media_url := None;
           status := Some "visual_refiner_skipped"; errors := Some [] |}
  else if negb (present (generated_text state)) then
    raise (ValueError "Generated text missing for media prompt refinement.")
  else
    text <~ lift (state_item (generated_text state) "generated_text") ;;
    let visual_prompt_request :=
      ("Based on this social media post: '"
         ++ match text with Some s => s | None => py_str VNone end
         ++ "', create a detailed visual prompt for an " ++ py_str media_type
         ++ " generation. Focus on style, lighting, and composition. Return only the prompt.")%string in
    refined <~ generate_text_with_gemini visual_prompt_request ;;
    ret {| platform := None; intent := None; user_inputs := None;
           uploaded_files := None; user_media_choice := None;
           generation_plan := None; text_model_input := None;
           media_payload := None; visual_prompt := Some (Some refined);
           generated_text := None; generated_media_url := None;
           status := Some "visual_prompt_refined"; errors := Some [] |}.

Definition visual_refiner_node (state : AgentState) : M AgentState :=
  try_except (visual_refiner_body state)
    (fun e => ret (failed state ("Visual Refiner failed: " ++ str_exn e))).

(** [state["visual_prompt"]], read where it is known to be a string *)
Definition visual_prompt_text (state : AgentState) : result string :=
  prompt <- state_item (visual_prompt state) "visual_prompt" ;;
  match prompt with
  | Some s => Ok s
  | None => Ok (py_str VNone)
  end.

(** [state["uploaded_files"].get("reference_image")] and its like *)
Definition uploaded_file (state : AgentState) (key : string) : result value :=
  files <- state_item (uploaded_files state) "uploaded_files" ;;
  Ok (dict_get_default files key VNone).

Definition media_producer_body (state : AgentState) : M AgentState :=
  media_type <~ lift (selected_media_type state) ;;
  if negb (truthy media_type) || py_eq media_type (VStr "text_only") then
    ret {| platform := None; intent := None; user_inputs := None;
           uploaded_files := None; user_media_choice := None;
           generation_plan := None; text_model_input := None;
           media_payload := None; visual_prompt := None;
           generated_text := None; generated_media_url := Some VNone;
           status := Some "media_producer_skipped"; errors := Some [] |}
  else if negb (present (visual_prompt state)) then
    raise (ValueError "Visual prompt missing for media generation.")
  else
    plan <~ lift (state_item (generation_plan state) "generation_plan") ;;
    constraints <~ lift (dict_item plan "media_constraints") ;;
    media_result <~
      (if py_eq media_type (VStr "image") then
         prompt <~ lift (visual_prompt_text state) ;;
         image_constraints <~ lift (py_get constraints "image" (VDict [])) ;;
         reference_image <~ lift (uploaded_file state "reference_image") ;;
         generate_image_with_fal prompt image_constraints reference_image
       else if py_eq media_type (VStr "video") then
         prompt <~ lift (visual_prompt_text state) ;;
         video_constraints <~ lift (py_get constraints "video" (VDict [])) ;;
         init_image <~ lift (uploaded_file state "video_init_image") ;;
         generate_video_with_fal prompt video_constraints init_image
       else if py_eq media_type (VStr "photo_carousel") then
         image_count_constraints <~
           lift (py_get constraints "image_count" (VDict [])) ;;
         min_images <~
           lift (match image_count_constraints with
                 | VDict _ => py_get image_count_constraints "min" (VInt 1)
                 | _ => Ok (VInt 1)
                 end) ;;
         turns <~ lift (py_range min_images) ;;
         carousel_urls <~
           for_each (seq 0 turns)
             (fun i =>
                prompt <~ lift (visual_prompt_text state) ;;
                image_constraints <~
                  lift (py_get constraints "image" (VDict [])) ;;
                reference_image <~
                  lift (uploaded_file state "reference_image") ;;
                generate_image_with_fal
                  (prompt ++ " - Slide " ++ py_str (VInt (Z.of_nat i + 1)))
                  image_constraints reference_image) ;;
         ret (VList carousel_urls)
       else ret VNone) ;;
    ret {| platform := None; intent := None; user_inputs := None;
           uploaded_files := None; user_media_choice := None;
           generation_plan := None; text_model_input := None;
           media_payload := None; visual_prompt := None;
           generated_text := None; generated_media_url := Some media_result;
           status := Some "media_produced"; errors := Some [] |}.

Definition media_producer_node (state : AgentState) : M AgentState :=
  try_except (media_producer_body state)
    (fun e => ret (failed state ("Media Producer failed: " ++ str_exn e))).

(** Graph Definition *)

Definition node : Type := AgentState -> M AgentState.

(** What [StateGraph(AgentState)] collects. *)
Record StateGraph : Type := {
  nodes : list (string * node);
  entry_point : option string;
  edges : list (string * string)
}.

Definition END : string := "__end__".

Definition new_graph : StateGraph :=
  {| nodes := []; entry_point := None; edges := [] |}.

Definition add_node (name : string) (action : node) (g : StateGraph)
  : StateGraph :=
  {| nodes := nodes g ++ [(name, action)];
     entry_point := entry_point g;
     edges := edges g |}.

Definition set_entry_point (name : string) (g : StateGraph) : StateGraph :=
  {| nodes := nodes g; entry_point := Some name; edges := edges g |}.

Definition add_edge (start_key end_key : string) (g : StateGraph)
  : StateGraph :=
  {| nodes := nodes g;
     entry_point := entry_point g;
     edges := edges g ++ [(start_key, end_key)] |}.

Definition workflow : StateGraph :=
  let g := new_graph in
  (* Add nodes *)
  let g := add_node "planner" planner_node g in
  let g := add_node "prompt_engineer" prompt_engineer_node g in
  let g := add_node "copywriter" copywriter_node g in
  let g := add_node "visual_refiner" visual_refiner_node g in
  let g := add_node "media_producer" media_producer_node g in
  (* Set entry point *)
  let g := set_entry_point "planner" g in
  (* Add edges *)
  let g := add_edge "planner" "prompt_engineer" g in
  let g := add_edge "prompt_engineer" "copywriter" g in
  let g := add_edge "copywriter" "visual_refiner" g in
  let g := add_edge "visual_refiner" "media_producer" g in
  let g := add_edge "media_producer" END g in
  g.

(** The nodes an edge leads to from [name]. *)
Definition successors (g : StateGraph) (name : string) : list string :=
  map snd (filter (fun e => String.eqb (fst e) name) (edges g)).

(** What the compiled graph does on [invoke] is LangGraph's: it runs in
    steps; a step runs the active nodes on the current state, writes the
    dictionaries they return to the state, and activates the nodes their
    edges lead to; the run ends when no node is active, and is given up
    after [recursion_limit] steps.  Next to the final state the model
    returns the names of the nodes in the order they ran. *)
Definition recursion_limit : nat := 25.

Fixpoint run (fuel : nat) (g : StateGraph) (active : list string)
    (state : AgentState) : M (AgentState * list string) :=
  match active with
  | [] => ret (state, [])
  | _ :: _ =>
      match fuel with
      | O => raise (GraphRecursionError "Recursion limit reached")
      | S fuel' =>
          updates <~
            for_each active
              (fun name =>
                 match dict_get (nodes g) name with
                 | Some action => action state
                 | None => raise (ValueError ("Unknown node " ++ name))
                 end) ;;
          let state' := fold_left apply_update updates state in
          let next :=
            filter (fun n => negb (String.eqb n END))
              (nodup string_dec (flat_map (successors g) active)) in
          rest <~ run fuel' g next state' ;;
          ret (fst rest, (active ++ snd rest)%list)
      end
  end.

Definition invoke (g : StateGraph) (state : AgentState)
  : M (AgentState * list string) :=
  match entry_point g with
  | Some name => run recursion_limit g [name] state
  | None => raise (ValueError "Graph must have an entrypoint")
  end.

(** The nodes of the graph, in the order of the edges. *)
Definition node_names : list string :=
  ["planner"; "prompt_engineer"; "copywriter"; "visual_refiner";
   "media_producer"].

(** The five nodes one after the other, each on the state the one before
    it left. *)
Definition linear_chain (state : AgentState) : M AgentState :=
  u1 <~ planner_node state ;;
  let s1 := apply_update state u1 in
  u2 <~ prompt_engineer_node s1 ;;
  let s2 := apply_update s1 u2 in
  u3 <~ copywriter_node s2 ;;
  let s3 := apply_update s2 u3 in
  u4 <~ visual_refiner_node s3 ;;
  let s4 := apply_update s3 u4 in
  u5 <~ media_producer_node s4 ;;
  ret (apply_update s4 u5).

(** A node with the given body catches what the body raises: it returns
    the update [{"errors": old + [label failed: str(e)], "status":
    "failed"}] and nothing else of the state changes; and it never raises
    itself. *)
Definition node_catches (label : string)
    (body action : AgentState -> M AgentState) : Prop :=
  (forall state h e sent,
      body state h = (Raise e, sent) ->
      let message := (label ++ " failed: " ++ str_exn e)%string in
      let old := match errors state with Some l => l | None => [] end in
      exists update,
        action state h = (Ok update, sent) /\
        status update = Some "failed" /\
        errors update = Some (old ++ [message])%list /\
        apply_update state update =
          {| platform := platform state; intent := intent state;
             user_inputs := user_inputs state;
             uploaded_files := uploaded_files state;
             user_media_choice := user_media_choice state;
             generation_plan := generation_plan state;
             text_model_input := text_model_input state;
             media_payload := media_payload state;
             visual_prompt := visual_prompt state;
             generated_text := generated_text state;
             generated_media_url := generated_media_url state;
             status := Some "failed";
             errors := Some (old ++ [message])%list |}) /\
  (forall state h, exists update sent, action state h = (Ok update, sent)).

End WithExternal.

End Fal.

(* ================================================================== *)
(** * test(1).py *)
(* ================================================================== *)

Module Legacy.

Definition normalize_plan (raw : dict) (user_media_choice : option string)
  : result dict :=
  let user_media_choice := of_optional_str user_media_choice in
  let media := dict_get_default raw "media_constraints" (VDict []) in
  let text := dict_get_default raw "text_constraints" (VDict []) in
  media_type <- py_get media "type" VNone ;;
  let allowed_types :=
    if py_in media_type [VStr "optional"; VStr "image_or_short_video"] then
      [VStr "image"; VStr "video"]
    else if py_in media_type [VStr "video"; VStr "photo_carousel";
                              VStr "text_only"] then
      [media_type]
    else [] in
  selected_type <-
    (if py_in user_media_choice allowed_types then Ok user_media_choice
     else if truthy (VList allowed_types) then list_first allowed_types
     else Ok VNone) ;;
  image <- py_get media "image" (VDict []) ;;
  video <- py_get media "video" (VDict []) ;;
  image_count <- py_get media "image_count" VNone ;;
  aspect_ratio <- py_get media "aspect_ratio" VNone ;;
  safe_zone_required <- py_get media "safe_zone_required" VNone ;;
  ugc_style <- py_get media "ugc_style" VNone ;;
  supports_audio <- py_get media "supports_audio" VNone ;;
  recommended_use_cases <- py_get media "recommended_use_cases" VNone ;;
  Ok [("platform", dict_get_default raw "platform" VNone);
      ("content_type", dict_get_default raw "content_type" VNone);
      ("objective", dict_get_default raw "objective" VNone);
      ("tone", dict_get_default raw "tone" VNone);
      ("text_constraints", text);
      ("media_constraints",
        VDict [("allowed_types", VList allowed_types);
               ("selected_type", selected_type);
               ("raw", media);
               ("image", image);
               ("video", video);
               ("image_count", image_count);
               ("aspect_ratio", aspect_ratio);
               ("safe_zone_required", safe_zone_required);
               ("ugc_style", ugc_style);
               ("supports_audio", supports_audio);
               ("recommended_use_cases", recommended_use_cases)]);
      ("cta_style", dict_get_default raw "cta_style" VNone);
      ("optimization_goal", dict_get_default raw "optimization_goal" VNone);
      ("variation_count", dict_get_default raw "variation_count" VNone);
      ("_meta", dict_get_default raw "_meta" VNone)].

Section WithExternal.

Variable render : template -> dict -> string.

Definition build_media_prompt (plan : dict) : result (option string) :=
  media_constraints <- dict_item plan "media_constraints" ;;
  media_type <- py_getitem media_constraints "selected_type" ;;
  if negb (truthy media_type) then Ok None
  else
    platform <- dict_item plan "platform" ;;
    content_type <- dict_item plan "content_type" ;;
    objective <- dict_item plan "objective" ;;
    media_constraints <- dict_item plan "media_constraints" ;;
    Ok (Some (render MEDIA_PROMPT_TEMPLATE
                [("platform", platform); ("content_type", content_type);
                 ("objective", objective); ("media_type", media_type);
                 ("media_constraints", media_constraints)])).

End WithExternal.

End Legacy.

(* ================================================================== *)
(** * main.py *)
(* ================================================================== *)

Module Main.

(** What the endpoint uses of an [UploadFile]: its name, its content type
    and what [file.file.read()] gives. *)
Record UploadFile : Type := {
  filename : option string;
  content_type : option string;
  read : result string
}.

(** What a request is answered with: the dictionary the endpoint returns,
    or the [HTTPException] it raises. *)
Inductive reply : Type :=
| Response (body : dict)
| HTTPException (status_code : Z) (detail : string).

Section WithExternal.

(** [base64.b64encode(contents).decode("utf-8")] *)
Variable b64encode : string -> string.

(** [workflow_app]: the compiled workflow of content_orchestrationfal.py
    with its [invoke], or [None] when the import failed. *)
Variable workflow_app : option (Fal.AgentState -> M Fal.AgentState).

(** Helper to convert uploaded file to data URI for Fal.ai *)
Definition file_to_data_uri (file : option UploadFile) : value :=
  match file with
  | None => VNone
  | Some f =>
      match
        (contents <- read f ;;
         let encoded := b64encode contents in
         let media_type :=
           match content_type f with
           | Some t =>
               if String.eqb t "" then "application/octet-stream" else t
           | None => "application/octet-stream"
           end in
         Ok ("data:" ++ media_type ++ ";base64," ++ encoded)%string)
      with
      | Ok uri => VStr uri
      | Raise _ => VNone
      end
  end.

Definition generate_content (platform intent content_idea description : string)
    (reference_text user_media_choice : option string)
    (reference_image video_init_image : option UploadFile)
  : list event -> reply * list event :=
  fun history =>
    match workflow_app with
    | None =>
        (HTTPException 500 "Workflow app not initialized. Check imports.",
         [])
    | Some invoke =>
        (* Prepare inputs for the agent *)
        let user_inputs :=
          [("content_idea", VStr content_idea);
           ("description", VStr description);
           ("reference_text",
             VStr (match reference_text with Some t => t | None => "" end))]
        in
        (* Process files: an upload that is there is a true object *)
        let uploaded_files :=
          [("reference_image", VNone); ("video_init_image", VNone)] in
        let uploaded_files :=
          match reference_image with
          | Some _ =>
              dict_set uploaded_files "reference_image"
                (file_to_data_uri reference_image)
          | None => uploaded_files
          end in
        let uploaded_files :=
          match video_init_image with
          | Some _ =>
              dict_set uploaded_files "video_init_image"
                (file_to_data_uri video_init_image)
          | None => uploaded_files
          end in
        (* Initial state for LangGraph *)
        let initial_state :=
          {| Fal.platform := Some platform;
             Fal.intent := Some intent;
             Fal.user_inputs := Some user_inputs;
             Fal.uploaded_files := Some uploaded_files;
             Fal.user_media_choice := Some user_media_choice;
             Fal.generation_plan := None;
             Fal.text_model_input := None;
             Fal.media_payload := None;
             Fal.visual_prompt := None;
             Fal.generated_text := None;
             Fal.generated_media_url := None;
             Fal.status := None;
             Fal.errors := Some [] |} in
        (* Invoke the LangGraph workflow *)
        match invoke initial_state history with
        | (Ok final_state, sent) =>
            (Response
               [("status", VStr "success");
                ("generated_text",
                  match Fal.generated_text final_state with
                  | Some (Some text) => VStr text
                  | _ => VNone
                  end);
                ("generated_media_url",
                  match Fal.generated_media_url final_state with
                  | Some media => media
                  | None => VNone
                  end);
                ("errors",
                  VList (map VStr
                           match Fal.errors final_state with
                           | Some l => l
                           | None => []
                           end))],
             sent)
        | (Raise e, sent) => (HTTPException 500 (str_exn e), sent)
        end
    end.

End WithExternal.

(** [from content_orchestrationfal import app as workflow_app], when the
    import succeeds: [workflow_app.invoke] runs the compiled workflow and
    returns its final state. *)
Definition imported_app (render : template -> dict -> string)
    (py_str : value -> string) (gemini : gemini_service)
    (fal : fal_service) (rules : rules_t)
  : Fal.AgentState -> M Fal.AgentState :=
  fun state =>
    run <~ Fal.invoke (Fal.workflow render py_str gemini fal rules) state ;;
    ret (fst run).

End Main.

(* ================================================================== *)
(** * Vocabulary of the statements *)
(* ================================================================== *)

(** [plan["media_constraints"][k]] of a normalised plan, when it is there. *)
Definition plan_media_field (plan : dict) (k : string) : option value :=
  match dict_get plan "media_constraints" with
  | Some (VDict mc) => dict_get mc k
  | _ => None
  end.

(** The shape promised for the selection made by [normalize_plan]:
    [selected_type] is [None] when [allowed_types] is empty and one of the
    allowed types otherwise, and it is the user's choice whenever that
    choice is allowed. *)
Definition selection_invariant (user_media_choice : option string)
    (plan : dict) : Prop :=
  exists allowed selected,
    plan_media_field plan "allowed_types" = Some (VList allowed) /\
    plan_media_field plan "selected_type" = Some selected /\
    (allowed = [] -> selected = VNone) /\
    (allowed <> [] -> In selected allowed) /\
    (py_in (of_optional_str user_media_choice) allowed = true ->
     selected = of_optional_str user_media_choice).

(** A raw plan asking for an image. *)
Definition raw_image_plan : dict :=
  [("content_type", VStr "post");
   ("media_constraints", VDict [("type", VStr "image")])].

(** The raw plan of platform ["X"], intent ["DEFAULT"], under the fallback
    configuration. *)
Definition raw_x_default : dict :=
  [("content_type", VStr "post");
   ("objective", VStr "engagement");
   ("tone", VStr "professional");
   ("text_constraints", VDict [("max_chars", VInt 280)]);
   ("media_constraints", VDict [("type", VStr "optional")]);
   ("_meta", VDict [("platform", VStr "X"); ("intent", VStr "DEFAULT")])].

(** A raw plan of a text-only post. *)
Definition raw_text_only : dict :=
  [("platform", VStr "X");
   ("content_type", VStr "post");
   ("objective", VStr "engagement");
   ("tone", VStr "professional");
   ("media_constraints", VDict [("type", VStr "text_only")])].

(** The context [build_media_prompt] renders the media template with. *)
Definition media_prompt_context (plan : dict) (media_type : value) : dict :=
  [("platform", dict_get_default plan "platform" VNone);
   ("content_type", dict_get_default plan "content_type" VNone);
   ("objective", dict_get_default plan "objective" VNone);
   ("media_type", media_type);
   ("media_constraints", dict_get_default plan "media_constraints" VNone)].

(** The keys of a plan built by [normalize_plan]. *)
Definition normalized_plan_shape (plan : dict) (selected : value) : Prop :=
  exists platform content_type objective tone text allowed media image video
         image_count aspect_ratio safe_zone_required ugc_style supports_audio
         recommended_use_cases cta_style optimization_goal variation_count
         meta,
    plan =
      [("platform", platform);
       ("content_type", content_type);
       ("objective", objective);
       ("tone", tone);
       ("text_constraints", text);
       ("media_constraints",
         VDict [("allowed_types", VList allowed);
                ("selected_type", selected);
                ("raw", media);
                ("image", image);
                ("video", video);
                ("image_count", image_count);
                ("aspect_ratio", aspect_ratio);
                ("safe_zone_required", safe_zone_required);
                ("ugc_style", ugc_style);
                ("supports_audio", supports_audio);
                ("recommended_use_cases", recommended_use_cases)]);
       ("cta_style", cta_style);
       ("optimization_goal", optimization_goal);
       ("variation_count", variation_count);
       ("_meta", meta)].

(** Sample services, for running the pipeline on an example. *)
Definition sample_render (t : template) (context : dict) : string :=
  match t with
  | TEXT_PROMPT_TEMPLATE => "write the post"
  | MEDIA_PROMPT_TEMPLATE => "describe the media"
  end.

Definition sample_str (v : value) : string :=
  match v with
  | VStr s => s
  | VNone => "None"
  | VBool true => "True"
  | VBool false => "False"
  | VInt z => NilZero.string_of_int (Z.to_int z)
  | _ => "?"
  end.

Definition sample_gemini : gemini_service :=
  fun _ _ => Ok (Some " Crunch into happiness! ").

(** A Gemini service that is down. *)
Definition failing_gemini : gemini_service :=
  fun _ _ => Raise (ServiceError "503 UNAVAILABLE").

Definition sample_replicate : replicate_service :=
  fun _ _ _ _ => Ok (VList [VStr "https://replicate.delivery/out.png"]).

Definition sample_fal : fal_service :=
  fun _ _ _ =>
    Ok [("images", VList [VDict [("url", VStr "https://fal.media/out.png")]])].

Definition sample_user_inputs : dict :=
  [("content_idea", VStr "ads about chipsy");
   ("description", VStr "Crunch into happiness!");
   ("reference_text", VStr "Informative and visionary.")].

Definition sample_uploaded_files : dict :=
  [("reference_image", VNone); ("video_init_image", VNone)].

(** The number of requests a computation sends is at most [n]. *)
Definition sends_at_most {A : Type} (n : nat) (m : M A) : Prop :=
  forall h, (List.length (snd (m h)) <= n)%nat.

(** The state the demo run of content_orchestrationfal.py starts from, for
    platform ["X"] and intent ["DEFAULT"]. *)
Definition sample_state : Fal.AgentState :=
  {| Fal.platform := Some "X"; Fal.intent := Some "DEFAULT";
     Fal.user_inputs := Some sample_user_inputs;
     Fal.uploaded_files := Some sample_uploaded_files;
     Fal.user_media_choice := Some (Some "image");
     Fal.generation_plan := None; Fal.text_model_input := None;
     Fal.media_payload := None; Fal.visual_prompt := None;
     Fal.generated_text := None; Fal.generated_media_url := None;
     Fal.status := None; Fal.errors := Some [] |}.

(** The place of [n] in [l] (the length of [l] when it is not there). *)
Fixpoint position (n : string) (l : list string) : nat :=
  match l with
  | [] => O
  | x :: r => if String.eqb x n then O else S (position n r)
  end.

(** The sample state after the planner, the prompt engineer, the copywriter
    and the visual refiner have run on the sample services. *)
Definition sample_refined_state : Fal.AgentState :=
  let step (node : Fal.node) (s : Fal.AgentState) : Fal.AgentState :=
    match fst (node s []) with
    | Ok u => Fal.apply_update s u
    | Raise _ => s
    end in
  step (Fal.visual_refiner_node sample_str sample_gemini)
    (step (Fal.copywriter_node sample_gemini)
       (step (Fal.prompt_engineer_node sample_render sample_str)
          (step (Fal.planner_node dummy_rules) sample_state))).

(** The number of slides the media producer generates for a carousel:
    [image_count["min"]] of the plan's media constraints, 1 by default
    (0 when it cannot be read). *)
Definition carousel_slides (state : Fal.AgentState) : nat :=
  match
    (plan <- state_item (Fal.generation_plan state) "generation_plan" ;;
     constraints <- dict_item plan "media_constraints" ;;
     image_count_constraints <- py_get constraints "image_count" (VDict []) ;;
     min_images <-
       match image_count_constraints with
       | VDict _ => py_get image_count_constraints "min" (VInt 1)
       | _ => Ok (VInt 1)
       end ;;
     py_range min_images)
  with
  | Ok turns => turns
  | Raise _ => O
  end.

(** Rules with a carousel intent, and the state of a carousel request after
    the first four nodes have run on the sample services. *)
Definition carousel_rules : rules_t :=
  [("TIKTOK",
    [("DEFAULT",
      [("content_type", VStr "video");
       ("objective", VStr "engagement");
       ("tone", VStr "playful");
       ("media_constraints", VDict [("type", VStr "video")])]);
     ("PHOTO_CAROUSEL",
      [("content_type", VStr "photo_carousel");
       ("media_constraints",
         VDict [("type", VStr "photo_carousel");
                ("image_count",
                  VDict [("min", VInt 2); ("max", VInt 35)])])])])].

Definition sample_carousel_state : Fal.AgentState :=
  let step (node : Fal.node) (s : Fal.AgentState) : Fal.AgentState :=
    match fst (node s []) with
    | Ok u => Fal.apply_update s u
    | Raise _ => s
    end in
  step (Fal.visual_refiner_node sample_str sample_gemini)
    (step (Fal.copywriter_node sample_gemini)
       (step (Fal.prompt_engineer_node sample_render sample_str)
          (step (Fal.planner_node carousel_rules)
             {| Fal.platform := Some "TikTok";
                Fal.intent := Some "PHOTO_CAROUSEL";
                Fal.user_inputs := Some sample_user_inputs;
                Fal.uploaded_files := Some sample_uploaded_files;
                Fal.user_media_choice := Some (Some "photo_carousel");
                Fal.generation_plan := None; Fal.text_model_input := None;
                Fal.media_payload := None; Fal.visual_prompt := None;
                Fal.generated_text := None; Fal.generated_media_url := None;
                Fal.status := None; Fal.errors := Some [] |}))).

(** The keys of a normalised plan and of its [media_constraints]. *)
Definition plan_keys : list string :=
  ["platform"; "content_type"; "objective"; "tone"; "text_constraints";
   "media_constraints"; "cta_style"; "optimization_goal"; "variation_count";
   "_meta"].

Definition media_constraint_keys : list string :=
  ["allowed_types"; "selected_type"; "raw"; "image"; "video"; "image_count";
   "aspect_ratio"; "safe_zone_required"; "ugc_style"; "supports_audio";
   "recommended_use_cases"].

(** The media types [normalize_plan] knows, and no selection. *)
Definition known_selections : list value :=
  [VNone; VStr "image"; VStr "video"; VStr "photo_carousel"; VStr "text_only"].

(** The first key of [ks] that [d] does not have. *)
Fixpoint first_missing (ks : list string) (d : dict) : option string :=
  match ks with
  | [] => None
  | k :: r => if dict_mem d k then first_missing r d else Some k
  end.

(** A raw plan whose [media_constraints] is not a dictionary. *)
Definition raw_bad_media : dict :=
  [("content_type", VStr "post"); ("media_constraints", VStr "optional")].

(** The keys of the media payload of content_orchestration.py and of the
    constraints it carries. *)
Definition media_payload_keys : list string :=
  ["media_model_input"; "media_type"; "media_constraints"; "reference_image";
   "video_init_image"].

Definition payload_constraint_keys : list string :=
  ["allowed_types"; "selected_type"; "image"; "video"; "image_count";
   "aspect_ratio"; "safe_zone_required"; "ugc_style"; "supports_audio";
   "recommended_use_cases"].

(** The keys [build_text_prompt] reads, in the order it reads them. *)
Definition text_prompt_keys : list string :=
  ["platform"; "objective"; "content_type"; "tone"; "text_constraints"].

(** The video model of content_orchestration.py. *)
Definition ltx_video : string :=
  "lightricks/ltx-video:8c47da66681d081eeb4d1261853087de23923a268a".

(** The arguments of a nano-banana request: the prompt, the format and
    the size from the constraints, and the reference image when there is
    one. *)
Definition fal_image_arguments (prompt : string) (c : dict)
    (reference_image : value) : dict :=
  let arguments := [("prompt", VStr prompt);
                    ("output_format", VStr "png");
                    ("width", dict_get_default c "width" (VInt 1024));
                    ("height", dict_get_default c "height" (VInt 1024))] in
  if truthy reference_image then
    (arguments ++ [("image_input", VList [reference_image])])%list
  else arguments.

(** The request for a visual prompt that is sent to Gemini. *)
Definition visual_prompt_request (py_str : value -> string) (text : string)
    (media_type : value) : string :=
  "Based on this social media post: '" ++ text
    ++ "', create a detailed visual prompt for an " ++ py_str media_type
    ++ " generation. Focus on style, lighting, and composition. Return only the prompt.".

(** Rules of a platform that takes text only. *)
Definition text_only_rules : rules_t :=
  [("LINKEDIN",
    [("DEFAULT",
      [("content_type", VStr "post");
       ("objective", VStr "thought_leadership");
       ("tone", VStr "professional");
       ("media_constraints", VDict [("type", VStr "text_only")])])])].

(** Base64 as [base64.b64encode] computes it (RFC 4648, with padding), for
    the sample runs of the endpoint. *)
Definition b64_digit (n : N) : ascii :=
  match
    String.get (N.to_nat n)
      "ABCDEFGHIJKLMNOPQRSTUVWXYZabcdefghijklmnopqrstuvwxyz0123456789+/"
  with
  | Some c => c
  | None => "="%char
  end.

Fixpoint sample_b64encode (s : string) : string :=
  match s with
  | EmptyString => EmptyString
  | String a EmptyString =>
      let x := N_of_ascii a in
      String (b64_digit (x / 4))
        (String (b64_digit (x mod 4 * 16)) "==")
  | String a (String b EmptyString) =>
      let x := N_of_ascii a in
      let y := N_of_ascii b in
      String (b64_digit (x / 4))
        (String (b64_digit (x mod 4 * 16 + y / 16))
           (String (b64_digit (y mod 16 * 4)) "="))
  | String a (String b (String c r)) =>
      let x := N_of_ascii a in
      let y := N_of_ascii b in
      let z := N_of_ascii c in
      String (b64_digit (x / 4))
        (String (b64_digit (x mod 4 * 16 + y / 16))
           (String (b64_digit (y mod 16 * 4 + z / 64))
              (String (b64_digit (z mod 64)) (sample_b64encode r))))
  end%N.

(** An upload that can be read, and one whose read fails. *)
Definition sample_upload : Main.UploadFile :=
  {| Main.filename := Some "logo.png";
     Main.content_type := Some "image/png";
     Main.read := Ok "Man" |}.

Definition broken_upload : Main.UploadFile :=
  {| Main.filename := Some "logo.png";
     Main.content_type := Some "image/png";
     Main.read := Raise (ValueError "I/O operation on closed file.") |}.

(** The media type the visual refiner and the media producer work for: the
    plan's [selected_type], when it can be read and is neither falsy nor
    ["text_only"]. *)
Definition media_to_generate (state : Fal.AgentState) : option value :=
  match Fal.selected_media_type state with
  | Ok media_type =>
      if negb (truthy media_type) || py_eq media_type (VStr "text_only")
      then None
      else Some media_type
  | Raise _ => None
  end.

(** Whether [plan["media_constraints"].get(key, {})] is a dictionary. *)
Definition constraints_are_dict (state : Fal.AgentState) (key : string)
  : bool :=
  match
    (plan <- state_item (Fal.generation_plan state) "generation_plan" ;;
     constraints <- dict_item plan "media_constraints" ;;
     py_get constraints key (VDict []))
  with
  | Ok (VDict _) => true
  | _ => false
  end.

(** The number of requests the visual refiner sends: one when there is a
    media type to generate for and a generated text that is not empty. *)
Definition visual_refiner_requests (state : Fal.AgentState) : nat :=
  match media_to_generate state with
  | Some _ => if present (Fal.generated_text state) then 1%nat else 0%nat
  | None => 0%nat
  end.

(** The number of requests the media producer sends: with a media type to
    generate for, a visual prompt that is not empty and [uploaded_files]
    set, one for an image or a video whose constraints are a dictionary,
    and one a slide for a carousel whose image constraints are a
    dictionary. *)
Definition media_producer_requests (state : Fal.AgentState) : nat :=
  match media_to_generate state, Fal.uploaded_files state with
  | Some media_type, Some _ =>
      if negb (present (Fal.visual_prompt state)) then 0%nat
      else if py_eq media_type (VStr "image") then
        if constraints_are_dict state "image" then 1%nat else 0%nat
      else if py_eq media_type (VStr "video") then
        if constraints_are_dict state "video" then 1%nat else 0%nat
      else if py_eq media_type (VStr "photo_carousel") then
        if constraints_are_dict state "image" then carousel_slides state
        else 0%nat
      else 0%nat
  | _, _ => 0%nat
  end.

(* ================================================================== *)
(* ================================================================== *)
(** * Properties *)
(* ================================================================== *)
(* ================================================================== *)

(** ** Dictionaries *)

Lemma deepcopy_id (v : value) : deepcopy v = v.
Proof.
  induction v using value_nested_ind; simpl; try reflexivity.
  - f_equal. induction H as [|x l Hx _ IH]; simpl; [reflexivity|].
    now rewrite Hx, IH.
  - f_equal. induction H as [|[k x] d Hx _ IH]; simpl in *; [reflexivity|].
    now rewrite Hx, IH.
Qed.

Lemma deepcopy_dict_id (d : dict) : deepcopy_dict d = d.
Proof.
  pose proof (deepcopy_id (VDict d)) as H. simpl in H.
  now injection H.
Qed.

Lemma deep_merge_unfold (base override : dict) :
  deep_merge base override = fold_left merge_step override (deepcopy_dict base).
Proof.
  unfold deep_merge. simpl.
  generalize (deepcopy_dict base) as result.
  induction override as [|[k v] rest IH]; intro result; simpl; [reflexivity|].
  rewrite IH. f_equal. unfold merge_step. simpl.
  destruct (dict_get result k) as [[| | | | |rk]|]; try reflexivity.
  destruct v; reflexivity.
Qed.

Lemma dict_get_set_same {d : dict} {k : string} {v : value} :
  dict_get (dict_set d k v) k = Some v.
Proof.
  induction d as [|[k' v'] r IH]; simpl.
  - now rewrite String.eqb_refl.
  - destruct (String.eqb k' k) eqn:E; simpl; rewrite E; [reflexivity | exact IH].
Qed.

Lemma dict_get_set_other (d : dict) (k k0 : string) (v : value) :
  k <> k0 -> dict_get (dict_set d k v) k0 = dict_get d k0.
Proof.
  intro Hne. induction d as [|[k' v'] r IH]; simpl.
  - destruct (String.eqb k k0) eqn:E; [|reflexivity].
    apply String.eqb_eq in E. contradiction.
  - destruct (String.eqb k' k) eqn:E; simpl.
    + apply String.eqb_eq in E. subst k'.
      destruct (String.eqb k k0) eqn:E0; [|reflexivity].
      apply String.eqb_eq in E0. contradiction.
    + now rewrite IH.
Qed.

Lemma dict_set_unchanged (d : dict) (k : string) (v : value) :
  dict_get d k = Some v -> dict_set d k v = d.
Proof.
  induction d as [|[k' v'] r IH]; simpl; [discriminate|].
  destruct (String.eqb k' k) eqn:E.
  - intro H. now injection H as ->.
  - intro H. now rewrite IH.
Qed.

Lemma dict_set_fresh (d : dict) (k : string) (v : value) :
  dict_get d k = None -> dict_set d k v = d ++ [(k, v)].
Proof.
  induction d as [|[k' v'] r IH]; simpl; [reflexivity|].
  destruct (String.eqb k' k); [discriminate|].
  intro H. now rewrite IH.
Qed.

Lemma dict_get_none_iff {A : Type} (d : list (string * A)) (k : string) :
  dict_get d k = None <-> ~ In k (map fst d).
Proof.
  induction d as [|[k' v'] r IH]; simpl.
  - split; [intros _ []|reflexivity].
  - destruct (String.eqb k' k) eqn:E.
    + apply String.eqb_eq in E. split; [discriminate|]. intro H. exfalso. auto.
    + apply String.eqb_neq in E. rewrite IH. tauto.
Qed.

Lemma dict_get_in_nodup (d : dict) (k : string) (v : value) :
  NoDup (map fst d) -> In (k, v) d -> dict_get d k = Some v.
Proof.
  induction d as [|[k' v'] r IH]; simpl; [intros _ []|].
  intros Hnd [Heq|Hin].
  - injection Heq as -> ->. now rewrite String.eqb_refl.
  - inversion Hnd as [|? ? Hnotin Hnd']; subst.
    destruct (String.eqb k' k) eqn:E.
    + apply String.eqb_eq in E. subst k'. exfalso. apply Hnotin.
      change k with (fst (k, v)). now apply in_map.
    + now apply IH.
Qed.

Lemma keys_dict_set (d : dict) (k x : string) (v : value) :
  In x (keys (dict_set d k v)) <-> In x (keys d) \/ x = k.
Proof.
  unfold keys. induction d as [|[k' v'] r IH]; simpl.
  - intuition.
  - destruct (String.eqb k' k) eqn:E; simpl.
    + apply String.eqb_eq in E. subst k'. intuition.
    + rewrite IH. intuition.
Qed.

Lemma keys_deepcopy_dict (d : dict) : keys (deepcopy_dict d) = keys d.
Proof. now rewrite deepcopy_dict_id. Qed.

Lemma keys_merge_step (result : dict) (kv : string * value) (x : string) :
  In x (keys (merge_step result kv)) <-> In x (keys result) \/ x = fst kv.
Proof.
  unfold merge_step.
  destruct (dict_get result (fst kv)) as [[| | | | |rk]|];
    try apply keys_dict_set.
  destruct (snd kv); apply keys_dict_set.
Qed.

Lemma keys_fold_merge_step (items result : dict) (x : string) :
  In x (keys (fold_left merge_step items result))
  <-> In x (keys result) \/ In x (keys items).
Proof.
  revert result. induction items as [|kv rest IH]; intro result; simpl.
  - tauto.
  - rewrite IH, keys_merge_step. intuition (subst; auto).
Qed.

(** ** [wf_value], unfolded *)

Lemma wf_dict_inv (d : dict) :
  wf_dict d ->
  NoDup (keys d) /\ Forall (fun kv => wf_value (snd kv)) d.
Proof.
  unfold wf_dict. simpl. intros [Hnd Hall]. split; [exact Hnd|].
  clear Hnd. induction d as [|kv r IH]; constructor.
  - exact (proj1 Hall).
  - apply IH. exact (proj2 Hall).
Qed.

(** ** [deep_merge]: identities *)

Lemma deep_merge_empty_override (d : dict) : deep_merge d [] = d.
Proof. rewrite deep_merge_unfold. simpl. apply deepcopy_dict_id. Qed.

Lemma fold_merge_step_fresh (items result : dict) :
  NoDup (keys items) ->
  (forall k, In k (keys items) -> ~ In k (keys result)) ->
  fold_left merge_step items result = result ++ items.
Proof.
  revert result. induction items as [|[k v] rest IH]; intros result Hnd Hdisj.
  - simpl. now rewrite app_nil_r.
  - simpl. inversion Hnd as [|? ? Hnotin Hnd']; subst.
    assert (Hstep : merge_step result (k, v) = result ++ [(k, v)]).
    { unfold merge_step; simpl.
      assert (Hnone : dict_get result k = None).
      { apply dict_get_none_iff. apply Hdisj. simpl. now left. }
      rewrite Hnone, deepcopy_id. now apply dict_set_fresh. }
    rewrite Hstep, IH; [now rewrite <- app_assoc | exact Hnd' |].
    intros k0 Hin Hin'. unfold keys in Hin'. rewrite map_app in Hin'.
    apply in_app_or in Hin'. destruct Hin' as [Hin'|[<-|[]]].
    + apply (Hdisj k0); [simpl; now right | exact Hin'].
    + contradiction.
Qed.

Lemma deep_merge_empty_base (d : dict) :
  NoDup (keys d) -> deep_merge [] d = d.
Proof.
  intro Hnd. rewrite deep_merge_unfold. simpl.
  rewrite fold_merge_step_fresh; auto.
Qed.

Lemma fold_merge_step_stable (items result : dict) :
  (forall kv, In kv items -> merge_step result kv = result) ->
  fold_left merge_step items result = result.
Proof.
  induction items as [|kv rest IH]; intro H; simpl; [reflexivity|].
  rewrite (H kv) by now left. apply IH. intros kv' Hin. apply H. now right.
Qed.

Lemma deep_merge_self_value (v : value) :
  wf_value v ->
  match v with VDict d => deep_merge d d = d | _ => True end.
Proof.
  induction v as [| | | | l _ | d IH] using value_nested_ind; intro Hwf;
    try exact I.
  destruct (wf_dict_inv d Hwf) as [Hnd Hall].
  rewrite deep_merge_unfold, deepcopy_dict_id.
  apply fold_merge_step_stable. intros [k v] Hin.
  unfold merge_step; simpl.
  rewrite (dict_get_in_nodup d k v Hnd Hin).
  rewrite Forall_forall in IH, Hall.
  specialize (IH (k, v) Hin (Hall (k, v) Hin)). simpl in IH.
  destruct v; rewrite ?deepcopy_id;
    try (apply dict_set_unchanged; now apply dict_get_in_nodup).
  rewrite IH. apply dict_set_unchanged. now apply dict_get_in_nodup.
Qed.

(** ** [deep_merge], key by key *)

Lemma dict_get_merge_step_same (result : dict) (k : string) (v : value) :
  dict_get (merge_step result (k, v)) k
  = merged_entry (dict_get result k) (Some v).
Proof.
  unfold merge_step, merged_entry; simpl.
  destruct (dict_get result k) as [[| | | | |rk]|]; destruct v;
    rewrite ?deepcopy_id; apply dict_get_set_same.
Qed.

Lemma dict_get_merge_step_other (result : dict) (kv : string * value) (k : string) :
  fst kv <> k -> dict_get (merge_step result kv) k = dict_get result k.
Proof.
  intro Hne. unfold merge_step.
  destruct (dict_get result (fst kv)) as [[| | | | |rk]|];
    try now apply dict_get_set_other.
  destruct (snd kv); now apply dict_get_set_other.
Qed.

Lemma dict_get_fold_merge_step (items result : dict) (k : string) :
  NoDup (keys items) ->
  dict_get (fold_left merge_step items result) k
  = merged_entry (dict_get result k) (dict_get items k).
Proof.
  revert result. induction items as [|[k1 v1] rest IH]; intros result Hnd.
  - reflexivity.
  - inversion Hnd as [|? ? Hnotin Hnd']; subst. simpl.
    rewrite IH by exact Hnd'.
    destruct (String.eqb k1 k) eqn:E.
    + apply String.eqb_eq in E. subst k1.
      assert (Hnone : dict_get rest k = None) by now apply dict_get_none_iff.
      rewrite Hnone. simpl. apply dict_get_merge_step_same.
    + apply String.eqb_neq in E.
      now rewrite dict_get_merge_step_other.
Qed.

Lemma dict_get_deep_merge (base override : dict) (k : string) :
  NoDup (keys override) ->
  dict_get (deep_merge base override) k
  = merged_entry (dict_get base k) (dict_get override k).
Proof.
  intro Hnd. rewrite deep_merge_unfold, deepcopy_dict_id.
  now apply dict_get_fold_merge_step.
Qed.

(* ================================================================== *)
(** * Claims on [deep_merge] and [build_generation_plan] *)
(* ================================================================== *)

(** C9.  [deep_merge] has the empty dictionary as identity on both sides and
    is idempotent: for every dictionary [d] (a Python dictionary: every key
    once, at every depth) [deep_merge(d, {}) = d], [deep_merge({}, d) = d]
    and [deep_merge(d, d) = d]; and the keys of [deep_merge(base, override)]
    are exactly the keys of [base] together with the keys of [override]. *)
Theorem deep_merge_identity_idempotent_keys :
  (forall d : dict,
      wf_dict d ->
      deep_merge d [] = d /\ deep_merge [] d = d /\ deep_merge d d = d)
  /\
  (forall (base override : dict) (k : string),
      In k (keys (deep_merge base override))
      <-> In k (keys base) \/ In k (keys override)).
Proof.
  split.
  - intros d Hwf. destruct (wf_dict_inv d Hwf) as [Hnd _].
    repeat split.
    + apply deep_merge_empty_override.
    + now apply deep_merge_empty_base.
    + exact (deep_merge_self_value (VDict d) Hwf).
  - intros base override k.
    rewrite deep_merge_unfold, keys_fold_merge_step, keys_deepcopy_dict.
    tauto.
Qed.

Lemma deep_merge_identity_idempotent_keys_witness :
  let d := [("tone", VStr "professional");
            ("text_constraints", VDict [("max_chars", VInt 280)]);
            ("media_constraints", VDict [("type", VStr "optional")])] in
  wf_dict d /\
  deep_merge d [] = d /\ deep_merge [] d = d /\ deep_merge d d = d.
Proof.
  intro d.
  assert (Hwf : wf_dict d).
  { unfold wf_dict, d; simpl.
    repeat split; repeat constructor; simpl; intuition discriminate. }
  split; [exact Hwf|].
  exact (proj1 deep_merge_identity_idempotent_keys d Hwf).
Defined.

(** C1 (as stated) fails where the platform has the intent but no
    ["DEFAULT"] entry: the lookup [rules[platform]["DEFAULT"]] raises
    [KeyError] and no plan is returned. *)
Lemma build_generation_plan_without_default :
  dict_mem rules_without_default (upper "x") = true /\
  (exists intents,
      dict_get rules_without_default (upper "x") = Some intents /\
      dict_mem intents "PROMO" = true) /\
  build_generation_plan rules_without_default "x" "PROMO"
  = Raise (key_error "DEFAULT").
Proof.
  split; [reflexivity|]. split; [|reflexivity].
  eexists. split; reflexivity.
Qed.

(** C1 (amended).  When [p.upper()] is a key of the rules and both the
    intent [i] and ["DEFAULT"] are keys of [rules[p.upper()]],
    [build_generation_plan(p, i)] returns the deep merge of the defaults
    with the intent's entry, with ["_meta"] set to
    [{"platform": p.upper(), "intent": i}]; key by key, away from ["_meta"],
    the intent's value overrides the default and two dictionaries are merged
    recursively. *)
Theorem build_generation_plan_merges
    (rules : rules_t) (p i : string)
    (intents : list (string * dict)) (default specific : dict)
    (HP : dict_get rules (upper p) = Some intents)
    (Hi : dict_get intents i = Some specific)
    (HD : dict_get intents "DEFAULT" = Some default) :
  let plan := dict_set (deep_merge default specific) "_meta" (meta_entry p i) in
  build_generation_plan rules p i = Ok plan /\
  dict_get plan "_meta" = Some (meta_entry p i) /\
  (NoDup (keys specific) ->
   forall k, k <> "_meta" ->
     dict_get plan k = merged_entry (dict_get default k) (dict_get specific k)).
Proof.
  intro plan. repeat split.
  - unfold build_generation_plan, dict_mem. now rewrite HP, Hi, HD.
  - apply dict_get_set_same.
  - intros Hnd k Hk. unfold plan.
    rewrite dict_get_set_other by congruence.
    now apply dict_get_deep_merge.
Qed.

Lemma build_generation_plan_merges_witness :
  build_generation_plan dummy_rules_promo "x" "PROMO"
  = Ok [("content_type", VStr "post");
        ("objective", VStr "conversion");
        ("tone", VStr "professional");
        ("text_constraints", VDict [("max_chars", VInt 280)]);
        ("media_constraints", VDict [("type", VStr "optional")]);
        ("_meta", VDict [("platform", VStr "X"); ("intent", VStr "PROMO")])].
Proof.
  exact (proj1 (build_generation_plan_merges dummy_rules_promo "x" "PROMO"
                  _ _ _ eq_refl eq_refl eq_refl)).
Defined.

(** C10.  [build_generation_plan(platform, intent)] raises [ValueError]
    exactly when [platform.upper()] is not a key of the rules or [intent],
    compared as it is, is not a key of [rules[platform.upper()]]; two
    spellings of a platform with the same upper-case form behave alike, the
    intent is matched exactly, and a call that raises returns no plan. *)
Theorem build_generation_plan_value_error
    (rules : rules_t) (platform intent : string) :
  ((exists msg,
       build_generation_plan rules platform intent = Raise (ValueError msg))
   <-> (dict_mem rules (upper platform) = false \/
        exists intents,
          dict_get rules (upper platform) = Some intents /\
          dict_mem intents intent = false))
  /\
  (forall q, upper q = upper platform ->
             build_generation_plan rules q intent
             = build_generation_plan rules platform intent)
  /\
  ((exists plan, build_generation_plan dummy_rules "x" "DEFAULT" = Ok plan) /\
   build_generation_plan dummy_rules "x" "default"
   = Raise (ValueError "Intent default not found for platform X"))
  /\
  (forall e, build_generation_plan rules platform intent = Raise e ->
             forall plan,
               build_generation_plan rules platform intent <> Ok plan).
Proof.
  repeat split.
  - intros [msg H]. unfold build_generation_plan, dict_mem in *.
    destruct (dict_get rules (upper platform)) as [intents|]; [|now left].
    right. exists intents. split; [reflexivity|].
    destruct (dict_get intents intent); [|reflexivity].
    simpl in H. destruct (dict_get intents "DEFAULT"); discriminate.
  - intros [H|[intents [HP Hi]]]; unfold build_generation_plan, dict_mem in *.
    + destruct (dict_get rules (upper platform)); [discriminate|].
      eexists; reflexivity.
    + rewrite HP. destruct (dict_get intents intent); [discriminate|].
      eexists; reflexivity.
  - intros q Hq. unfold build_generation_plan. now rewrite Hq.
  - eexists; reflexivity.
  - intros e He plan Hplan. rewrite He in Hplan. discriminate.
Qed.

Lemma build_generation_plan_value_error_witness :
  upper "x" = upper "X" /\
  build_generation_plan dummy_rules "x" "DEFAULT"
  = build_generation_plan dummy_rules "X" "DEFAULT".
Proof.
  split; [reflexivity|].
  apply (proj1 (proj2 (build_generation_plan_value_error
                         dummy_rules "X" "DEFAULT")) "x").
  reflexivity.
Defined.

(* ================================================================== *)
(** * Claims on [normalize_plan] *)
(* ================================================================== *)

Section NormalizePlan.

Local Arguments String.eqb : simpl never.

Ltac eqb_cases :=
  repeat match goal with
    | |- context [String.eqb ?a ?b] =>
        let E := fresh "E" in
        destruct (String.eqb a b) eqn:E;
        [ apply String.eqb_eq in E; first [discriminate E | subst | idtac]
        | try (rewrite String.eqb_refl in E; discriminate E) ];
        simpl
    end.

Ltac eqb_absurd :=
  match goal with
  | E : String.eqb ?a ?a = false |- _ =>
      rewrite String.eqb_refl in E; discriminate E
  end.

Ltac close_selection :=
  let H := fresh "H" in
  intro H; injection H as <-;
  unfold selection_invariant, plan_media_field; simpl;
  eexists; eexists; split; [reflexivity|]; split; [reflexivity|];
  simpl; repeat split;
  try discriminate; try congruence;
  try (intros _; simpl; tauto);
  try (let Hin := fresh "Hin" in
       intro Hin; simpl in Hin;
       repeat match goal with
         | E : String.eqb _ _ = false |- _ => rewrite E in Hin; clear E
         end;
       simpl in Hin; congruence).

Lemma orchestration_selection (raw : dict) (umc : option string) (plan : dict) :
  Orchestration.normalize_plan raw umc = Ok plan -> selection_invariant umc plan.
Proof.
  unfold Orchestration.normalize_plan.
  destruct (dict_get_default raw "media_constraints" (VDict []))
    as [ | | | | |m]; simpl; try discriminate.
  destruct (dict_get_default m "type" VNone) as [ | | |s| | ];
    destruct umc as [u|]; simpl; eqb_cases; close_selection.
Qed.

Lemma fal_selection (raw : dict) (umc : option string) (plan : dict) :
  Fal.normalize_plan raw umc = Ok plan -> selection_invariant umc plan.
Proof.
  unfold Fal.normalize_plan.
  destruct (dict_get_default raw "media_constraints" (VDict []))
    as [ | | | | |m]; simpl; try discriminate.
  destruct (dict_get_default m "type" VNone) as [ | | |s| | ];
    destruct umc as [u|]; simpl; eqb_cases; close_selection.
Qed.

Lemma legacy_selection (raw : dict) (umc : option string) (plan : dict) :
  Legacy.normalize_plan raw umc = Ok plan -> selection_invariant umc plan.
Proof.
  unfold Legacy.normalize_plan.
  destruct (dict_get_default raw "media_constraints" (VDict []))
    as [ | | | | |m]; simpl; try discriminate.
  destruct (dict_get_default m "type" VNone) as [ | | |s| | ];
    destruct umc as [u|]; simpl; eqb_cases; close_selection.
Qed.

(** [normalize_plan] returns whenever [media_constraints] is a dictionary
    (or missing, when [{}] stands in for it). *)
Lemma normalize_plan_returns (raw : dict) (umc : option string) (m : dict) :
  dict_get_default raw "media_constraints" (VDict []) = VDict m ->
  (exists plan, Orchestration.normalize_plan raw umc = Ok plan) /\
  (exists plan, Fal.normalize_plan raw umc = Ok plan) /\
  (exists plan, Legacy.normalize_plan raw umc = Ok plan).
Proof.
  intro Hm.
  unfold Orchestration.normalize_plan, Fal.normalize_plan,
    Legacy.normalize_plan.
  rewrite Hm. simpl.
  destruct (dict_get_default m "type" VNone) as [ | | |s| | ];
    destruct umc as [u|]; simpl; eqb_cases;
    repeat split; eexists; reflexivity.
Qed.

(** The two current variants agree on every raw plan whose media type is
    not ["image"]. *)
Lemma normalize_plan_variants_agree (raw : dict) (umc : option string) :
  py_get (dict_get_default raw "media_constraints" (VDict [])) "type" VNone
  <> Ok (VStr "image") ->
  Orchestration.normalize_plan raw umc = Fal.normalize_plan raw umc.
Proof.
  unfold Orchestration.normalize_plan, Fal.normalize_plan.
  destruct (dict_get_default raw "media_constraints" (VDict []))
    as [ | | | | |m]; simpl; try reflexivity.
  destruct (dict_get_default m "type" VNone) as [ | | |s| | ];
    destruct umc as [u|]; simpl; intro Hne; eqb_cases;
    try reflexivity; try congruence; try eqb_absurd.
Qed.

Lemma orchestration_normalize_shape (raw : dict) (umc : option string)
    (plan : dict) :
  Orchestration.normalize_plan raw umc = Ok plan ->
  exists selected,
    plan_media_field plan "selected_type" = Some selected /\
    normalized_plan_shape plan selected.
Proof.
  unfold Orchestration.normalize_plan.
  destruct (dict_get_default raw "media_constraints" (VDict []))
    as [ | | | | |m]; simpl; try discriminate.
  destruct (dict_get_default m "type" VNone) as [ | | |s| | ];
    destruct umc as [u|]; simpl; eqb_cases;
    (let H := fresh "H" in
     intro H; injection H as <-; eexists; split; [reflexivity|];
     unfold normalized_plan_shape; repeat eexists).
Qed.

Lemma fal_normalize_shape (raw : dict) (umc : option string) (plan : dict) :
  Fal.normalize_plan raw umc = Ok plan ->
  exists selected,
    plan_media_field plan "selected_type" = Some selected /\
    normalized_plan_shape plan selected.
Proof.
  unfold Fal.normalize_plan.
  destruct (dict_get_default raw "media_constraints" (VDict []))
    as [ | | | | |m]; simpl; try discriminate.
  destruct (dict_get_default m "type" VNone) as [ | | |s| | ];
    destruct umc as [u|]; simpl; eqb_cases;
    (let H := fresh "H" in
     intro H; injection H as <-; eexists; split; [reflexivity|];
     unfold normalized_plan_shape; repeat eexists).
Qed.

End NormalizePlan.

(** C3.  In the three variants, the plan returned by [normalize_plan] has
    [selected_type = None] when [allowed_types] is empty and otherwise a
    [selected_type] taken from [allowed_types], and [selected_type] is the
    user's choice whenever that choice is in [allowed_types]. *)
Theorem normalize_plan_selection_invariant
    (raw : dict) (user_media_choice : option string) (plan : dict) :
  (Orchestration.normalize_plan raw user_media_choice = Ok plan ->
   selection_invariant user_media_choice plan) /\
  (Fal.normalize_plan raw user_media_choice = Ok plan ->
   selection_invariant user_media_choice plan) /\
  (Legacy.normalize_plan raw user_media_choice = Ok plan ->
   selection_invariant user_media_choice plan).
Proof.
  split; [|split].
  - apply orchestration_selection.
  - apply fal_selection.
  - apply legacy_selection.
Qed.

(** C2, at a raw plan whose media type is ["image"]: the variant of
    content_orchestration.py allows and selects ["image"], the variant of
    content_orchestrationfal.py allows nothing and selects [None]. *)
Theorem normalize_plan_variants_differ_on_image :
  (exists p1 p2,
      Orchestration.normalize_plan raw_image_plan None = Ok p1 /\
      Fal.normalize_plan raw_image_plan None = Ok p2 /\
      plan_media_field p1 "allowed_types" = Some (VList [VStr "image"]) /\
      plan_media_field p1 "selected_type" = Some (VStr "image") /\
      plan_media_field p2 "allowed_types" = Some (VList []) /\
      plan_media_field p2 "selected_type" = Some VNone) /\
  Orchestration.normalize_plan raw_image_plan None
  <> Fal.normalize_plan raw_image_plan None.
Proof.
  split.
  - do 2 eexists. repeat split; reflexivity.
  - vm_compute. discriminate.
Qed.

Lemma normalize_plan_selection_invariant_witness :
  (exists plan,
      Orchestration.normalize_plan raw_x_default (Some "video") = Ok plan /\
      selection_invariant (Some "video") plan) /\
  (exists plan,
      Fal.normalize_plan raw_x_default (Some "video") = Ok plan /\
      selection_invariant (Some "video") plan) /\
  (exists plan,
      Legacy.normalize_plan raw_x_default None = Ok plan /\
      selection_invariant None plan).
Proof.
  split; [|split]; eexists; (split; [reflexivity|]).
  - apply (proj1 (normalize_plan_selection_invariant
                    raw_x_default (Some "video") _)).
    reflexivity.
  - apply (proj1 (proj2 (normalize_plan_selection_invariant
                           raw_x_default (Some "video") _))).
    reflexivity.
  - apply (proj2 (proj2 (normalize_plan_selection_invariant
                           raw_x_default None _))).
    reflexivity.
Defined.

(* ================================================================== *)
(** * Claims on [build_media_prompt] *)
(* ================================================================== *)

Lemma py_eq_str (v : value) (s : string) :
  py_eq v (VStr s) = true <-> v = VStr s.
Proof.
  destruct v; simpl; try (split; [discriminate | discriminate]).
  rewrite String.eqb_eq. split; [intros ->; reflexivity | congruence].
Qed.

Section BuildMediaPrompt.

Variable render : template -> dict -> string.
Variables (plan mc : dict) (selected : value).
Hypothesis Hmc : dict_get plan "media_constraints" = Some (VDict mc).
Hypothesis Hsel : dict_get mc "selected_type" = Some selected.

(** content_orchestration.py and content_orchestrationfal.py: [None]
    exactly for a falsy or ["text_only"] selection. *)
Lemma build_media_prompt_none_iff :
  (Orchestration.build_media_prompt render plan = Ok None
   <-> truthy selected = false \/ selected = VStr "text_only") /\
  (Fal.build_media_prompt render plan = Ok None
   <-> truthy selected = false \/ selected = VStr "text_only").
Proof.
  unfold Orchestration.build_media_prompt, Fal.build_media_prompt, dict_item.
  rewrite Hmc. simpl. unfold dict_get_default, dict_item. rewrite Hsel. simpl.
  destruct (truthy selected) eqn:Ht; simpl.
  - destruct (py_eq selected (VStr "text_only")) eqn:Ho.
    + apply py_eq_str in Ho. split; split; auto.
    + assert (Hne : selected <> VStr "text_only").
      { intro Heq. apply py_eq_str in Heq. congruence. }
      split; (split; [|intros [?|?]; [discriminate | contradiction]]);
        destruct (dict_get plan "platform"); simpl; try discriminate;
        destruct (dict_get plan "content_type"); simpl; try discriminate;
        destruct (dict_get plan "objective"); simpl; discriminate.
  - split; split; auto.
Qed.

(** ... and the rendered media template otherwise, on a plan that has the
    keys a normalised plan has. *)
Lemma build_media_prompt_renders :
  dict_mem plan "platform" = true ->
  dict_mem plan "content_type" = true ->
  dict_mem plan "objective" = true ->
  truthy selected = true -> selected <> VStr "text_only" ->
  Orchestration.build_media_prompt render plan
  = Ok (Some (render MEDIA_PROMPT_TEMPLATE (media_prompt_context plan selected)))
  /\
  Fal.build_media_prompt render plan
  = Ok (Some (render MEDIA_PROMPT_TEMPLATE (media_prompt_context plan selected))).
Proof.
  unfold dict_mem, media_prompt_context, dict_get_default.
  intros H1 H2 H3 Ht Hne.
  assert (Ho : py_eq selected (VStr "text_only") = false).
  { destruct (py_eq selected (VStr "text_only")) eqn:E; [|reflexivity].
    apply py_eq_str in E. contradiction. }
  unfold Orchestration.build_media_prompt, Fal.build_media_prompt, dict_item.
  rewrite Hmc. simpl. unfold dict_get_default, dict_item.
  rewrite Hsel. simpl. rewrite Ht, Ho. simpl.
  destruct (dict_get plan "platform"); [|discriminate].
  destruct (dict_get plan "content_type"); [|discriminate].
  destruct (dict_get plan "objective"); [|discriminate].
  split; reflexivity.
Qed.

End BuildMediaPrompt.

(** C8, at the normalised plan of a text-only post: [build_media_prompt] of
    test(1).py renders the media template for the media type ["text_only"],
    where the two other variants return [None]. *)
Theorem legacy_build_media_prompt_text_only
    (render : template -> dict -> string) :
  exists plan,
    Legacy.normalize_plan raw_text_only None = Ok plan /\
    plan_media_field plan "selected_type" = Some (VStr "text_only") /\
    Legacy.build_media_prompt render plan
    = Ok (Some (render MEDIA_PROMPT_TEMPLATE
                  (media_prompt_context plan (VStr "text_only")))) /\
    Legacy.build_media_prompt render plan <> Ok None /\
    Orchestration.build_media_prompt render plan = Ok None /\
    Fal.build_media_prompt render plan = Ok None.
Proof.
  eexists. split; [reflexivity|].
  repeat split; try reflexivity. discriminate.
Qed.

(* ================================================================== *)
(** * Computations that call the services *)
(* ================================================================== *)

Lemma bindM_ok {A B : Type} (m : M A) (k : A -> M B) (h : list event)
    (a : A) (sent : list event) :
  m h = (Ok a, sent) ->
  bindM m k h = (fst (k a (h ++ sent)), sent ++ snd (k a (h ++ sent))).
Proof.
  intro H. unfold bindM. rewrite H. now destruct (k a (h ++ sent)).
Qed.

Lemma bindM_raise {A B : Type} (m : M A) (k : A -> M B) (h : list event)
    (e : exn) (sent : list event) :
  m h = (Raise e, sent) -> bindM m k h = (Raise e, sent).
Proof. intro H. unfold bindM. now rewrite H. Qed.

Lemma bindM_lift_ok {A B : Type} (a : A) (k : A -> M B) (h : list event) :
  bindM (lift (Ok a)) k h = k a h.
Proof.
  unfold bindM, lift. rewrite app_nil_r. now destruct (k a h).
Qed.

Lemma bindM_ret {A B : Type} (a : A) (k : A -> M B) (h : list event) :
  bindM (ret a) k h = k a h.
Proof. apply bindM_lift_ok. Qed.

(** A [try] whose handler returns always returns. *)
Lemma try_except_returns {A : Type} (body : M A) (handler : exn -> M A)
    (h : list event) :
  (forall e h', exists a, handler e h' = (Ok a, [])) ->
  exists a sent, try_except body handler h = (Ok a, sent).
Proof.
  intro Hh. unfold try_except.
  destruct (body h) as [[a|e] sent].
  - now exists a, sent.
  - destruct (Hh e (h ++ sent)) as [a Ha]. rewrite Ha. eauto.
Qed.

Section OrchestrationRun.

Variable render : template -> dict -> string.
Variable py_str : value -> string.
Variable gemini : gemini_service.
Variable replicate : replicate_service.
Variable path_exists : string -> bool.
Variable open_rb : string -> result unit.

(** [generate_text_with_gemini] never raises and sends one request. *)
Lemma orchestration_generate_text_returns (prompt : string) (h : list event) :
  exists text,
    Orchestration.generate_text_with_gemini gemini prompt h
    = (Ok text, [GeminiGenerateContent Orchestration.MODEL_NAME prompt]).
Proof.
  unfold Orchestration.generate_text_with_gemini, try_except, bindM,
    Orchestration.generate_content.
  destruct (gemini h prompt) as [[t|]|e]; simpl; eexists; reflexivity.
Qed.

Lemma build_final_model_input_returns (plan user_inputs uploaded_files : dict)
    (selected : value) :
  normalized_plan_shape plan selected ->
  exists final_input,
    Orchestration.build_final_model_input render py_str
      plan user_inputs uploaded_files = Ok final_input /\
    dict_get (Orchestration.media_payload final_input) "media_type"
    = Some selected /\
    Orchestration.generation_plan final_input = plan.
Proof.
  intro Hshape. unfold normalized_plan_shape in Hshape.
  repeat match goal with
         | H : exists _, _ |- _ => destruct H as [? H]
         end.
  subst plan.
  unfold Orchestration.build_final_model_input,
    Orchestration.build_text_prompt, Orchestration.build_media_prompt.
  cbn.
  destruct (negb (truthy selected) || py_eq selected (VStr "text_only"));
    cbn; eexists; repeat split.
Qed.

(** The part of [orchestrate_content_generation] after the text has been
    generated always returns the two-key dictionary. *)
Lemma orchestrate_media_step_returns (plan : dict)
    (final_input : Orchestration.final_model_input) (post_text : string)
    (selected : value) (h : list event) :
  dict_get (Orchestration.media_payload final_input) "media_type"
  = Some selected ->
  exists media sent,
    (media_type <~ lift (dict_item (Orchestration.media_payload final_input)
                           "media_type") ;;
     if negb (truthy media_type) || py_eq media_type (VStr "text_only") then
       ret [("text", VStr post_text); ("media", VNone)]
     else
       let visual_prompt_request :=
         ("Based on this social media post: '" ++ post_text
            ++ "', create a detailed visual prompt for an "
            ++ py_str media_type
            ++ " generation. Focus on style, lighting, and composition. Return only the prompt.")%string in
       visual_prompt <~
         Orchestration.generate_text_with_gemini gemini visual_prompt_request ;;
       media_result <~
         try_except
           (Orchestration.generate_media py_str replicate path_exists open_rb
              plan final_input media_type visual_prompt)
           (fun e => ret VNone) ;;
       ret [("text", VStr post_text); ("media", media_result)]) h
    = (Ok [("text", VStr post_text); ("media", media)], sent) /\
    (truthy selected = false \/ selected = VStr "text_only" ->
     media = VNone /\ sent = []).
Proof.
  intro Hmt. unfold dict_item. rewrite Hmt, bindM_lift_ok.
  destruct (truthy selected) eqn:Ht; simpl.
  - destruct (py_eq selected (VStr "text_only")) eqn:Ho.
    + do 2 eexists. split; [reflexivity | intro; split; reflexivity].
    + assert (Hne : selected <> VStr "text_only").
      { intro Heq. apply py_eq_str in Heq. congruence. }
      match goal with
      | |- context [Orchestration.generate_text_with_gemini gemini ?q] =>
          destruct (orchestration_generate_text_returns q h) as [vp Hvp]
      end.
      rewrite (bindM_ok _ _ _ _ _ Hvp).
      match goal with
      | |- context [try_except ?b ?hd] =>
          destruct (try_except_returns b hd
                      (h ++ [GeminiGenerateContent Orchestration.MODEL_NAME
                               ("Based on this social media post: '"
                                  ++ post_text
                                  ++ "', create a detailed visual prompt for an "
                                  ++ py_str selected
                                  ++ " generation. Focus on style, lighting, and composition. Return only the prompt.")%string]))
            as [media [sent Hm]]; [intros; eexists; reflexivity|]
      end.
      rewrite (bindM_ok _ _ _ _ _ Hm). simpl.
      do 2 eexists. split; [reflexivity|].
      intros [?|?]; [discriminate | contradiction].
  - do 2 eexists. split; [reflexivity | intro; split; reflexivity].
Qed.

(** C7 (amended).  When [p.upper()] is a key of the rules, the intent and
    ["DEFAULT"] are keys of [rules[p.upper()]] and the merged
    [media_constraints] is a dictionary or missing,
    [orchestrate_content_generation] returns a dictionary with exactly the
    keys ["text"] and ["media"], and the first request it sends is the text
    model input, to Gemini.  ["text"] is the stripped text of Gemini's
    answer, or, when the call fails or the answer has no text, the message
    [Error generating text with Gemini: <str(e)>]; ["media"] is [None], and
    no other request is sent, whenever the plan's [selected_type] is [None]
    (or any other falsy value) or ["text_only"]. *)
Theorem orchestrate_returns_text_and_media
    (rules : rules_t) (platform intent : string)
    (user_inputs uploaded_files : dict) (user_media_choice : option string)
    (intents : list (string * dict)) (default specific media : dict)
    (h : list event)
    (Hplatform : dict_get rules (upper platform) = Some intents)
    (Hintent : dict_get intents intent = Some specific)
    (Hdefault : dict_get intents "DEFAULT" = Some default)
    (Hmedia : dict_get_default (deep_merge default specific)
                "media_constraints" (VDict []) = VDict media) :
  exists raw plan final_input media_result sent,
    build_generation_plan rules platform intent = Ok raw /\
    Orchestration.normalize_plan raw user_media_choice = Ok plan /\
    Orchestration.build_final_model_input render py_str
      plan user_inputs uploaded_files = Ok final_input /\
    let request := Orchestration.text_model_input final_input in
    let post_text :=
      match gemini h request with
      | Ok (Some t) => strip t
      | Ok None =>
          "Error generating text with Gemini: 'NoneType' object has no attribute 'strip'"
      | Raise e => ("Error generating text with Gemini: " ++ str_exn e)%string
      end in
    Orchestration.orchestrate_content_generation
      render py_str gemini replicate path_exists open_rb
      rules platform intent user_inputs uploaded_files user_media_choice h
    = (Ok [("text", VStr post_text); ("media", media_result)],
       GeminiGenerateContent "gemini-2.5-flash" request :: sent) /\
    (match plan_media_field plan "selected_type" with
     | Some selected => truthy selected = false \/ selected = VStr "text_only"
     | None => True
     end -> media_result = VNone /\ sent = []).
Proof.
  assert (Hraw : build_generation_plan rules platform intent
                 = Ok (dict_set (deep_merge default specific) "_meta"
                         (VDict [("platform", VStr (upper platform));
                                 ("intent", VStr intent)]))).
  { unfold build_generation_plan, dict_mem.
    rewrite Hplatform, Hintent, Hdefault. reflexivity. }
  assert (Hmedia' :
            dict_get_default
              (dict_set (deep_merge default specific) "_meta"
                 (VDict [("platform", VStr (upper platform));
                         ("intent", VStr intent)]))
              "media_constraints" (VDict []) = VDict media).
  { unfold dict_get_default in *.
    rewrite dict_get_set_other by discriminate. exact Hmedia. }
  destruct (normalize_plan_returns _ user_media_choice media Hmedia')
    as [[plan Hplan] _].
  destruct (orchestration_normalize_shape _ user_media_choice plan Hplan)
    as [selected [Hsel Hshape]].
  destruct (build_final_model_input_returns plan user_inputs uploaded_files
              selected Hshape) as [final_input [Hfi [Hmt Hgp]]].
  assert (Htext :
            Orchestration.generate_text_with_gemini gemini
              (Orchestration.text_model_input final_input) h
            = (Ok match gemini h (Orchestration.text_model_input final_input)
                  with
                  | Ok (Some t) => strip t
                  | Ok None =>
                      "Error generating text with Gemini: 'NoneType' object has no attribute 'strip'"
                  | Raise e =>
                      ("Error generating text with Gemini: " ++ str_exn e)%string
                  end,
               [GeminiGenerateContent "gemini-2.5-flash"
                  (Orchestration.text_model_input final_input)])).
  { unfold Orchestration.generate_text_with_gemini, try_except, bindM,
      Orchestration.generate_content.
    destruct (gemini h (Orchestration.text_model_input final_input))
      as [[t|]|e]; reflexivity. }
  match type of Htext with
  | _ = (Ok ?t, _) => set (post_text := t) in *
  end.
  destruct (orchestrate_media_step_returns plan final_input post_text
              selected
              (h ++ [GeminiGenerateContent "gemini-2.5-flash"
                       (Orchestration.text_model_input final_input)]) Hmt)
    as [media_result [sent [Hrun Hnone]]].
  eexists _, plan, final_input, media_result, sent.
  split; [exact Hraw|]. split; [exact Hplan|]. split; [exact Hfi|].
  cbv zeta. fold post_text. split.
  - unfold Orchestration.orchestrate_content_generation.
    rewrite Hraw, bindM_lift_ok, Hplan, bindM_lift_ok, Hfi, bindM_lift_ok.
    rewrite (bindM_ok _ _ _ _ _ Htext).
    match goal with
    | |- (fst ?x, _ ++ snd ?x) = _ =>
        assert (Hx : x = (Ok [("text", VStr post_text);
                              ("media", media_result)], sent))
          by exact Hrun;
        rewrite Hx
    end.
    reflexivity.
  - rewrite Hsel. exact Hnone.
Qed.

End OrchestrationRun.

(** C7 (as stated) fails in two ways.  A platform and an intent that are
    in the rules do not make the call return: where the platform has no
    ["DEFAULT"] entry it raises [KeyError] before any request.  And what is
    returned under ["text"] need not be a post: when the call to Gemini
    fails it is the error message, and the media is generated from it. *)
Lemma orchestrate_without_post :
  (dict_mem rules_without_default (upper "x") = true /\
   (exists intents,
       dict_get rules_without_default (upper "x") = Some intents /\
       dict_mem intents "PROMO" = true) /\
   Orchestration.orchestrate_content_generation
     sample_render sample_str sample_gemini sample_replicate
     (fun _ => false) (fun _ => Ok tt)
     rules_without_default "x" "PROMO" sample_user_inputs
     sample_uploaded_files None []
   = (Raise (key_error "DEFAULT"), [])) /\
  fst (Orchestration.orchestrate_content_generation
         sample_render sample_str failing_gemini sample_replicate
         (fun _ => false) (fun _ => Ok tt)
         dummy_rules "X" "DEFAULT" sample_user_inputs sample_uploaded_files
         (Some "image") [])
  = Ok [("text", VStr "Error generating text with Gemini: 503 UNAVAILABLE");
        ("media", VStr "https://replicate.delivery/out.png")].
Proof.
  split.
  - split; [reflexivity|]. split; [|reflexivity].
    eexists. split; reflexivity.
  - vm_compute. reflexivity.
Qed.

Lemma orchestrate_returns_text_and_media_witness :
  exists raw plan final_input media_result sent,
    build_generation_plan dummy_rules "X" "DEFAULT" = Ok raw /\
    Orchestration.normalize_plan raw (Some "image") = Ok plan /\
    Orchestration.build_final_model_input sample_render sample_str
      plan sample_user_inputs sample_uploaded_files = Ok final_input /\
    let request := Orchestration.text_model_input final_input in
    let post_text :=
      match sample_gemini [] request with
      | Ok (Some t) => strip t
      | Ok None =>
          "Error generating text with Gemini: 'NoneType' object has no attribute 'strip'"
      | Raise e => ("Error generating text with Gemini: " ++ str_exn e)%string
      end in
    Orchestration.orchestrate_content_generation
      sample_render sample_str sample_gemini sample_replicate
      (fun _ => false) (fun _ => Ok tt)
      dummy_rules "X" "DEFAULT" sample_user_inputs sample_uploaded_files
      (Some "image") []
    = (Ok [("text", VStr post_text); ("media", media_result)],
       GeminiGenerateContent "gemini-2.5-flash" request :: sent) /\
    (match plan_media_field plan "selected_type" with
     | Some selected => truthy selected = false \/ selected = VStr "text_only"
     | None => True
     end -> media_result = VNone /\ sent = []).
Proof.
  pose (default := [("content_type", VStr "post");
                    ("objective", VStr "engagement");
                    ("tone", VStr "professional");
                    ("text_constraints", VDict [("max_chars", VInt 280)]);
                    ("media_constraints",
                      VDict [("type", VStr "optional")])]).
  exact (orchestrate_returns_text_and_media
           sample_render sample_str sample_gemini sample_replicate
           (fun _ => false) (fun _ => Ok tt)
           dummy_rules "X" "DEFAULT" sample_user_inputs sample_uploaded_files
           (Some "image") [("DEFAULT", default)] default default
           [("type", VStr "optional")] []
           eq_refl eq_refl eq_refl eq_refl).
Defined.

(** The demo call of content_orchestration.py, on the sample services. *)
Example orchestrate_demo :
  Orchestration.orchestrate_content_generation
    sample_render sample_str sample_gemini sample_replicate
    (fun _ => false) (fun _ => Ok tt)
    dummy_rules "X" "DEFAULT" sample_user_inputs sample_uploaded_files
    (Some "image") []
  = (Ok [("text", VStr "Crunch into happiness!");
         ("media", VStr "https://replicate.delivery/out.png")],
     [GeminiGenerateContent "gemini-2.5-flash"
        (Orchestration.text_model_input
           {| Orchestration.text_model_input :=
                "write the post" ++ nl ++ nl ++
                Orchestration.build_text_user_data_block sample_str
                  sample_user_inputs;
              Orchestration.media_payload := [];
              Orchestration.generation_plan := [] |});
      GeminiGenerateContent "gemini-2.5-flash"
        "Based on this social media post: 'Crunch into happiness!', create a detailed visual prompt for an image generation. Focus on style, lighting, and composition. Return only the prompt.";
      ReplicateRun "black-forest-labs/flux-schnell"
        [("prompt", VStr "Crunch into happiness!")] None]).
Proof. vm_compute. reflexivity. Qed.

(* ================================================================== *)
(** * The workflow of content_orchestrationfal.py *)
(* ================================================================== *)

(** ** Counting requests *)

Lemma sends_ret {A : Type} (a : A) : sends_at_most 0 (ret a).
Proof. intro h. simpl. lia. Qed.

Lemma sends_raise {A : Type} (e : exn) : sends_at_most 0 (@raise A e).
Proof. intro h. simpl. lia. Qed.

Lemma sends_lift {A : Type} (r : result A) : sends_at_most 0 (lift r).
Proof. intro h. simpl. lia. Qed.

Lemma sends_weaken {A : Type} (n n' : nat) (m : M A) :
  (n <= n')%nat -> sends_at_most n m -> sends_at_most n' m.
Proof. intros Hle H h. specialize (H h). lia. Qed.

Lemma sends_bind {A B : Type} (a b : nat) (m : M A) (k : A -> M B) :
  sends_at_most a m -> (forall x, sends_at_most b (k x)) ->
  sends_at_most (a + b) (bindM m k).
Proof.
  intros Hm Hk h. unfold bindM. specialize (Hm h).
  destruct (m h) as [[x|e] sent]; simpl in *.
  - specialize (Hk x (h ++ sent)%list).
    destruct (k x (h ++ sent)%list) as [r sent']. simpl in *.
    rewrite length_app. lia.
  - lia.
Qed.

Lemma sends_try {A : Type} (a b : nat) (body : M A) (handler : exn -> M A) :
  sends_at_most a body -> (forall e, sends_at_most b (handler e)) ->
  sends_at_most (a + b) (try_except body handler).
Proof.
  intros Hm Hk h. unfold try_except. specialize (Hm h).
  destruct (body h) as [[x|e] sent]; simpl in *.
  - lia.
  - specialize (Hk e (h ++ sent)%list).
    destruct (handler e (h ++ sent)%list) as [r sent']. simpl in *.
    rewrite length_app. lia.
Qed.

Lemma sends_lift_bind {A B : Type} (n : nat) (r : result A) (k : A -> M B) :
  (forall x, sends_at_most n (k x)) -> sends_at_most n (bindM (lift r) k).
Proof.
  intro Hk. change n with (0 + n)%nat.
  apply sends_bind; [apply sends_lift | exact Hk].
Qed.

Lemma sends_for_each_lift {A B : Type} (xs : list A) (f : A -> M B) :
  (forall x, sends_at_most 1 (f x)) ->
  sends_at_most (List.length xs) (for_each xs f).
Proof.
  intro Hf. induction xs as [|x r IH]; simpl.
  - apply sends_ret.
  - change (S (List.length r)) with (1 + List.length r)%nat.
    apply sends_bind; [apply Hf|]. intro y.
    replace (List.length r) with (List.length r + 0)%nat by lia.
    apply sends_bind; [exact IH|]. intro ys. apply sends_ret.
Qed.

Section FalRun.

Variable render : template -> dict -> string.
Variable py_str : value -> string.
Variable gemini : gemini_service.
Variable fal : fal_service.
Variable rules : rules_t.

Local Abbreviation planner_node := (Fal.planner_node rules).
Local Abbreviation prompt_engineer_node := (Fal.prompt_engineer_node render py_str).
Local Abbreviation copywriter_node := (Fal.copywriter_node gemini).
Local Abbreviation visual_refiner_node := (Fal.visual_refiner_node py_str gemini).
Local Abbreviation media_producer_node := (Fal.media_producer_node py_str fal).
Local Abbreviation workflow := (Fal.workflow render py_str gemini fal rules).

Lemma fal_generate_text_returns (prompt : string) (h : list event) :
  exists text,
    Fal.generate_text_with_gemini gemini prompt h
    = (Ok text, [GeminiGenerateContent Fal.MODEL_NAME prompt]).
Proof.
  unfold Fal.generate_text_with_gemini, try_except, bindM,
    Fal.generate_content.
  destruct (gemini h prompt) as [[t|]|e]; simpl; eexists; reflexivity.
Qed.

Lemma fal_generate_text_sends (prompt : string) :
  sends_at_most 1 (Fal.generate_text_with_gemini gemini prompt).
Proof.
  intro h. destruct (fal_generate_text_returns prompt h) as [t Ht].
  rewrite Ht. simpl. lia.
Qed.

Lemma generate_image_with_fal_sends (prompt : string)
    (constraints reference_image : value) :
  sends_at_most 1
    (Fal.generate_image_with_fal py_str fal prompt constraints reference_image).
Proof.
  unfold Fal.generate_image_with_fal.
  apply sends_lift_bind; intro width.
  apply sends_lift_bind; intro height.
  change 1%nat with (1 + 0)%nat. apply sends_try; [|intro; apply sends_ret].
  change 1%nat with (1 + 0)%nat. apply sends_bind.
  - intro h. simpl. lia.
  - intro result. destruct (dict_mem result "images"); [|apply sends_ret].
    apply sends_lift_bind; intro images.
    apply sends_lift_bind; intro n.
    destruct (0 <? n)%nat; [|apply sends_ret].
    apply sends_lift_bind; intro image. apply sends_lift.
Qed.

Lemma generate_video_with_fal_sends (prompt : string)
    (constraints init_image : value) :
  sends_at_most 1
    (Fal.generate_video_with_fal py_str fal prompt constraints init_image).
Proof.
  unfold Fal.generate_video_with_fal.
  do 4 (apply sends_lift_bind; intro).
  change 1%nat with (1 + 0)%nat. apply sends_try; [|intro; apply sends_ret].
  change 1%nat with (1 + 0)%nat. apply sends_bind.
  - intro h. simpl. lia.
  - intro result. destruct (dict_mem result "video"); [|apply sends_ret].
    apply sends_lift_bind; intro video. apply sends_lift.
Qed.

(** ** The nodes catch what their bodies raise *)

Lemma guarded_node_catches (label : string)
    (body : Fal.AgentState -> M Fal.AgentState) :
  Fal.node_catches label body
    (fun state =>
       try_except (body state)
         (fun e => ret (Fal.failed state (label ++ " failed: " ++ str_exn e)))).
Proof.
  split.
  - intros state h e sent Hbody. simpl.
    eexists. split.
    + unfold try_except. rewrite Hbody. simpl. rewrite app_nil_r. reflexivity.
    + repeat split.
  - intros state h. apply try_except_returns.
    intros e h'. eexists. reflexivity.
Qed.

(** ** Running the graph *)

Lemma bindM_ext {A B : Type} (m : M A) (k k' : A -> M B) (h : list event) :
  (forall a h', k a h' = k' a h') -> bindM m k h = bindM m k' h.
Proof.
  intro H. unfold bindM. destruct (m h) as [[a|e] sent]; [|reflexivity].
  now rewrite H.
Qed.

Lemma bindM_assoc {A B C : Type} (m : M A) (k : A -> M B) (k' : B -> M C)
    (h : list event) :
  bindM (bindM m k) k' h = bindM m (fun a => bindM (k a) k') h.
Proof.
  unfold bindM. destruct (m h) as [[a|e] sent]; [|reflexivity].
  destruct (k a (h ++ sent)%list) as [[b|e] sent']; [|reflexivity].
  rewrite <- app_assoc.
  destruct (k' b (h ++ sent ++ sent')%list) as [r sent''].
  now rewrite <- app_assoc.
Qed.

(** One step of the run from a single active node. *)
Lemma run_single (fuel : nat) (g : Fal.StateGraph) (name : string)
    (action : Fal.node) (state : Fal.AgentState) (h : list event) :
  dict_get (Fal.nodes g) name = Some action ->
  Fal.run (S fuel) g [name] state h
  = (update <~ action state ;;
     rest <~ Fal.run fuel g
               (filter (fun n => negb (String.eqb n Fal.END))
                  (nodup string_dec (Fal.successors g name ++ [])))
               (Fal.apply_update state update) ;;
     ret (fst rest, name :: snd rest)) h.
Proof.
  intro Hnode. simpl. rewrite Hnode.
  rewrite !bindM_assoc. apply bindM_ext. intros update h'.
  rewrite bindM_assoc, !bindM_ret. reflexivity.
Qed.

Lemma run_done (fuel : nat) (g : Fal.StateGraph) (state : Fal.AgentState)
    (h : list event) :
  Fal.run fuel g [] state h = ret (state, []) h.
Proof. destruct fuel; reflexivity. Qed.

(** The graph, as built: five nodes, the entry point and the five edges. *)
Lemma workflow_structure :
  Fal.nodes workflow
  = [("planner", planner_node); ("prompt_engineer", prompt_engineer_node);
     ("copywriter", copywriter_node); ("visual_refiner", visual_refiner_node);
     ("media_producer", media_producer_node)] /\
  Fal.entry_point workflow = Some "planner" /\
  Fal.edges workflow
  = [("planner", "prompt_engineer"); ("prompt_engineer", "copywriter");
     ("copywriter", "visual_refiner"); ("visual_refiner", "media_producer");
     ("media_producer", Fal.END)].
Proof. repeat split. Qed.

Lemma bindM_ext_l {A B : Type} (m m' : M A) (k : A -> M B) (h : list event) :
  (forall h', m h' = m' h') -> bindM m k h = bindM m' k h.
Proof. intro H. unfold bindM. now rewrite H. Qed.

Ltac next_nodes l :=
  match goal with
  | |- context [filter ?f (nodup string_dec (Fal.successors workflow ?n ++ []))] =>
      change (filter f (nodup string_dec (Fal.successors workflow n ++ [])))
        with l
  end.

Lemma run_from_media_producer (fuel : nat) (s : Fal.AgentState)
    (h : list event) :
  Fal.run (S fuel) workflow ["media_producer"] s h
  = (u5 <~ media_producer_node s ;;
     ret (Fal.apply_update s u5, ["media_producer"])) h.
Proof.
  rewrite (run_single _ workflow "media_producer" media_producer_node)
    by reflexivity.
  apply bindM_ext. intros u5 h5. next_nodes (@nil string).
  rewrite (bindM_ext_l _ _ _ _ (run_done _ _ _)), bindM_ret. reflexivity.
Qed.

Lemma run_from_visual_refiner (fuel : nat) (s : Fal.AgentState)
    (h : list event) :
  Fal.run (S (S fuel)) workflow ["visual_refiner"] s h
  = (u4 <~ visual_refiner_node s ;;
     u5 <~ media_producer_node (Fal.apply_update s u4) ;;
     ret (Fal.apply_update (Fal.apply_update s u4) u5,
          ["visual_refiner"; "media_producer"])) h.
Proof.
  rewrite (run_single _ workflow "visual_refiner" visual_refiner_node)
    by reflexivity.
  apply bindM_ext. intros u4 h4. next_nodes ["media_producer"].
  rewrite (bindM_ext_l _ _ _ _ (run_from_media_producer _ _)), bindM_assoc.
  apply bindM_ext. intros u5 h5. rewrite bindM_ret. reflexivity.
Qed.

Lemma run_from_copywriter (fuel : nat) (s : Fal.AgentState) (h : list event) :
  Fal.run (S (S (S fuel))) workflow ["copywriter"] s h
  = (u3 <~ copywriter_node s ;;
     let s3 := Fal.apply_update s u3 in
     u4 <~ visual_refiner_node s3 ;;
     let s4 := Fal.apply_update s3 u4 in
     u5 <~ media_producer_node s4 ;;
     ret (Fal.apply_update s4 u5,
          ["copywriter"; "visual_refiner"; "media_producer"])) h.
Proof.
  rewrite (run_single _ workflow "copywriter" copywriter_node) by reflexivity.
  apply bindM_ext. intros u3 h3. next_nodes ["visual_refiner"].
  rewrite (bindM_ext_l _ _ _ _ (run_from_visual_refiner _ _)), bindM_assoc.
  apply bindM_ext. intros u4 h4. rewrite bindM_assoc.
  apply bindM_ext. intros u5 h5. rewrite bindM_ret. reflexivity.
Qed.

Lemma run_from_prompt_engineer (fuel : nat) (s : Fal.AgentState)
    (h : list event) :
  Fal.run (S (S (S (S fuel)))) workflow ["prompt_engineer"] s h
  = (u2 <~ prompt_engineer_node s ;;
     let s2 := Fal.apply_update s u2 in
     u3 <~ copywriter_node s2 ;;
     let s3 := Fal.apply_update s2 u3 in
     u4 <~ visual_refiner_node s3 ;;
     let s4 := Fal.apply_update s3 u4 in
     u5 <~ media_producer_node s4 ;;
     ret (Fal.apply_update s4 u5,
          ["prompt_engineer"; "copywriter"; "visual_refiner";
           "media_producer"])) h.
Proof.
  rewrite (run_single _ workflow "prompt_engineer" prompt_engineer_node)
    by reflexivity.
  apply bindM_ext. intros u2 h2. next_nodes ["copywriter"].
  rewrite (bindM_ext_l _ _ _ _ (run_from_copywriter _ _)), bindM_assoc.
  apply bindM_ext. intros u3 h3. rewrite bindM_assoc.
  apply bindM_ext. intros u4 h4. rewrite bindM_assoc.
  apply bindM_ext. intros u5 h5. rewrite bindM_ret. reflexivity.
Qed.

(** The compiled graph runs the five nodes one after the other. *)
Lemma workflow_is_linear_chain (state : Fal.AgentState) (h : list event) :
  Fal.invoke workflow state h
  = (final <~ Fal.linear_chain render py_str gemini fal rules state ;;
     ret (final, Fal.node_names)) h.
Proof.
  unfold Fal.invoke, Fal.linear_chain.
  change (Fal.entry_point workflow) with (Some "planner").
  unfold Fal.recursion_limit.
  rewrite (run_single _ workflow "planner" planner_node) by reflexivity.
  rewrite bindM_assoc. apply bindM_ext. intros u1 h1.
  next_nodes ["prompt_engineer"].
  rewrite (bindM_ext_l _ _ _ _ (run_from_prompt_engineer _ _)).
  rewrite !bindM_assoc. apply bindM_ext. intros u2 h2.
  rewrite !bindM_assoc. apply bindM_ext. intros u3 h3.
  rewrite !bindM_assoc. apply bindM_ext. intros u4 h4.
  rewrite !bindM_assoc. apply bindM_ext. intros u5 h5.
  rewrite !bindM_ret. reflexivity.
Qed.

(** ** Each node returns *)

Lemma nodes_catch :
  Fal.node_catches "Planner" (Fal.planner_body rules) planner_node /\
  Fal.node_catches "Prompt Engineer"
    (Fal.prompt_engineer_body render py_str) prompt_engineer_node /\
  Fal.node_catches "Copywriter" (Fal.copywriter_body gemini) copywriter_node /\
  Fal.node_catches "Visual Refiner"
    (Fal.visual_refiner_body py_str gemini) visual_refiner_node /\
  Fal.node_catches "Media Producer"
    (Fal.media_producer_body py_str fal) media_producer_node.
Proof.
  split; [|split; [|split; [|split]]].
  - exact (guarded_node_catches "Planner" (Fal.planner_body rules)).
  - exact (guarded_node_catches "Prompt Engineer"
             (Fal.prompt_engineer_body render py_str)).
  - exact (guarded_node_catches "Copywriter" (Fal.copywriter_body gemini)).
  - exact (guarded_node_catches "Visual Refiner"
             (Fal.visual_refiner_body py_str gemini)).
  - exact (guarded_node_catches "Media Producer"
             (Fal.media_producer_body py_str fal)).
Qed.

Lemma linear_chain_returns (state : Fal.AgentState) (h : list event) :
  exists final sent,
    Fal.linear_chain render py_str gemini fal rules state h = (Ok final, sent).
Proof.
  destruct nodes_catch as [[_ H1] [[_ H2] [[_ H3] [[_ H4] [_ H5]]]]].
  unfold Fal.linear_chain.
  destruct (H1 state h) as [u1 [e1 E1]].
  rewrite (bindM_ok _ _ _ _ _ E1).
  destruct (H2 (Fal.apply_update state u1) (h ++ e1)%list) as [u2 [e2 E2]].
  rewrite (bindM_ok _ _ _ _ _ E2).
  destruct (H3 (Fal.apply_update (Fal.apply_update state u1) u2)
              ((h ++ e1) ++ e2)%list) as [u3 [e3 E3]].
  rewrite (bindM_ok _ _ _ _ _ E3).
  destruct (H4 (Fal.apply_update
                  (Fal.apply_update (Fal.apply_update state u1) u2) u3)
              (((h ++ e1) ++ e2) ++ e3)%list) as [u4 [e4 E4]].
  rewrite (bindM_ok _ _ _ _ _ E4).
  destruct (H5 (Fal.apply_update
                  (Fal.apply_update
                     (Fal.apply_update (Fal.apply_update state u1) u2) u3) u4)
              ((((h ++ e1) ++ e2) ++ e3) ++ e4)%list) as [u5 [e5 E5]].
  rewrite (bindM_ok _ _ _ _ _ E5).
  simpl. eauto.
Qed.

(** C4.  The compiled workflow has exactly the five nodes planner,
    prompt_engineer, copywriter, visual_refiner and media_producer, entered
    at planner and joined by the five edges of one chain that ends in END:
    every node has one successor and no edge leads back; and every
    invocation runs each node once, in that order. *)
Theorem workflow_is_five_node_chain (state : Fal.AgentState) (h : list event) :
  map fst (Fal.nodes workflow) = Fal.node_names /\
  List.length (Fal.nodes workflow) = 5%nat /\
  Fal.entry_point workflow = Some "planner" /\
  Fal.edges workflow
  = [("planner", "prompt_engineer"); ("prompt_engineer", "copywriter");
     ("copywriter", "visual_refiner"); ("visual_refiner", "media_producer");
     ("media_producer", Fal.END)] /\
  (forall n, In n Fal.node_names ->
             exists m, Fal.successors workflow n = [m]) /\
  (forall a b, In (a, b) (Fal.edges workflow) ->
               (position a (Fal.node_names ++ [Fal.END])
                < position b (Fal.node_names ++ [Fal.END]))%nat) /\
  Fal.invoke workflow state h
  = (final <~ Fal.linear_chain render py_str gemini fal rules state ;;
     ret (final, Fal.node_names)) h /\
  exists final sent,
    Fal.invoke workflow state h = (Ok (final, Fal.node_names), sent).
Proof.
  split; [reflexivity|]. split; [reflexivity|]. split; [reflexivity|].
  split; [reflexivity|]. split; [|split; [|split]].
  - intros n Hn. simpl in Hn.
    repeat (destruct Hn as [<-|Hn]; [eexists; reflexivity|]).
    destruct Hn.
  - intros a b Hin.
    change (Fal.edges workflow)
      with [("planner", "prompt_engineer"); ("prompt_engineer", "copywriter");
            ("copywriter", "visual_refiner");
            ("visual_refiner", "media_producer");
            ("media_producer", Fal.END)] in Hin.
    simpl in Hin.
    repeat (destruct Hin as [Heq|Hin];
            [injection Heq as <- <-; vm_compute; lia|]).
    destruct Hin.
  - apply workflow_is_linear_chain.
  - rewrite workflow_is_linear_chain.
    destruct (linear_chain_returns state h) as [final [sent Hrun]].
    rewrite (bindM_ok _ _ _ _ _ Hrun). simpl. eauto.
Qed.

(** C6.  Each of the five node functions catches what its body raises: the
    node then returns the update with [status = "failed"] and with
    [errors] the state's errors followed by the one message
    [<Node> failed: <str(e)>], writing this update leaves every other key
    of the state as it was, and no node raises; these are the functions
    the graph runs. *)
Theorem workflow_nodes_catch_exceptions :
  Fal.nodes workflow
  = [("planner", planner_node); ("prompt_engineer", prompt_engineer_node);
     ("copywriter", copywriter_node); ("visual_refiner", visual_refiner_node);
     ("media_producer", media_producer_node)] /\
  Fal.node_catches "Planner" (Fal.planner_body rules) planner_node /\
  Fal.node_catches "Prompt Engineer"
    (Fal.prompt_engineer_body render py_str) prompt_engineer_node /\
  Fal.node_catches "Copywriter" (Fal.copywriter_body gemini) copywriter_node /\
  Fal.node_catches "Visual Refiner"
    (Fal.visual_refiner_body py_str gemini) visual_refiner_node /\
  Fal.node_catches "Media Producer"
    (Fal.media_producer_body py_str fal) media_producer_node.
Proof. split; [reflexivity | exact nodes_catch]. Qed.

(** ** Requests sent by the nodes *)

Lemma sends_nothing {A : Type} (m : M A) (h : list event) :
  sends_at_most 0 m -> snd (m h) = [].
Proof.
  intro H. specialize (H h). destruct (snd (m h)); [reflexivity|].
  simpl in H. lia.
Qed.

Lemma sends_lift_ok_bind {A B : Type} (n : nat) (a : A) (k : A -> M B) :
  sends_at_most n (k a) -> sends_at_most n (bindM (lift (Ok a)) k).
Proof. intros H h. rewrite bindM_lift_ok. apply H. Qed.

Lemma sends_lift_raise_bind {A B : Type} (n : nat) (e : exn) (k : A -> M B) :
  sends_at_most n (bindM (lift (Raise e)) k).
Proof. intro h. simpl. lia. Qed.

Lemma planner_sends (state : Fal.AgentState) :
  sends_at_most 0 (planner_node state).
Proof.
  unfold planner_node, Fal.planner_node, Fal.planner_body.
  change 0%nat with (0 + 0)%nat. apply sends_try; [|intro; apply sends_ret].
  do 5 (apply sends_lift_bind; intro). apply sends_ret.
Qed.

Lemma prompt_engineer_sends (state : Fal.AgentState) :
  sends_at_most 0 (prompt_engineer_node state).
Proof.
  unfold prompt_engineer_node, Fal.prompt_engineer_node,
    Fal.prompt_engineer_body.
  change 0%nat with (0 + 0)%nat. apply sends_try; [|intro; apply sends_ret].
  do 4 (apply sends_lift_bind; intro). apply sends_ret.
Qed.

Lemma copywriter_sends (state : Fal.AgentState) (h : list event) :
  List.length (snd (copywriter_node state h))
  = match Fal.text_model_input state with
    | Some t => if String.eqb t "" then 0%nat else 1%nat
    | None => 0%nat
    end.
Proof.
  unfold copywriter_node, Fal.copywriter_node, Fal.copywriter_body.
  destruct (Fal.text_model_input state) as [t|]; [|reflexivity].
  destruct (String.eqb t ""); [reflexivity|]. simpl.
  unfold try_except. rewrite bindM_lift_ok.
  destruct (fal_generate_text_returns t h) as [text Ht].
  rewrite (bindM_ok _ _ _ _ _ Ht). reflexivity.
Qed.

Lemma visual_refiner_sends (state : Fal.AgentState) :
  sends_at_most 1 (visual_refiner_node state).
Proof.
  unfold visual_refiner_node, Fal.visual_refiner_node,
    Fal.visual_refiner_body.
  change 1%nat with (1 + 0)%nat. apply sends_try; [|intro; apply sends_ret].
  apply sends_lift_bind; intro media_type.
  destruct (negb (truthy media_type) || py_eq media_type (VStr "text_only")).
  { apply (sends_weaken 0); [lia | apply sends_ret]. }
  destruct (negb (present (Fal.generated_text state))).
  { apply (sends_weaken 0); [lia | apply sends_raise]. }
  apply sends_lift_bind; intro text.
  apply (sends_bind 1 0); [apply fal_generate_text_sends|].
  intro refined. apply sends_ret.
Qed.

Lemma media_producer_sends (state : Fal.AgentState) :
  Fal.selected_media_type state <> Ok (VStr "photo_carousel") ->
  sends_at_most 1 (media_producer_node state).
Proof.
  intro Hnot.
  unfold media_producer_node, Fal.media_producer_node,
    Fal.media_producer_body.
  change 1%nat with (1 + 0)%nat. apply sends_try; [|intro; apply sends_ret].
  destruct (Fal.selected_media_type state) as [media_type|e];
    [apply sends_lift_ok_bind | apply sends_lift_raise_bind].
  destruct (negb (truthy media_type) || py_eq media_type (VStr "text_only")).
  { apply (sends_weaken 0); [lia | apply sends_ret]. }
  destruct (negb (present (Fal.visual_prompt state))).
  { apply (sends_weaken 0); [lia | apply sends_raise]. }
  apply sends_lift_bind; intro plan.
  apply sends_lift_bind; intro constraints.
  apply (sends_bind 1 0); [|intro; apply sends_ret].
  destruct (py_eq media_type (VStr "image")).
  { do 3 (apply sends_lift_bind; intro).
    apply generate_image_with_fal_sends. }
  destruct (py_eq media_type (VStr "video")).
  { do 3 (apply sends_lift_bind; intro).
    apply generate_video_with_fal_sends. }
  destruct (py_eq media_type (VStr "photo_carousel")) eqn:Hc.
  { apply py_eq_str in Hc. subst media_type. contradiction. }
  apply (sends_weaken 0); [lia | apply sends_ret].
Qed.

Lemma media_producer_carousel_sends (state : Fal.AgentState) :
  Fal.selected_media_type state = Ok (VStr "photo_carousel") ->
  sends_at_most (carousel_slides state) (media_producer_node state).
Proof.
  intro Hsel.
  unfold Fal.media_producer_node, Fal.media_producer_body.
  rewrite Hsel.
  replace (carousel_slides state) with (carousel_slides state + 0)%nat by lia.
  apply sends_try; [|intro; apply sends_ret].
  apply sends_lift_ok_bind. cbn [truthy negb orb py_eq].
  change (String.eqb "photo_carousel" "") with false.
  change (String.eqb "photo_carousel" "text_only") with false.
  change (String.eqb "photo_carousel" "image") with false.
  change (String.eqb "photo_carousel" "video") with false.
  change (String.eqb "photo_carousel" "photo_carousel") with true.
  cbn [negb orb].
  destruct (negb (present (Fal.visual_prompt state))).
  { apply (sends_weaken 0); [lia | apply sends_raise]. }
  unfold carousel_slides.
  destruct (state_item (Fal.generation_plan state) "generation_plan")
    as [plan|e]; [|apply sends_lift_raise_bind].
  apply sends_lift_ok_bind. cbn [bind].
  destruct (dict_item plan "media_constraints") as [constraints|e];
    [|apply sends_lift_raise_bind].
  apply sends_lift_ok_bind. cbn [bind].
  replace (match _ with Ok turns => turns | Raise _ => O end)
    with ((match
             (image_count_constraints <-
                py_get constraints "image_count" (VDict []) ;;
              min_images <-
                match image_count_constraints with
                | VDict _ => py_get image_count_constraints "min" (VInt 1)
                | _ => Ok (VInt 1)
                end ;;
              py_range min_images)
           with Ok turns => turns | Raise _ => O end) + 0)%nat by lia.
  apply sends_bind; [|intro; apply sends_ret].
  destruct (py_get constraints "image_count" (VDict []))
    as [image_count_constraints|e]; [|apply sends_lift_raise_bind].
  apply sends_lift_ok_bind. cbn [bind].
  destruct (match image_count_constraints with
            | VDict _ => py_get image_count_constraints "min" (VInt 1)
            | _ => Ok (VInt 1)
            end) as [min_images|e]; [|apply sends_lift_raise_bind].
  apply sends_lift_ok_bind. cbn [bind].
  destruct (py_range min_images) as [turns|e]; [|apply sends_lift_raise_bind].
  apply sends_lift_ok_bind.
  replace turns with (turns + 0)%nat at 1 by lia.
  apply sends_bind; [|intro; apply sends_ret].
  apply (sends_weaken (List.length (seq 0 turns)));
    [rewrite length_seq; lia|].
  apply sends_for_each_lift. intro i.
  do 3 (apply sends_lift_bind; intro).
  apply generate_image_with_fal_sends.
Qed.

End FalRun.

(** ** The workflow on the sample services *)

Lemma workflow_is_five_node_chain_witness :
  In "copywriter" Fal.node_names /\
  (exists m,
      Fal.successors
        (Fal.workflow sample_render sample_str sample_gemini sample_fal
           dummy_rules) "copywriter" = [m]) /\
  exists final sent,
    Fal.invoke
      (Fal.workflow sample_render sample_str sample_gemini sample_fal
         dummy_rules) sample_state []
    = (Ok (final, Fal.node_names), sent).
Proof.
  pose proof (workflow_is_five_node_chain sample_render sample_str
                sample_gemini sample_fal dummy_rules sample_state [])
    as [_ [_ [_ [_ [Hnext [_ [_ Hrun]]]]]]].
  assert (Hin : In "copywriter" Fal.node_names) by (simpl; tauto).
  split; [exact Hin|]. split; [exact (Hnext "copywriter" Hin) | exact Hrun].
Defined.

(** C5 (as stated) fails at the first node: on the demo state the planner
    builds the plan without sending any request to an external service. *)
Lemma planner_node_sends_no_request :
  exists update,
    Fal.planner_node dummy_rules sample_state [] = (Ok update, []) /\
    Fal.status update = Some "plan_generated" /\
    List.length (snd (Fal.planner_node dummy_rules sample_state [])) <> 1%nat.
Proof.
  eexists. split; [reflexivity|]. split; [reflexivity|].
  vm_compute. discriminate.
Qed.

(** A carousel of two slides: the media producer sends two requests. *)
Example media_producer_carousel_demo :
  map (fun e =>
         match e with
         | FalSubscribe application arguments =>
             (application, dict_get arguments "prompt")
         | _ => ("", None)
         end)
    (snd (Fal.media_producer_node sample_str sample_fal
            sample_carousel_state []))
  = [("fal-ai/nano-banana", Some (VStr "Crunch into happiness! - Slide 1"));
     ("fal-ai/nano-banana", Some (VStr "Crunch into happiness! - Slide 2"))].
Proof. vm_compute. reflexivity. Qed.

Lemma workflow_nodes_catch_exceptions_witness :
  Fal.planner_body dummy_rules Fal.no_keys []
  = (Raise (key_error "platform"), []) /\
  exists update,
    Fal.planner_node dummy_rules Fal.no_keys [] = (Ok update, []) /\
    Fal.status update = Some "failed" /\
    Fal.errors update = Some ["Planner failed: 'platform'"] /\
    Fal.apply_update Fal.no_keys update
    = {| Fal.platform := None; Fal.intent := None; Fal.user_inputs := None;
         Fal.uploaded_files := None; Fal.user_media_choice := None;
         Fal.generation_plan := None; Fal.text_model_input := None;
         Fal.media_payload := None; Fal.visual_prompt := None;
         Fal.generated_text := None; Fal.generated_media_url := None;
         Fal.status := Some "failed";
         Fal.errors := Some ["Planner failed: 'platform'"] |}.
Proof.
  split; [reflexivity|].
  exact (proj1 (proj1 (proj2 (workflow_nodes_catch_exceptions
                                sample_render sample_str sample_gemini
                                sample_fal dummy_rules)))
           Fal.no_keys [] (key_error "platform") [] eq_refl).
Defined.

(** The demo run: five nodes, three requests. *)
Example workflow_demo :
  let out :=
    Fal.invoke
      (Fal.workflow sample_render sample_str sample_gemini sample_fal
         dummy_rules) sample_state [] in
  map (fun e =>
         match e with
         | GeminiGenerateContent model _ => model
         | ReplicateRun ref _ _ => ref
         | FalSubscribe application _ => application
         end) (snd out)
  = ["gemini-2.5-flash"; "gemini-2.5-flash"; "fal-ai/nano-banana"] /\
  match fst out with
  | Ok (final, ran) =>
      ran = ["planner"; "prompt_engineer"; "copywriter"; "visual_refiner";
             "media_producer"] /\
      Fal.generated_text final = Some (Some "Crunch into happiness!") /\
      Fal.generated_media_url final
      = Some (VStr "https://fal.media/out.png") /\
      Fal.status final = Some "media_produced"
  | Raise _ => False
  end.
Proof. vm_compute. repeat split. Qed.

(* ================================================================== *)
(* ================================================================== *)
(** * Further properties of the code *)
(* ================================================================== *)
(* ================================================================== *)

(** ** [deep_merge]: order of the keys, unique keys *)

Lemma keys_dict_set_exact (d : dict) (k : string) (v : value) :
  keys (dict_set d k v) = if dict_mem d k then keys d else (keys d ++ [k])%list.
Proof.
  unfold keys, dict_mem. induction d as [|[k' v'] r IH]; simpl; [reflexivity|].
  destruct (String.eqb k' k) eqn:E; simpl; [reflexivity|].
  rewrite IH. now destruct (dict_get r k).
Qed.

Lemma keys_merge_step_exact (result : dict) (kv : string * value) :
  keys (merge_step result kv)
  = if dict_mem result (fst kv) then keys result
    else (keys result ++ [fst kv])%list.
Proof.
  unfold merge_step.
  destruct (dict_get result (fst kv)) as [[| | | | |rk]|] eqn:E;
    try apply keys_dict_set_exact.
  destruct (snd kv); apply keys_dict_set_exact.
Qed.

Lemma dict_mem_merge_step (result : dict) (kv : string * value) (k : string) :
  dict_mem (merge_step result kv) k
  = (String.eqb (fst kv) k || dict_mem result k)%bool.
Proof.
  unfold dict_mem.
  destruct (String.eqb (fst kv) k) eqn:E; simpl.
  - apply String.eqb_eq in E. subst k. destruct kv as [k0 v]. simpl.
    rewrite dict_get_merge_step_same.
    unfold merged_entry. destruct v; try reflexivity.
    now destruct (dict_get result k0) as [[| | | | |rk]|].
  - apply String.eqb_neq in E. now rewrite dict_get_merge_step_other.
Qed.

Lemma keys_fold_merge_step_exact (items result : dict) :
  NoDup (keys items) ->
  keys (fold_left merge_step items result)
  = (keys result
       ++ filter (fun k => negb (dict_mem result k)) (keys items))%list.
Proof.
  revert result. induction items as [|[k v] rest IH]; intros result Hnd; simpl.
  - now rewrite app_nil_r.
  - inversion Hnd as [|? ? Hnotin Hnd']; subst.
    rewrite IH by exact Hnd'.
    assert (Hfilter :
              filter (fun k0 => negb (dict_mem (merge_step result (k, v)) k0))
                (keys rest)
              = filter (fun k0 => negb (dict_mem result k0)) (keys rest)).
    { apply filter_ext_in. intros k0 Hin. rewrite dict_mem_merge_step. simpl.
      destruct (String.eqb k k0) eqn:E; [|reflexivity].
      apply String.eqb_eq in E. subst k0. contradiction. }
    rewrite Hfilter, keys_merge_step_exact. simpl.
    destruct (dict_mem result k); simpl; [reflexivity|].
    now rewrite <- app_assoc.
Qed.

(** X1.  The keys of [deep_merge(base, override)] are the keys of [base] in
    their order, followed by the keys that only [override] has, in the
    order of [override]. *)
Theorem deep_merge_keys_order (base override : dict)
    (Hnodup : NoDup (keys override)) :
  keys (deep_merge base override)
  = (keys base
       ++ filter (fun k => negb (dict_mem base k)) (keys override))%list.
Proof.
  rewrite deep_merge_unfold, deepcopy_dict_id.
  now apply keys_fold_merge_step_exact.
Qed.

Lemma deep_merge_keys_order_witness :
  keys (deep_merge
          [("tone", VStr "professional"); ("objective", VStr "engagement")]
          [("cta_style", VStr "soft"); ("objective", VStr "conversion");
           ("variation_count", VInt 3)])
  = ["tone"; "objective"; "cta_style"; "variation_count"].
Proof.
  apply (deep_merge_keys_order
           [("tone", VStr "professional"); ("objective", VStr "engagement")]
           [("cta_style", VStr "soft"); ("objective", VStr "conversion");
            ("variation_count", VInt 3)]).
  repeat constructor; simpl; intuition discriminate.
Defined.

Lemma wf_dict_intro (d : dict) :
  NoDup (keys d) -> Forall (fun kv => wf_value (snd kv)) d -> wf_dict d.
Proof.
  intros Hnd Hall. unfold wf_dict. simpl. split; [exact Hnd|].
  induction Hall as [|kv r Hkv _ IH]; simpl; [exact I|].
  split; [exact Hkv|]. apply IH. now inversion Hnd.
Qed.

Lemma wf_dict_set (d : dict) (k : string) (v : value) :
  wf_dict d -> wf_value v -> wf_dict (dict_set d k v).
Proof.
  intros Hd Hv. destruct (wf_dict_inv d Hd) as [Hnd Hall].
  apply wf_dict_intro.
  - rewrite keys_dict_set_exact. unfold dict_mem.
    destruct (dict_get d k) eqn:E; [exact Hnd|].
    apply dict_get_none_iff in E.
    apply NoDup_app; [exact Hnd | repeat constructor; intros [] |].
    intros x Hx [<-|[]]. contradiction.
  - clear Hnd Hd. induction Hall as [|[k' v'] r Hkv Hr IH]; simpl.
    + repeat constructor. exact Hv.
    + destruct (String.eqb k' k); constructor; auto.
Qed.

Lemma wf_dict_get (d : dict) (k : string) (v : value) :
  wf_dict d -> dict_get d k = Some v -> wf_value v.
Proof.
  intros Hd. destruct (wf_dict_inv d Hd) as [_ Hall]. clear Hd.
  induction Hall as [|[k' v'] r Hkv _ IH]; simpl; [discriminate|].
  destruct (String.eqb k' k); [|exact IH].
  intro H. now injection H as <-.
Qed.

Lemma wf_fold_merge_step (items : dict) :
  Forall (fun kv =>
            wf_value (snd kv) /\
            forall base, wf_dict base ->
                         match snd kv with
                         | VDict o => wf_dict (deep_merge base o)
                         | _ => True
                         end) items ->
  forall result, wf_dict result -> wf_dict (fold_left merge_step items result).
Proof.
  induction 1 as [|[k v] rest [Hv Hrec] _ IH]; intros result Hr; simpl;
    [exact Hr|].
  apply IH. unfold merge_step. simpl in *.
  destruct (dict_get result k) as [old|] eqn:E.
  - destruct old as [| | | | |rk];
      try (rewrite deepcopy_id; now apply wf_dict_set).
    destruct v as [| | | | |vo];
      try (rewrite deepcopy_id; now apply wf_dict_set).
    apply wf_dict_set; [exact Hr|].
    apply (Hrec rk). exact (wf_dict_get result k (VDict rk) Hr E).
  - rewrite deepcopy_id. now apply wf_dict_set.
Qed.

Lemma wf_deep_merge_value (v : value) :
  wf_value v ->
  forall base, wf_dict base ->
               match v with
               | VDict o => wf_dict (deep_merge base o)
               | _ => True
               end.
Proof.
  induction v as [| | | | l _ | d IH] using value_nested_ind;
    intros Hwf base Hbase; try exact I.
  rewrite deep_merge_unfold, deepcopy_dict_id.
  apply wf_fold_merge_step; [|exact Hbase].
  destruct (wf_dict_inv d Hwf) as [_ Hall].
  rewrite Forall_forall in *. intros kv Hin. split.
  - now apply Hall.
  - intros b Hb. apply (IH kv Hin); [now apply Hall | exact Hb].
Qed.

(** X2.  [deep_merge] keeps dictionaries well formed: when no key occurs
    twice in [base] or in [override], at any depth, none occurs twice in
    the merged dictionary. *)
Theorem deep_merge_well_formed (base override : dict)
    (Hbase : wf_dict base) (Hoverride : wf_dict override) :
  wf_dict (deep_merge base override).
Proof. exact (wf_deep_merge_value (VDict override) Hoverride base Hbase). Qed.

Lemma deep_merge_well_formed_witness :
  wf_dict
    (deep_merge
       [("tone", VStr "professional");
        ("text_constraints", VDict [("max_chars", VInt 280)])]
       [("text_constraints", VDict [("max_emojis", VInt 2)]);
        ("cta_style", VStr "soft")]).
Proof.
  apply deep_merge_well_formed;
    unfold wf_dict; simpl;
    repeat split; repeat constructor; simpl; intuition discriminate.
Defined.

(** X3.  Asking for the intent ["DEFAULT"] returns the platform's defaults
    unchanged, with ["_meta"] set. *)
Theorem build_generation_plan_default_intent
    (rules : rules_t) (p : string) (intents : list (string * dict))
    (default : dict)
    (HP : dict_get rules (upper p) = Some intents)
    (HD : dict_get intents "DEFAULT" = Some default)
    (Hwf : wf_dict default) :
  build_generation_plan rules p "DEFAULT"
  = Ok (dict_set default "_meta" (meta_entry p "DEFAULT")).
Proof.
  unfold build_generation_plan, dict_mem. rewrite HP, HD. simpl.
  pose proof (deep_merge_self_value (VDict default) Hwf) as Hself.
  simpl in Hself. now rewrite Hself.
Qed.

Lemma build_generation_plan_default_intent_witness :
  build_generation_plan dummy_rules_promo "x" "DEFAULT"
  = Ok [("content_type", VStr "post");
        ("objective", VStr "engagement");
        ("tone", VStr "professional");
        ("text_constraints", VDict [("max_chars", VInt 280)]);
        ("media_constraints", VDict [("type", VStr "optional")]);
        ("_meta", VDict [("platform", VStr "X"); ("intent", VStr "DEFAULT")])].
Proof.
  apply (build_generation_plan_default_intent dummy_rules_promo "x" _ _
           eq_refl eq_refl).
  unfold wf_dict; simpl.
  repeat split; repeat constructor; simpl; intuition discriminate.
Defined.

(** ** [normalize_plan]: shape, errors, selection *)

Section NormalizePlanMore.

Local Arguments String.eqb : simpl never.

Ltac string_cases :=
  repeat match goal with
    | |- context [String.eqb ?a ?b] =>
        let E := fresh "E" in
        destruct (String.eqb a b) eqn:E;
        [ apply String.eqb_eq in E; first [discriminate E | subst | idtac]
        | try (rewrite String.eqb_refl in E; discriminate E) ];
        simpl
    end.

Ltac open_normalize raw umc :=
  destruct (dict_get_default raw "media_constraints" (VDict []))
    as [ | | | | |?m] eqn:?Hmedia; simpl; try discriminate;
  destruct (dict_get_default m "type" VNone) as [ | | |?s| | ] eqn:?Htype;
  destruct umc as [?u|]; simpl; string_cases.

Lemma legacy_normalize_shape (raw : dict) (umc : option string) (plan : dict) :
  Legacy.normalize_plan raw umc = Ok plan ->
  exists selected,
    plan_media_field plan "selected_type" = Some selected /\
    normalized_plan_shape plan selected.
Proof.
  unfold Legacy.normalize_plan. open_normalize raw umc;
    (let H := fresh "H" in
     intro H; injection H as <-; eexists; split; [reflexivity|];
     unfold normalized_plan_shape; repeat eexists).
Qed.

Lemma normalize_plan_shape_any (raw : dict) (umc : option string)
    (plan : dict) :
  Orchestration.normalize_plan raw umc = Ok plan \/
  Fal.normalize_plan raw umc = Ok plan \/
  Legacy.normalize_plan raw umc = Ok plan ->
  exists selected,
    plan_media_field plan "selected_type" = Some selected /\
    normalized_plan_shape plan selected.
Proof.
  intros [H|[H|H]].
  - now apply (orchestration_normalize_shape raw umc).
  - now apply (fal_normalize_shape raw umc).
  - now apply (legacy_normalize_shape raw umc).
Qed.

Ltac close_keys :=
  let H := fresh "H" in
  intro H; injection H as <-;
  split; [reflexivity|]; eexists;
  split; [reflexivity|]; split; [reflexivity|];
  split; [reflexivity|]; split; reflexivity.

(** X4.  Whatever the raw plan, a plan returned by [normalize_plan] (any of
    the three variants) has exactly the ten top-level keys and the eleven
    keys of [media_constraints], in this order; the raw media constraints
    are kept under ["raw"], and [text_constraints] and ["_meta"] are those
    of the raw plan ([{}] and [None] when missing). *)
Theorem normalize_plan_keys (raw : dict) (umc : option string) (plan : dict)
    (Hplan : Orchestration.normalize_plan raw umc = Ok plan \/
             Fal.normalize_plan raw umc = Ok plan \/
             Legacy.normalize_plan raw umc = Ok plan) :
  keys plan = plan_keys /\
  exists mc,
    dict_get plan "media_constraints" = Some (VDict mc) /\
    keys mc = media_constraint_keys /\
    dict_get mc "raw"
    = Some (dict_get_default raw "media_constraints" (VDict [])) /\
    dict_get plan "text_constraints"
    = Some (dict_get_default raw "text_constraints" (VDict [])) /\
    dict_get plan "_meta" = Some (dict_get_default raw "_meta" VNone).
Proof.
  destruct Hplan as [H|[H|H]]; revert H;
    unfold Orchestration.normalize_plan, Fal.normalize_plan,
      Legacy.normalize_plan;
    open_normalize raw umc; close_keys.
Qed.

(** X5.  [normalize_plan] (any variant) returns when [media_constraints] is
    a dictionary or missing, and otherwise raises the [AttributeError] of
    calling [get] on the value found there. *)
Theorem normalize_plan_raises_iff (raw : dict) (umc : option string) :
  match dict_get raw "media_constraints" with
  | Some (VDict _) | None =>
      (exists plan, Orchestration.normalize_plan raw umc = Ok plan) /\
      (exists plan, Fal.normalize_plan raw umc = Ok plan) /\
      (exists plan, Legacy.normalize_plan raw umc = Ok plan)
  | Some v =>
      let e := AttributeError
                 ("'" ++ type_name v ++ "' object has no attribute 'get'") in
      Orchestration.normalize_plan raw umc = Raise e /\
      Fal.normalize_plan raw umc = Raise e /\
      Legacy.normalize_plan raw umc = Raise e
  end.
Proof.
  destruct (dict_get raw "media_constraints") as [v|] eqn:E.
  - destruct v as [ | | | | |m];
      try (unfold Orchestration.normalize_plan, Fal.normalize_plan,
             Legacy.normalize_plan, dict_get_default;
           rewrite E; repeat split; reflexivity).
    apply (normalize_plan_returns raw umc m).
    unfold dict_get_default. now rewrite E.
  - apply (normalize_plan_returns raw umc []).
    unfold dict_get_default. now rewrite E.
Qed.

Ltac close_known :=
  let H := fresh "H" in
  let Hf := fresh "Hf" in
  intros H Hf; injection H as <-;
  unfold plan_media_field in Hf; simpl in Hf;
  injection Hf as <-; unfold known_selections; simpl; tauto.

(** X6.  Whatever [user_media_choice] is, the [selected_type] of a plan
    returned by [normalize_plan] is [None] or one of ["image"], ["video"],
    ["photo_carousel"], ["text_only"]. *)
Theorem normalize_plan_selects_known_type
    (raw : dict) (umc : option string) (plan : dict) (selected : value)
    (Hplan : Orchestration.normalize_plan raw umc = Ok plan \/
             Fal.normalize_plan raw umc = Ok plan \/
             Legacy.normalize_plan raw umc = Ok plan)
    (Hsel : plan_media_field plan "selected_type" = Some selected) :
  In selected known_selections.
Proof.
  revert Hsel. destruct Hplan as [H|[H|H]]; revert H;
    unfold Orchestration.normalize_plan, Fal.normalize_plan,
      Legacy.normalize_plan;
    open_normalize raw umc; close_known.
Qed.

(** X7.  When the raw media type is ["optional"] or
    ["image_or_short_video"], every variant allows image and video, honours
    the user's choice of ["video"], and selects ["image"] for any other
    choice or none. *)
Theorem normalize_plan_optional_media
    (raw m : dict) (t : string) (umc : option string)
    (Hmedia : dict_get raw "media_constraints" = Some (VDict m))
    (Htype : dict_get m "type" = Some (VStr t))
    (Ht : t = "optional" \/ t = "image_or_short_video") :
  let selected :=
    VStr (match umc with
          | Some u => if String.eqb u "video" then "video" else "image"
          | None => "image"
          end) in
  (exists plan,
      Orchestration.normalize_plan raw umc = Ok plan /\
      plan_media_field plan "allowed_types"
      = Some (VList [VStr "image"; VStr "video"]) /\
      plan_media_field plan "selected_type" = Some selected) /\
  (exists plan,
      Fal.normalize_plan raw umc = Ok plan /\
      plan_media_field plan "allowed_types"
      = Some (VList [VStr "image"; VStr "video"]) /\
      plan_media_field plan "selected_type" = Some selected) /\
  (exists plan,
      Legacy.normalize_plan raw umc = Ok plan /\
      plan_media_field plan "allowed_types"
      = Some (VList [VStr "image"; VStr "video"]) /\
      plan_media_field plan "selected_type" = Some selected).
Proof.
  unfold Orchestration.normalize_plan, Fal.normalize_plan,
    Legacy.normalize_plan, dict_get_default.
  rewrite Hmedia. simpl. unfold dict_get_default. rewrite Htype.
  destruct Ht as [-> | ->]; destruct umc as [u|]; simpl; string_cases;
    repeat split; eexists; repeat split; reflexivity.
Qed.

(** X8.  [normalize_plan] is not idempotent: the plan it returns has no
    ["type"] under [media_constraints], so normalising it once more, with
    any choice, returns a plan that allows and selects nothing. *)
Theorem normalize_plan_twice
    (raw : dict) (umc umc' : option string) (plan : dict)
    (Hplan : Orchestration.normalize_plan raw umc = Ok plan \/
             Fal.normalize_plan raw umc = Ok plan \/
             Legacy.normalize_plan raw umc = Ok plan) :
  (exists plan',
      Orchestration.normalize_plan plan umc' = Ok plan' /\
      plan_media_field plan' "allowed_types" = Some (VList []) /\
      plan_media_field plan' "selected_type" = Some VNone) /\
  (exists plan',
      Fal.normalize_plan plan umc' = Ok plan' /\
      plan_media_field plan' "allowed_types" = Some (VList []) /\
      plan_media_field plan' "selected_type" = Some VNone) /\
  (exists plan',
      Legacy.normalize_plan plan umc' = Ok plan' /\
      plan_media_field plan' "allowed_types" = Some (VList []) /\
      plan_media_field plan' "selected_type" = Some VNone).
Proof.
  destruct (normalize_plan_shape_any raw umc plan Hplan)
    as [selected [_ Hshape]].
  unfold normalized_plan_shape in Hshape.
  repeat match goal with
         | H : exists _, _ |- _ => destruct H as [? H]
         end.
  subst plan.
  repeat split; eexists; repeat split; reflexivity.
Qed.

End NormalizePlanMore.

Lemma normalize_plan_keys_witness :
  exists plan,
    Fal.normalize_plan raw_x_default (Some "video") = Ok plan /\
    keys plan = plan_keys /\
    exists mc,
      dict_get plan "media_constraints" = Some (VDict mc) /\
      keys mc = media_constraint_keys /\
      dict_get mc "raw"
      = Some (dict_get_default raw_x_default "media_constraints" (VDict [])) /\
      dict_get plan "text_constraints"
      = Some (dict_get_default raw_x_default "text_constraints" (VDict [])) /\
      dict_get plan "_meta"
      = Some (dict_get_default raw_x_default "_meta" VNone).
Proof.
  eexists. split; [reflexivity|].
  apply (normalize_plan_keys raw_x_default (Some "video")).
  right. left. reflexivity.
Defined.

Lemma normalize_plan_selects_known_type_witness :
  In (VStr "image") known_selections.
Proof.
  apply (normalize_plan_selects_known_type raw_x_default
           (Some "photo_carousel") _ (VStr "image")
           (or_introl eq_refl) eq_refl).
Defined.

Lemma normalize_plan_optional_media_witness :
  exists plan,
    Orchestration.normalize_plan raw_x_default (Some "photo_carousel")
    = Ok plan /\
    plan_media_field plan "allowed_types"
    = Some (VList [VStr "image"; VStr "video"]) /\
    plan_media_field plan "selected_type" = Some (VStr "image").
Proof.
  exact (proj1 (normalize_plan_optional_media raw_x_default
                  [("type", VStr "optional")] "optional"
                  (Some "photo_carousel") eq_refl eq_refl
                  (or_introl eq_refl))).
Defined.

Lemma normalize_plan_twice_witness :
  exists plan plan',
    Orchestration.normalize_plan raw_x_default (Some "video") = Ok plan /\
    plan_media_field plan "selected_type" = Some (VStr "video") /\
    Orchestration.normalize_plan plan (Some "video") = Ok plan' /\
    plan_media_field plan' "allowed_types" = Some (VList []) /\
    plan_media_field plan' "selected_type" = Some VNone.
Proof.
  eexists.
  destruct (proj1 (normalize_plan_twice raw_x_default (Some "video")
                     (Some "video") _ (or_introl eq_refl)))
    as [plan' [H1 [H2 H3]]].
  exists plan'. repeat split; [exact H1 | exact H2 | exact H3].
Defined.

(** ** Prompts and model inputs *)

(** X9.  [build_text_prompt] (content_orchestration.py and
    content_orchestrationfal.py) raises the [KeyError] of the first of
    ["platform"], ["objective"], ["content_type"], ["tone"],
    ["text_constraints"] the plan does not have, and renders the text
    template when the plan has all five. *)
Theorem build_text_prompt_missing_key
    (render : template -> dict -> string) (plan : dict) :
  match first_missing text_prompt_keys plan with
  | Some k =>
      Orchestration.build_text_prompt render plan = Raise (key_error k) /\
      Fal.build_text_prompt render plan = Raise (key_error k)
  | None =>
      exists context,
        keys context = text_prompt_keys /\
        (forall k, In k text_prompt_keys ->
                   dict_get context k = dict_get plan k) /\
        Orchestration.build_text_prompt render plan
        = Ok (render TEXT_PROMPT_TEMPLATE context) /\
        Fal.build_text_prompt render plan
        = Ok (render TEXT_PROMPT_TEMPLATE context)
  end.
Proof.
  unfold Orchestration.build_text_prompt, Fal.build_text_prompt, dict_item,
    text_prompt_keys, first_missing, dict_mem.
  destruct (dict_get plan "platform") eqn:E1; [|split; reflexivity].
  destruct (dict_get plan "objective") eqn:E2; [|split; reflexivity].
  destruct (dict_get plan "content_type") eqn:E3; [|split; reflexivity].
  destruct (dict_get plan "tone") eqn:E4; [|split; reflexivity].
  destruct (dict_get plan "text_constraints") eqn:E5; [|split; reflexivity].
  simpl.
  exists [("platform", v); ("objective", v0); ("content_type", v1);
          ("tone", v2); ("text_constraints", v3)].
  split; [reflexivity|]. split; [|split; reflexivity].
  intros k [<-|[<-|[<-|[<-|[<-|[]]]]]]; simpl; congruence.
Qed.

Section ModelInputs.

Variable render : template -> dict -> string.
Variable py_str : value -> string.

(** X10.  For every plan [normalize_plan] of content_orchestration.py
    returns, [build_final_model_input] returns; its media payload has
    exactly the five keys of the payload schema and its constraints the ten
    keys; [media_type] is the plan's [selected_type], the two uploaded
    files are passed on, and the plan is returned unchanged. *)
Theorem build_final_model_input_payload
    (raw : dict) (umc : option string) (plan user_inputs uploaded_files : dict)
    (Hplan : Orchestration.normalize_plan raw umc = Ok plan) :
  exists final_input constraints,
    Orchestration.build_final_model_input render py_str
      plan user_inputs uploaded_files = Ok final_input /\
    keys (Orchestration.media_payload final_input) = media_payload_keys /\
    dict_get (Orchestration.media_payload final_input) "media_constraints"
    = Some (VDict constraints) /\
    keys constraints = payload_constraint_keys /\
    dict_get (Orchestration.media_payload final_input) "media_type"
    = plan_media_field plan "selected_type" /\
    dict_get constraints "selected_type"
    = plan_media_field plan "selected_type" /\
    dict_get constraints "allowed_types"
    = plan_media_field plan "allowed_types" /\
    dict_get (Orchestration.media_payload final_input) "reference_image"
    = Some (dict_get_default uploaded_files "reference_image" VNone) /\
    dict_get (Orchestration.media_payload final_input) "video_init_image"
    = Some (dict_get_default uploaded_files "video_init_image" VNone) /\
    Orchestration.generation_plan final_input = plan.
Proof.
  destruct (orchestration_normalize_shape raw umc plan Hplan)
    as [selected [_ Hshape]].
  unfold normalized_plan_shape in Hshape.
  repeat match goal with
         | H : exists _, _ |- _ => destruct H as [? H]
         end.
  subst plan.
  unfold Orchestration.build_final_model_input,
    Orchestration.build_text_prompt, Orchestration.build_media_prompt.
  cbn.
  destruct (negb (truthy selected) || py_eq selected (VStr "text_only"));
    cbn; do 2 eexists; repeat split.
Qed.

End ModelInputs.

Lemma build_final_model_input_payload_witness :
  exists final_input,
    Orchestration.build_final_model_input sample_render sample_str
      [("platform", VNone); ("content_type", VStr "post");
       ("objective", VStr "engagement"); ("tone", VStr "professional");
       ("text_constraints", VDict [("max_chars", VInt 280)]);
       ("media_constraints",
         VDict [("allowed_types", VList [VStr "image"; VStr "video"]);
                ("selected_type", VStr "video");
                ("raw", VDict [("type", VStr "optional")]);
                ("image", VDict []); ("video", VDict []);
                ("image_count", VNone); ("aspect_ratio", VNone);
                ("safe_zone_required", VBool false);
                ("ugc_style", VBool false);
                ("supports_audio", VBool false);
                ("recommended_use_cases", VList [])]);
       ("cta_style", VNone); ("optimization_goal", VNone);
       ("variation_count", VNone);
       ("_meta", VDict [("platform", VStr "X");
                        ("intent", VStr "DEFAULT")])]
      sample_user_inputs [("reference_image", VStr "ref.png")]
    = Ok final_input /\
    keys (Orchestration.media_payload final_input) = media_payload_keys /\
    dict_get (Orchestration.media_payload final_input) "reference_image"
    = Some (VStr "ref.png") /\
    dict_get (Orchestration.media_payload final_input) "video_init_image"
    = Some VNone.
Proof.
  destruct (build_final_model_input_payload sample_render sample_str
              raw_x_default (Some "video") _ sample_user_inputs
              [("reference_image", VStr "ref.png")] eq_refl)
    as [final_input [constraints [H [Hk [_ [_ [_ [_ [_ [Hr [Hv _]]]]]]]]]]].
  exists final_input. repeat split; assumption.
Defined.

(** ** The generation services *)

Section Services.

Variable py_str : value -> string.
Variable gemini : gemini_service.
Variable replicate : replicate_service.
Variable fal : fal_service.
Variable path_exists : string -> bool.
Variable open_rb : string -> result unit.

(** X11.  [generate_text_with_gemini] (both files) never raises and sends
    exactly one request: it returns the stripped text of the response, and
    when the call fails, or the response has no text, the text
    [Error generating text with Gemini: <str(e)>]. *)
Theorem generate_text_with_gemini_never_raises
    (prompt : string) (h : list event) :
  let text :=
    match gemini h prompt with
    | Ok (Some t) => strip t
    | Ok None =>
        "Error generating text with Gemini: 'NoneType' object has no attribute 'strip'"
    | Raise e => ("Error generating text with Gemini: " ++ str_exn e)%string
    end in
  Orchestration.generate_text_with_gemini gemini prompt h
  = (Ok text, [GeminiGenerateContent "gemini-2.5-flash" prompt]) /\
  Fal.generate_text_with_gemini gemini prompt h
  = (Ok text, [GeminiGenerateContent "gemini-2.5-flash" prompt]).
Proof.
  unfold Orchestration.generate_text_with_gemini,
    Fal.generate_text_with_gemini, try_except, bindM,
    Orchestration.generate_content, Fal.generate_content.
  destruct (gemini h prompt) as [[t|]|e]; split; reflexivity.
Qed.

(** X12.  [generate_image_with_replicate] never raises, sends exactly one
    request, to flux-schnell with the input [{"prompt": prompt}], and does
    not use [reference_image]: two calls that differ only in it behave
    alike. *)
Theorem generate_image_with_replicate_ignores_reference
    (prompt : string) (reference_image reference_image' : value)
    (h : list event) :
  let input := [("prompt", VStr prompt)] in
  let url :=
    match replicate h "black-forest-labs/flux-schnell" input None with
    | Ok output => Orchestration.first_output py_str output
    | Raise e => ("Error generating image: " ++ str_exn e)%string
    end in
  Orchestration.generate_image_with_replicate py_str replicate
    prompt reference_image h
  = (Ok url, [ReplicateRun "black-forest-labs/flux-schnell" input None]) /\
  Orchestration.generate_image_with_replicate py_str replicate
    prompt reference_image h
  = Orchestration.generate_image_with_replicate py_str replicate
      prompt reference_image' h.
Proof.
  unfold Orchestration.generate_image_with_replicate, try_except, bindM,
    Orchestration.replicate_run.
  destruct (replicate h "black-forest-labs/flux-schnell"
              [("prompt", VStr prompt)] None) as [output|e];
    split; reflexivity.
Qed.

Ltac run_video :=
  unfold try_except, bindM, lift, ret, Orchestration.replicate_run;
  simpl;
  repeat match goal with
         | H : _ = _ |- _ => rewrite H
         end;
  simpl; rewrite ?app_nil_r;
  match goal with
  | |- context [replicate ?a ?b ?c ?d] => destruct (replicate a b c d)
  end;
  simpl; do 3 eexists; repeat split.

(** X13.  [generate_video_with_replicate] either returns after exactly one
    request to ltx-video that carries the prompt, or raises before any
    request is sent; it raises only for an [init_image] that is truthy and
    not a string, or names an existing local file that cannot be opened.  A
    failing service never makes it raise. *)
Theorem generate_video_with_replicate_cases
    (prompt : string) (init_image : value) (h : list event) :
  (exists url input image_file,
      Orchestration.generate_video_with_replicate py_str replicate
        path_exists open_rb prompt init_image h
      = (Ok url, [ReplicateRun ltx_video input image_file]) /\
      dict_get input "prompt" = Some (VStr prompt) /\
      dict_get input "aspect_ratio" = Some (VStr "16:9") /\
      dict_get input "model" = Some (VStr "0.9.1"))
  \/
  (exists e,
      Orchestration.generate_video_with_replicate py_str replicate
        path_exists open_rb prompt init_image h
      = (Raise e, []) /\
      truthy init_image = true /\
      ((forall s, init_image <> VStr s) \/
       exists path,
         init_image = VStr path /\ String.prefix "http" path = false /\
         path_exists path = true /\ open_rb path = Raise e)).
Proof.
  unfold Orchestration.generate_video_with_replicate.
  destruct (truthy init_image) eqn:Ht.
  - destruct init_image as [| b | z | s | l | d];
      try discriminate;
      try (right; eexists; split; [reflexivity|]; split; [reflexivity|];
           left; intros s0; discriminate).
    unfold py_startswith.
    destruct (String.prefix "http" s) eqn:Hp; [left; run_video|].
    destruct (path_exists s) eqn:He; [|left; run_video].
    destruct (open_rb s) as [[]|e] eqn:Ho; [left; run_video|].
    right. exists e. split.
    + unfold try_except, bindM, lift, ret. simpl.
      rewrite ?Hp, ?He, ?Ho. reflexivity.
    + split; [reflexivity|]. right. exists s. repeat split; assumption.
  - left. run_video.
Qed.

Ltac finish_fal :=
  repeat (simpl;
          match goal with
          | |- context [(0 <? ?n)%nat] => destruct (0 <? n)%nat
          | |- context [match ?s with
                        | EmptyString => _
                        | String _ _ => _
                        end] => is_var s; destruct s
          | |- context [dict_item ?i "url"] => unfold dict_item
          | |- context [dict_get ?i "url"] => destruct (dict_get i "url")
          end);
  simpl; eexists; (split; [reflexivity | first [exact I | reflexivity]]).

(** X14.  [generate_image_with_fal] raises, before any request is sent,
    exactly when [constraints] is not a dictionary.  Otherwise it returns
    after one request to nano-banana, with [width] and [height] taken from
    the constraints (1024 by default) and [image_input] present exactly for
    a truthy [reference_image]; the result is the [url] of the first
    image, the printed response when it has no images, and an error text
    when the service fails or the first image has no [url]. *)
Theorem generate_image_with_fal_cases
    (prompt : string) (constraints reference_image : value) (h : list event) :
  match constraints with
  | VDict c =>
      let base := [("prompt", VStr prompt);
                   ("output_format", VStr "png");
                   ("width", dict_get_default c "width" (VInt 1024));
                   ("height", dict_get_default c "height" (VInt 1024))] in
      let arguments :=
        if truthy reference_image
        then (base ++ [("image_input", VList [reference_image])])%list
        else base in
      exists result,
        Fal.generate_image_with_fal py_str fal
          prompt constraints reference_image h
        = (Ok result, [FalSubscribe "fal-ai/nano-banana" arguments]) /\
        match fal h "fal-ai/nano-banana" arguments with
        | Raise e =>
            result = VStr ("Error generating image with fal.ai: " ++ str_exn e)
        | Ok r =>
            match dict_get r "images" with
            | None | Some (VList []) => result = VStr (py_str (VDict r))
            | Some (VList (VDict image :: _)) =>
                match dict_get image "url" with
                | Some url => result = url
                | None =>
                    result = VStr "Error generating image with fal.ai: 'url'"
                end
            | Some _ => True
            end
        end
  | _ =>
      Fal.generate_image_with_fal py_str fal
        prompt constraints reference_image h
      = (Raise (AttributeError
                  ("'" ++ type_name constraints
                       ++ "' object has no attribute 'get'")), [])
  end.
Proof.
  destruct constraints as [| b | z | s | l | c]; try reflexivity.
  unfold Fal.generate_image_with_fal, try_except, bindM, lift, ret,
    Fal.subscribe, dict_mem, dict_item.
  simpl. rewrite ?app_nil_r.
  destruct (truthy reference_image); simpl;
    match goal with
    | |- context [fal ?a ?b ?c] => destruct (fal a b c) as [r|e]
    end; simpl; try (eexists; split; reflexivity);
    (destruct (dict_get r "images") as [[| | | | [|[| | | | |image] rest] | ]|];
     finish_fal).
Qed.

(** X15.  [generate_video_with_fal] raises, before any request is sent,
    exactly when [constraints] is not a dictionary.  Otherwise it returns
    after one request to veo3, with duration 8, resolution 1080p, aspect
    ratio 16:9 and audio on unless the constraints say otherwise, and
    [image] present exactly for a truthy [init_image]; the result is the
    [url] of the video, the printed response when it has no video, and an
    error text when the service fails or the video has no [url]. *)
Theorem generate_video_with_fal_cases
    (prompt : string) (constraints init_image : value) (h : list event) :
  match constraints with
  | VDict c =>
      let base := [("prompt", VStr prompt);
                   ("duration", dict_get_default c "max_duration_sec" (VInt 8));
                   ("resolution",
                     dict_get_default c "resolution" (VStr "1080p"));
                   ("aspect_ratio",
                     dict_get_default c "aspect_ratio" (VStr "16:9"));
                   ("generate_audio",
                     dict_get_default c "supports_audio" (VBool true))] in
      let arguments :=
        if truthy init_image then (base ++ [("image", init_image)])%list
        else base in
      exists result,
        Fal.generate_video_with_fal py_str fal prompt constraints init_image h
        = (Ok result, [FalSubscribe "fal-ai/veo3" arguments]) /\
        match fal h "fal-ai/veo3" arguments with
        | Raise e =>
            result = VStr ("Error generating video with fal.ai: " ++ str_exn e)
        | Ok r =>
            match dict_get r "video" with
            | None => result = VStr (py_str (VDict r))
            | Some (VDict video) =>
                match dict_get video "url" with
                | Some url => result = url
                | None =>
                    result = VStr "Error generating video with fal.ai: 'url'"
                end
            | Some _ => True
            end
        end
  | _ =>
      Fal.generate_video_with_fal py_str fal prompt constraints init_image h
      = (Raise (AttributeError
                  ("'" ++ type_name constraints
                       ++ "' object has no attribute 'get'")), [])
  end.
Proof.
  destruct constraints as [| b | z | s | l | c]; try reflexivity.
  unfold Fal.generate_video_with_fal, try_except, bindM, lift, ret,
    Fal.subscribe, dict_mem, dict_item.
  simpl. rewrite ?app_nil_r.
  destruct (truthy init_image); simpl;
    match goal with
    | |- context [fal ?a ?b ?c] => destruct (fal a b c) as [r|e]
    end; simpl; try (eexists; split; reflexivity);
    (destruct (dict_get r "video") as [[| | | | | video]|];
     finish_fal).
Qed.

End Services.

(** ** [orchestrate_content_generation]: failures and requests *)

Section OrchestrationMore.

Variable render : template -> dict -> string.
Variable py_str : value -> string.
Variable gemini : gemini_service.
Variable replicate : replicate_service.
Variable path_exists : string -> bool.
Variable open_rb : string -> result unit.

Local Abbreviation orchestrate :=
  (Orchestration.orchestrate_content_generation
     render py_str gemini replicate path_exists open_rb).


(** Once the plan is built and normalised, the call returns. *)
Lemma orchestrate_returns_after_planning
    (rules : rules_t) (platform intent : string)
    (user_inputs uploaded_files : dict) (umc : option string)
    (raw plan : dict) (h : list event) :
  build_generation_plan rules platform intent = Ok raw ->
  Orchestration.normalize_plan raw umc = Ok plan ->
  exists answer sent,
    orchestrate rules platform intent user_inputs uploaded_files umc h
    = (Ok answer, GeminiGenerateContent "gemini-2.5-flash"
                    (match Orchestration.build_final_model_input render py_str
                             plan user_inputs uploaded_files with
                     | Ok final_input =>
                         Orchestration.text_model_input final_input
                     | Raise _ => ""
                     end) :: sent).
Proof.
  intros Hraw Hplan.
  destruct (orchestration_normalize_shape raw umc plan Hplan)
    as [selected [Hsel Hshape]].
  destruct (build_final_model_input_returns render py_str
              plan user_inputs uploaded_files selected Hshape)
    as [final_input [Hfi [Hmt Hgp]]].
  destruct (orchestration_generate_text_returns gemini
              (Orchestration.text_model_input final_input) h)
    as [post_text Htext].
  destruct (orchestrate_media_step_returns py_str gemini replicate
              path_exists open_rb plan final_input post_text selected
              (h ++ [GeminiGenerateContent Orchestration.MODEL_NAME
                       (Orchestration.text_model_input final_input)]) Hmt)
    as [media [sent [Hrun _]]].
  unfold Orchestration.orchestrate_content_generation.
  rewrite Hraw, bindM_lift_ok, Hplan, bindM_lift_ok, Hfi, bindM_lift_ok.
  rewrite (bindM_ok _ _ _ _ _ Htext).
  match goal with
  | |- exists _ _, (fst ?x, _ ++ snd ?x) = _ =>
      assert (Hx : x = (Ok [("text", VStr post_text); ("media", media)],
                        sent)) by exact Hrun;
      rewrite Hx
  end.
  do 2 eexists. reflexivity.
Qed.

(** X16.  [orchestrate_content_generation] raises only while planning:
    when it raises, the exception is the one [build_generation_plan] or
    [normalize_plan] raised, and no request has been sent to any
    service. *)
Theorem orchestrate_raises_before_any_request
    (rules : rules_t) (platform intent : string)
    (user_inputs uploaded_files : dict) (umc : option string)
    (h : list event) (e : exn) (sent : list event)
    (Hraise : orchestrate rules platform intent user_inputs uploaded_files
                umc h = (Raise e, sent)) :
  sent = [] /\
  (build_generation_plan rules platform intent = Raise e \/
   exists raw,
     build_generation_plan rules platform intent = Ok raw /\
     Orchestration.normalize_plan raw umc = Raise e).
Proof.
  destruct (build_generation_plan rules platform intent) as [raw|e0] eqn:Hraw.
  - destruct (Orchestration.normalize_plan raw umc) as [plan|e1] eqn:Hplan.
    + destruct (orchestrate_returns_after_planning rules platform intent
                  user_inputs uploaded_files umc raw plan h Hraw Hplan)
        as [answer [sent' Hok]].
      rewrite Hok in Hraise. discriminate.
    + unfold Orchestration.orchestrate_content_generation in Hraise.
      rewrite Hraw, bindM_lift_ok, Hplan in Hraise. simpl in Hraise.
      injection Hraise as <- <-. split; [reflexivity|].
      right. exists raw. split; [reflexivity | exact Hplan].
  - unfold Orchestration.orchestrate_content_generation in Hraise.
    rewrite Hraw in Hraise. simpl in Hraise.
    injection Hraise as <- <-. split; [reflexivity|]. now left.
Qed.



End OrchestrationMore.

Lemma orchestrate_raises_before_any_request_witness :
  [] = @nil event /\
  (build_generation_plan dummy_rules "instagram" "DEFAULT"
   = Raise (ValueError "Platform INSTAGRAM not found") \/
   exists raw,
     build_generation_plan dummy_rules "instagram" "DEFAULT" = Ok raw /\
     Orchestration.normalize_plan raw None
     = Raise (ValueError "Platform INSTAGRAM not found")).
Proof.
  apply (orchestrate_raises_before_any_request
           sample_render sample_str sample_gemini sample_replicate
           (fun _ => false) (fun _ => Ok tt)
           dummy_rules "instagram" "DEFAULT" sample_user_inputs
           sample_uploaded_files None []).
  reflexivity.
Defined.


(* ================================================================== *)
(** * The outcome of a run of the workflow *)
(* ================================================================== *)

(** Writes out the state an update leaves, field by field. *)
Ltac write_update :=
  unfold Fal.apply_update, Fal.failed;
  cbn [Fal.platform Fal.intent Fal.user_inputs Fal.uploaded_files
       Fal.user_media_choice Fal.generation_plan Fal.text_model_input
       Fal.media_payload Fal.visual_prompt Fal.generated_text
       Fal.generated_media_url Fal.status Fal.errors or_else].

Section FalOutcome.

Variable render : template -> dict -> string.
Variable py_str : value -> string.
Variable gemini : gemini_service.
Variable fal : fal_service.
Variable rules : rules_t.

Local Abbreviation workflow := (Fal.workflow render py_str gemini fal rules).

Lemma bindM_returns_inv {A B : Type} (m : M A) (k : A -> M B)
    (h : list event) (b : B) (sent : list event) :
  bindM m k h = (Ok b, sent) ->
  exists a sent1 sent2,
    m h = (Ok a, sent1) /\ k a (h ++ sent1) = (Ok b, sent2) /\
    sent = sent1 ++ sent2.
Proof.
  unfold bindM. destruct (m h) as [[a|e] sent1]; [|discriminate].
  destruct (k a (h ++ sent1)) as [r sent2] eqn:Hk.
  intro H. injection H as -> <-. now exists a, sent1, sent2.
Qed.

Lemma apply_update_status (state update : Fal.AgentState) (v : string) :
  Fal.status update = Some v ->
  Fal.status (Fal.apply_update state update) = Some v.
Proof. intro H. unfold Fal.apply_update. simpl. now rewrite H. Qed.

Lemma apply_update_errors (state update : Fal.AgentState)
    (l : list string) :
  Fal.errors update = Some l ->
  Fal.errors (Fal.apply_update state update) = Some l.
Proof. intro H. unfold Fal.apply_update. simpl. now rewrite H. Qed.

Lemma apply_update_media (state update : Fal.AgentState) (v : value) :
  Fal.generated_media_url update = Some v ->
  Fal.generated_media_url (Fal.apply_update state update) = Some v.
Proof. intro H. unfold Fal.apply_update. simpl. now rewrite H. Qed.

Lemma planner_body_sends_nothing (state : Fal.AgentState) (h : list event) :
  snd (Fal.planner_body rules state h) = [].
Proof.
  unfold Fal.planner_body.
  destruct (state_item (Fal.platform state) "platform") as [p|e];
    [rewrite bindM_lift_ok | reflexivity].
  destruct (state_item (Fal.intent state) "intent") as [i|e];
    [rewrite bindM_lift_ok | reflexivity].
  destruct (build_generation_plan rules p i) as [raw|e];
    [rewrite bindM_lift_ok | reflexivity].
  destruct (state_item (Fal.user_media_choice state) "user_media_choice")
    as [c|e]; [rewrite bindM_lift_ok | reflexivity].
  destruct (Fal.normalize_plan raw c) as [plan|e];
    [rewrite bindM_lift_ok | reflexivity].
  reflexivity.
Qed.

(** The update of the media producer: a body that returns reports no
    error. *)
Lemma media_producer_body_update (state : Fal.AgentState) (h : list event)
    (update : Fal.AgentState) (sent : list event) :
  Fal.media_producer_body py_str fal state h = (Ok update, sent) ->
  Fal.errors update = Some [] /\
  (Fal.status update = Some "media_produced" \/
   Fal.status update = Some "media_producer_skipped" /\
   Fal.generated_media_url update = Some VNone /\ sent = []).
Proof.
  unfold Fal.media_producer_body. intro H.
  apply bindM_returns_inv in H.
  destruct H as [media_type [s1 [s2 [H1 [H2 ->]]]]].
  unfold lift in H1. injection H1 as H1 <-.
  destruct (negb (truthy media_type) || py_eq media_type (VStr "text_only")).
  { injection H2 as <- <-. simpl. split; [reflexivity|]. right. auto. }
  destruct (negb (present (Fal.visual_prompt state))); [discriminate|].
  apply bindM_returns_inv in H2.
  destruct H2 as [plan [s3 [s4 [_ [H2 ->]]]]].
  apply bindM_returns_inv in H2.
  destruct H2 as [constraints [s5 [s6 [_ [H2 ->]]]]].
  apply bindM_returns_inv in H2.
  destruct H2 as [media_result [s7 [s8 [_ [H2 ->]]]]].
  injection H2 as <- <-. simpl. split; [reflexivity|]. now left.
Qed.

Lemma media_producer_node_outcome (state : Fal.AgentState) (h : list event) :
  exists update sent,
    Fal.media_producer_node py_str fal state h = (Ok update, sent) /\
    (Fal.errors update = Some [] /\
     (Fal.status update = Some "media_produced" \/
      Fal.status update = Some "media_producer_skipped" /\
      Fal.generated_media_url update = Some VNone)
     \/
     Fal.status update = Some "failed" /\
     exists e,
       Fal.media_producer_body py_str fal state h = (Raise e, sent) /\
       Fal.errors update
       = Some (match Fal.errors state with Some l => l | None => [] end
               ++ [("Media Producer failed: " ++ str_exn e)%string])).
Proof.
  unfold Fal.media_producer_node, try_except.
  destruct (Fal.media_producer_body py_str fal state h) as [[u|e] sent]
    eqn:Hbody.
  - exists u, sent. split; [reflexivity|]. left.
    destruct (media_producer_body_update state h u sent Hbody)
      as [He [Hs | [Hs [Hm _]]]]; auto.
  - simpl. rewrite app_nil_r. eexists _, sent. split; [reflexivity|].
    right. split; [reflexivity|]. exists e. split; reflexivity.
Qed.

Lemma linear_chain_last_node (state : Fal.AgentState) (h : list event) :
  exists final sent,
    Fal.linear_chain render py_str gemini fal rules state h
    = (Ok final, sent) /\
    (Fal.errors final = Some [] /\
     (Fal.status final = Some "media_produced" \/
      Fal.status final = Some "media_producer_skipped" /\
      Fal.generated_media_url final = Some VNone)
     \/
     Fal.status final = Some "failed" /\
     exists old e,
       Fal.errors final
       = Some (old ++ [("Media Producer failed: " ++ str_exn e)%string])).
Proof.
  destruct (nodes_catch render py_str gemini fal rules)
    as [[_ H1] [[_ H2] [[_ H3] [[_ H4] _]]]].
  unfold Fal.linear_chain.
  destruct (H1 state h) as [u1 [e1 E1]].
  rewrite (bindM_ok _ _ _ _ _ E1).
  destruct (H2 (Fal.apply_update state u1) (h ++ e1)) as [u2 [e2 E2]].
  rewrite (bindM_ok _ _ _ _ _ E2).
  destruct (H3 (Fal.apply_update (Fal.apply_update state u1) u2)
              ((h ++ e1) ++ e2)) as [u3 [e3 E3]].
  rewrite (bindM_ok _ _ _ _ _ E3).
  destruct (H4 (Fal.apply_update
                  (Fal.apply_update (Fal.apply_update state u1) u2) u3)
              (((h ++ e1) ++ e2) ++ e3)) as [u4 [e4 E4]].
  rewrite (bindM_ok _ _ _ _ _ E4).
  destruct (media_producer_node_outcome
              (Fal.apply_update
                 (Fal.apply_update
                    (Fal.apply_update (Fal.apply_update state u1) u2) u3) u4)
              ((((h ++ e1) ++ e2) ++ e3) ++ e4))
    as [u5 [e5 [E5 Hout]]].
  rewrite (bindM_ok _ _ _ _ _ E5).
  unfold ret. cbn [fst snd].
  eexists _, _. split; [reflexivity|].
  destruct Hout as [[He [Hs | [Hs Hm]]] | [Hs [e [_ He]]]].
  - left. rewrite (apply_update_errors _ _ _ He).
    rewrite (apply_update_status _ _ _ Hs). auto.
  - left. rewrite (apply_update_errors _ _ _ He).
    rewrite !(apply_update_status _ _ _ Hs).
    rewrite (apply_update_media _ _ _ Hm). auto.
  - right. rewrite (apply_update_errors _ _ _ He).
    rewrite (apply_update_status _ _ _ Hs). split; [reflexivity|]. eauto.
Qed.


Lemma failed_status_errors (state : Fal.AgentState) (message : string) :
  Fal.apply_update state (Fal.failed state message)
  = {| Fal.platform := Fal.platform state;
       Fal.intent := Fal.intent state;
       Fal.user_inputs := Fal.user_inputs state;
       Fal.uploaded_files := Fal.uploaded_files state;
       Fal.user_media_choice := Fal.user_media_choice state;
       Fal.generation_plan := Fal.generation_plan state;
       Fal.text_model_input := Fal.text_model_input state;
       Fal.media_payload := Fal.media_payload state;
       Fal.visual_prompt := Fal.visual_prompt state;
       Fal.generated_text := Fal.generated_text state;
       Fal.generated_media_url := Fal.generated_media_url state;
       Fal.status := Some "failed";
       Fal.errors :=
         Some (match Fal.errors state with Some l => l | None => [] end
               ++ [message]) |}.
Proof. reflexivity. Qed.

Lemma planner_node_fails (state : Fal.AgentState) (h : list event)
    (e : exn) :
  fst (Fal.planner_body rules state h) = Raise e ->
  Fal.planner_node rules state h
  = (Ok (Fal.failed state ("Planner failed: " ++ str_exn e)), []).
Proof.
  intro Hfail. unfold Fal.planner_node, try_except.
  pose proof (planner_body_sends_nothing state h) as Hs.
  destruct (Fal.planner_body rules state h) as [[u|e'] sent].
  - discriminate.
  - cbn [fst snd] in Hfail, Hs. injection Hfail as ->. subst sent.
    reflexivity.
Qed.

Lemma prompt_engineer_node_without_plan (state : Fal.AgentState)
    (h : list event) :
  Fal.generation_plan state = None ->
  Fal.prompt_engineer_node render py_str state h
  = (Ok (Fal.failed state "Prompt Engineer failed: 'generation_plan'"), []).
Proof.
  intro Hplan.
  unfold Fal.prompt_engineer_node, Fal.prompt_engineer_body, try_except.
  rewrite Hplan. reflexivity.
Qed.

Lemma copywriter_node_without_input (state : Fal.AgentState)
    (h : list event) :
  Fal.text_model_input state = None \/
  Fal.text_model_input state = Some "" ->
  Fal.copywriter_node gemini state h
  = (Ok (Fal.failed state "Copywriter failed: Text model input missing."),
     []).
Proof.
  intro Htext.
  unfold Fal.copywriter_node, Fal.copywriter_body, try_except.
  destruct Htext as [-> | ->]; reflexivity.
Qed.

Lemma visual_refiner_node_without_plan (state : Fal.AgentState)
    (h : list event) :
  Fal.generation_plan state = None ->
  Fal.visual_refiner_node py_str gemini state h
  = (Ok (Fal.failed state "Visual Refiner failed: 'generation_plan'"), []).
Proof.
  intro Hplan.
  unfold Fal.visual_refiner_node, Fal.visual_refiner_body, try_except,
    Fal.selected_media_type.
  rewrite Hplan. reflexivity.
Qed.

Lemma media_producer_node_without_plan (state : Fal.AgentState)
    (h : list event) :
  Fal.generation_plan state = None ->
  Fal.media_producer_node py_str fal state h
  = (Ok (Fal.failed state "Media Producer failed: 'generation_plan'"), []).
Proof.
  intro Hplan.
  unfold Fal.media_producer_node, Fal.media_producer_body, try_except,
    Fal.selected_media_type.
  rewrite Hplan. reflexivity.
Qed.

Lemma linear_chain_after_planner_failure (state : Fal.AgentState)
    (h : list event) (e : exn)
    (Hplan : Fal.generation_plan state = None)
    (Htext : Fal.text_model_input state = None \/
             Fal.text_model_input state = Some "")
    (Hfail : fst (Fal.planner_body rules state h) = Raise e) :
  Fal.linear_chain render py_str gemini fal rules state h
  = (Ok {| Fal.platform := Fal.platform state;
            Fal.intent := Fal.intent state;
            Fal.user_inputs := Fal.user_inputs state;
            Fal.uploaded_files := Fal.uploaded_files state;
            Fal.user_media_choice := Fal.user_media_choice state;
            Fal.generation_plan := None;
            Fal.text_model_input := Fal.text_model_input state;
            Fal.media_payload := Fal.media_payload state;
            Fal.visual_prompt := Fal.visual_prompt state;
            Fal.generated_text := Fal.generated_text state;
            Fal.generated_media_url := Fal.generated_media_url state;
            Fal.status := Some "failed";
            Fal.errors :=
              Some (match Fal.errors state with Some l => l | None => [] end
                    ++ [("Planner failed: " ++ str_exn e)%string;
                        "Prompt Engineer failed: 'generation_plan'";
                        "Copywriter failed: Text model input missing.";
                        "Visual Refiner failed: 'generation_plan'";
                        "Media Producer failed: 'generation_plan'"]) |},
     []).
Proof.
  pose (s1 := Fal.apply_update state
                (Fal.failed state ("Planner failed: " ++ str_exn e))).
  pose (s2 := Fal.apply_update s1
                (Fal.failed s1 "Prompt Engineer failed: 'generation_plan'")).
  pose (s3 := Fal.apply_update s2
                (Fal.failed s2
                   "Copywriter failed: Text model input missing.")).
  pose (s4 := Fal.apply_update s3
                (Fal.failed s3 "Visual Refiner failed: 'generation_plan'")).
  assert (Hchain :
            Fal.linear_chain render py_str gemini fal rules state h
            = (Ok (Fal.apply_update s4
                     (Fal.failed s4
                        "Media Producer failed: 'generation_plan'")), [])).
  { unfold Fal.linear_chain.
    rewrite (bindM_ok _ _ _ _ _ (planner_node_fails state h e Hfail)).
    cbv beta zeta. fold s1.
    rewrite (bindM_ok _ _ _ _ _
               (prompt_engineer_node_without_plan s1 _ Hplan)).
    cbv beta zeta. fold s2.
    rewrite (bindM_ok _ _ _ _ _ (copywriter_node_without_input s2 _ Htext)).
    cbv beta zeta. fold s3.
    rewrite (bindM_ok _ _ _ _ _
               (visual_refiner_node_without_plan s3 _ Hplan)).
    cbv beta zeta. fold s4.
    rewrite (bindM_ok _ _ _ _ _
               (media_producer_node_without_plan s4 _ Hplan)).
    reflexivity. }
  rewrite Hchain. f_equal. f_equal.
  write_update; subst s4. write_update; subst s3.
  write_update; subst s2. write_update; subst s1. write_update.
  rewrite Hplan, <- !app_assoc. reflexivity.
Qed.

(** X19.  When the planner fails on a state that has no [generation_plan]
    and no, or an empty, [text_model_input], every node after it fails as
    well: no request is sent, [status] is ["failed"], [errors] is the old
    list followed by the five messages in the order of the nodes, and
    nothing else of the state changes. *)
Theorem planner_failure_fails_every_node (state : Fal.AgentState)
    (h : list event) (e : exn)
    (Hplan : Fal.generation_plan state = None)
    (Htext : Fal.text_model_input state = None \/
             Fal.text_model_input state = Some "")
    (Hfail : fst (Fal.planner_body rules state h) = Raise e) :
  Fal.invoke workflow state h
  = (Ok ({| Fal.platform := Fal.platform state;
            Fal.intent := Fal.intent state;
            Fal.user_inputs := Fal.user_inputs state;
            Fal.uploaded_files := Fal.uploaded_files state;
            Fal.user_media_choice := Fal.user_media_choice state;
            Fal.generation_plan := None;
            Fal.text_model_input := Fal.text_model_input state;
            Fal.media_payload := Fal.media_payload state;
            Fal.visual_prompt := Fal.visual_prompt state;
            Fal.generated_text := Fal.generated_text state;
            Fal.generated_media_url := Fal.generated_media_url state;
            Fal.status := Some "failed";
            Fal.errors :=
              Some (match Fal.errors state with Some l => l | None => [] end
                    ++ [("Planner failed: " ++ str_exn e)%string;
                        "Prompt Engineer failed: 'generation_plan'";
                        "Copywriter failed: Text model input missing.";
                        "Visual Refiner failed: 'generation_plan'";
                        "Media Producer failed: 'generation_plan'"]) |},
         Fal.node_names), []).
Proof.
  rewrite workflow_is_linear_chain.
  rewrite (bindM_ok _ _ _ _ _
             (linear_chain_after_planner_failure state h e Hplan Htext
                Hfail)).
  reflexivity.
Qed.

Lemma planner_node_returns_plan (state : Fal.AgentState) (h : list event)
    (p i : string) (c : option string) (raw plan : dict) :
  Fal.platform state = Some p ->
  Fal.intent state = Some i ->
  Fal.user_media_choice state = Some c ->
  build_generation_plan rules p i = Ok raw ->
  Fal.normalize_plan raw c = Ok plan ->
  Fal.planner_node rules state h
  = (Ok {| Fal.platform := None; Fal.intent := None;
           Fal.user_inputs := None; Fal.uploaded_files := None;
           Fal.user_media_choice := None;
           Fal.generation_plan := Some plan; Fal.text_model_input := None;
           Fal.media_payload := None; Fal.visual_prompt := None;
           Fal.generated_text := None; Fal.generated_media_url := None;
           Fal.status := Some "plan_generated"; Fal.errors := Some [] |},
     []).
Proof.
  intros Hp Hi Hc Hraw Hnorm.
  unfold Fal.planner_node, Fal.planner_body, try_except.
  rewrite Hp, Hi, Hc. cbn [state_item].
  rewrite !bindM_lift_ok, Hraw, !bindM_lift_ok, Hnorm, bindM_lift_ok.
  reflexivity.
Qed.

Lemma prompt_engineer_node_without_inputs (state : Fal.AgentState)
    (h : list event) (plan : dict) :
  Fal.generation_plan state = Some plan ->
  Fal.user_inputs state = None ->
  Fal.prompt_engineer_node render py_str state h
  = (Ok (Fal.failed state "Prompt Engineer failed: 'user_inputs'"), []).
Proof.
  intros Hplan Hin.
  unfold Fal.prompt_engineer_node, Fal.prompt_engineer_body, try_except,
    bindM, lift, ret.
  rewrite Hplan, Hin. reflexivity.
Qed.

Lemma selected_media_type_of_plan (state : Fal.AgentState) (plan : dict)
    (selected : value) :
  Fal.generation_plan state = Some plan ->
  normalized_plan_shape plan selected ->
  Fal.selected_media_type state = Ok selected.
Proof.
  intros Hplan Hshape. unfold Fal.selected_media_type. rewrite Hplan.
  unfold normalized_plan_shape in Hshape.
  destruct Hshape as [? [? [? [? [? [? [? [? [? [? [? [? [? [? [? [? [?
                     [? [? ->]]]]]]]]]]]]]]]]]]].
  reflexivity.
Qed.

Lemma visual_refiner_node_skips (state : Fal.AgentState) (h : list event)
    (selected : value) :
  Fal.selected_media_type state = Ok selected ->
  negb (truthy selected) || py_eq selected (VStr "text_only") = true ->
  Fal.visual_refiner_node py_str gemini state h
  = (Ok {| Fal.platform := None; Fal.intent := None;
           Fal.user_inputs := None; Fal.uploaded_files := None;
           Fal.user_media_choice := None;
           Fal.generation_plan := None; Fal.text_model_input := None;
           Fal.media_payload := None; Fal.visual_prompt := Some None;
           Fal.generated_text := None; Fal.generated_media_url := None;
           Fal.status := Some "visual_refiner_skipped";
           Fal.errors := Some [] |},
     []).
Proof.
  intros Hsel Hcond.
  unfold Fal.visual_refiner_node, Fal.visual_refiner_body, try_except.
  rewrite Hsel, bindM_lift_ok, Hcond. reflexivity.
Qed.

Lemma media_producer_node_skips (state : Fal.AgentState) (h : list event)
    (selected : value) :
  Fal.selected_media_type state = Ok selected ->
  negb (truthy selected) || py_eq selected (VStr "text_only") = true ->
  Fal.media_producer_node py_str fal state h
  = (Ok {| Fal.platform := None; Fal.intent := None;
           Fal.user_inputs := None; Fal.uploaded_files := None;
           Fal.user_media_choice := None;
           Fal.generation_plan := None; Fal.text_model_input := None;
           Fal.media_payload := None; Fal.visual_prompt := None;
           Fal.generated_text := None;
           Fal.generated_media_url := Some VNone;
           Fal.status := Some "media_producer_skipped";
           Fal.errors := Some [] |},
     []).
Proof.
  intros Hsel Hcond.
  unfold Fal.media_producer_node, Fal.media_producer_body, try_except.
  rewrite Hsel, bindM_lift_ok, Hcond. reflexivity.
Qed.

(** X20.  A failure of the prompt engineer and of the copywriter leaves no
    trace when the plan selects no media or ["text_only"]: on a state
    without [user_inputs] and [text_model_input] the run sends no request
    and generates no text, and yet it ends with the status
    ["media_producer_skipped"] and an empty [errors]. *)
Theorem workflow_hides_earlier_failures (state : Fal.AgentState)
    (h : list event) (p i : string) (c : option string) (raw plan : dict)
    (selected : value)
    (Hp : Fal.platform state = Some p)
    (Hi : Fal.intent state = Some i)
    (Hc : Fal.user_media_choice state = Some c)
    (Hraw : build_generation_plan rules p i = Ok raw)
    (Hnorm : Fal.normalize_plan raw c = Ok plan)
    (Hsel : plan_media_field plan "selected_type" = Some selected)
    (Hskip : truthy selected = false \/ selected = VStr "text_only")
    (Hinputs : Fal.user_inputs state = None)
    (Htext : Fal.text_model_input state = None) :
  Fal.invoke workflow state h
  = (Ok ({| Fal.platform := Some p;
            Fal.intent := Some i;
            Fal.user_inputs := None;
            Fal.uploaded_files := Fal.uploaded_files state;
            Fal.user_media_choice := Some c;
            Fal.generation_plan := Some plan;
            Fal.text_model_input := None;
            Fal.media_payload := Fal.media_payload state;
            Fal.visual_prompt := Some None;
            Fal.generated_text := Fal.generated_text state;
            Fal.generated_media_url := Some VNone;
            Fal.status := Some "media_producer_skipped";
            Fal.errors := Some [] |},
         Fal.node_names), []).
Proof.
  destruct (fal_normalize_shape raw c plan Hnorm)
    as [selected' [Hsel' Hshape]].
  assert (selected' = selected) by congruence. subst selected'.
  assert (Hcond : negb (truthy selected) || py_eq selected (VStr "text_only")
                  = true).
  { destruct Hskip as [Hf | ->]; [now rewrite Hf | reflexivity]. }
  pose proof (planner_node_returns_plan state h p i c raw plan
                Hp Hi Hc Hraw Hnorm) as H1.
  match type of H1 with _ = (Ok ?u, _) => set (u1 := u) in H1 end.
  pose (s1 := Fal.apply_update state u1).
  pose (s2 := Fal.apply_update s1
                (Fal.failed s1 "Prompt Engineer failed: 'user_inputs'")).
  pose (s3 := Fal.apply_update s2
                (Fal.failed s2
                   "Copywriter failed: Text model input missing.")).
  assert (Hs3 : Fal.selected_media_type s3 = Ok selected)
    by (apply (selected_media_type_of_plan s3 plan); [reflexivity | exact Hshape]).
  pose proof (visual_refiner_node_skips s3 (((h ++ []) ++ []) ++ [])
                selected Hs3 Hcond) as H4.
  match type of H4 with _ = (Ok ?u, _) => set (u4 := u) in H4 end.
  pose (s4 := Fal.apply_update s3 u4).
  assert (Hs4 : Fal.selected_media_type s4 = Ok selected)
    by (apply (selected_media_type_of_plan s4 plan); [reflexivity | exact Hshape]).
  pose proof (media_producer_node_skips s4 ((((h ++ []) ++ []) ++ []) ++ [])
                selected Hs4 Hcond) as H5.
  match type of H5 with _ = (Ok ?u, _) => set (u5 := u) in H5 end.
  assert (Hchain :
            Fal.linear_chain render py_str gemini fal rules state h
            = (Ok (Fal.apply_update s4 u5), [])).
  { unfold Fal.linear_chain.
    rewrite (bindM_ok _ _ _ _ _ H1). cbv beta zeta. fold s1.
    rewrite (bindM_ok _ _ _ _ _
               (prompt_engineer_node_without_inputs s1 _ plan
                  eq_refl Hinputs)).
    cbv beta zeta. fold s2.
    rewrite (bindM_ok _ _ _ _ _
               (copywriter_node_without_input s2 _ (or_introl Htext))).
    cbv beta zeta. fold s3.
    rewrite (bindM_ok _ _ _ _ _ H4). cbv beta zeta. fold s4.
    rewrite (bindM_ok _ _ _ _ _ H5). reflexivity. }
  rewrite workflow_is_linear_chain, (bindM_ok _ _ _ _ _ Hchain).
  cbn [ret fst snd app].
  subst u5; write_update; subst s4 u4. write_update; subst s3.
  write_update; subst s2. write_update; subst s1 u1. write_update.
  rewrite Hp, Hi, Hc, Hinputs, Htext. reflexivity.
Qed.

End FalOutcome.

(* ================================================================== *)
(** * The requests of the media producer and of a whole run *)
(* ================================================================== *)

Section FalCarousel.

Variable py_str : value -> string.
Variable fal : fal_service.

(** A call that subscribes once, looks at the answer without sending
    anything, and turns an exception into a value: it returns after the one
    request. *)
Lemma subscribe_once (application : string) (arguments : dict)
    (k : dict -> M value) (handler : exn -> value) (h : list event) :
  (forall r, sends_at_most 0 (k r)) ->
  exists result,
    try_except (r <~ Fal.subscribe fal application arguments ;; k r)
      (fun e => ret (handler e)) h
    = (Ok result, [FalSubscribe application arguments]).
Proof.
  intro Hk. unfold try_except, bindM, Fal.subscribe.
  destruct (fal h application arguments) as [r|e].
  - specialize (Hk r (h ++ [FalSubscribe application arguments])).
    destruct (k r (h ++ [FalSubscribe application arguments]))
      as [[v|e] sent]; cbn [snd] in Hk;
      destruct sent; cbn [List.length] in Hk; try lia;
      eexists; reflexivity.
  - eexists. reflexivity.
Qed.

(** The one request [generate_image_with_fal] sends. *)
Lemma generate_image_with_fal_request (prompt : string) (c : dict)
    (reference_image : value) (h : list event) :
  exists result,
    Fal.generate_image_with_fal py_str fal prompt (VDict c) reference_image h
    = (Ok result,
       [FalSubscribe "fal-ai/nano-banana"
          (fal_image_arguments prompt c reference_image)]).
Proof.
  unfold Fal.generate_image_with_fal, fal_image_arguments.
  cbn [py_get]. rewrite !bindM_lift_ok. cbv zeta.
  destruct (truthy reference_image);
    (apply (subscribe_once "fal-ai/nano-banana" _ _
              (fun e => VStr ("Error generating image with fal.ai: "
                                ++ str_exn e)));
     intro result; destruct (dict_mem result "images"); [|apply sends_ret];
     apply sends_lift_bind; intro images;
     apply sends_lift_bind; intro n;
     destruct (0 <? n)%nat; [|apply sends_ret];
     apply sends_lift_bind; intro image; apply sends_lift).
Qed.

(** A loop whose every turn returns after one request returns after one
    request a turn, with one result a turn. *)
Lemma for_each_requests {A B : Type} (xs : list A) (f : A -> M B)
    (request : A -> event) :
  (forall x h, exists y, f x h = (Ok y, [request x])) ->
  forall h,
    exists ys,
      for_each xs f h = (Ok ys, map request xs) /\
      List.length ys = List.length xs.
Proof.
  intro Hf. induction xs as [|x r IH]; intro h.
  - exists []. split; reflexivity.
  - destruct (Hf x h) as [y Hy].
    destruct (IH (h ++ [request x])) as [ys [Hys Hlen]].
    exists (y :: ys). split; [|simpl; now rewrite Hlen].
    cbn [for_each]. rewrite (bindM_ok _ _ _ _ _ Hy).
    rewrite (bindM_ok _ _ _ _ _ Hys). simpl. now rewrite app_nil_r.
Qed.


End FalCarousel.

Section FalImageRun.

Variable render : template -> dict -> string.
Variable py_str : value -> string.
Variable gemini : gemini_service.
Variable fal : fal_service.
Variable rules : rules_t.

Local Abbreviation workflow := (Fal.workflow render py_str gemini fal rules).



Lemma text_model_input_nonempty (plan user_inputs uploaded_files : dict)
    (final_input : Fal.final_model_input) :
  Fal.build_final_model_input render py_str plan user_inputs uploaded_files
  = Ok final_input ->
  Fal.fi_text_model_input final_input <> "".
Proof.
  unfold Fal.build_final_model_input.
  destruct (Fal.build_text_prompt render plan) as [t|e]; [|discriminate].
  destruct (Fal.build_media_prompt render plan) as [m|e]; [|discriminate].
  cbn [bind]. intro H. injection H as <-. cbn [Fal.fi_text_model_input].
  destruct t; discriminate.
Qed.





(** X26.  [build_final_model_input] of content_orchestrationfal.py returns
    on every plan its [normalize_plan] returns, whatever the user inputs
    and the uploaded files: the text model input is not empty, the payload
    has the two uploaded files, the plan is passed on unchanged, and the
    media model input is [None] when the plan selects no media or
    ["text_only"]. *)
Theorem fal_build_final_model_input_after_planning
    (raw plan user_inputs uploaded_files : dict) (choice : option string)
    (selected : value)
    (Hnorm : Fal.normalize_plan raw choice = Ok plan)
    (Hsel : plan_media_field plan "selected_type" = Some selected) :
  exists final_input,
    Fal.build_final_model_input render py_str plan user_inputs uploaded_files
    = Ok final_input /\
    Fal.fi_generation_plan final_input = plan /\
    Fal.fi_text_model_input final_input <> "" /\
    Fal.fi_media_payload final_input
    = [("reference_image",
         dict_get_default uploaded_files "reference_image" VNone);
       ("video_init_image",
         dict_get_default uploaded_files "video_init_image" VNone)] /\
    (truthy selected = false \/ selected = VStr "text_only" ->
     Fal.fi_media_model_input final_input = None).
Proof.
  destruct (fal_normalize_shape raw choice plan Hnorm)
    as [selected' [Hsel' Hshape]].
  assert (selected' = selected) by congruence. subst selected'.
  assert (Hreturns : exists final_input,
             Fal.build_final_model_input render py_str
               plan user_inputs uploaded_files = Ok final_input /\
             (negb (truthy selected) || py_eq selected (VStr "text_only")
              = true ->
              Fal.fi_media_model_input final_input = None)).
  { unfold normalized_plan_shape in Hshape.
    destruct Hshape as [? [? [? [? [? [? [? [? [? [? [? [? [? [? [? [? [?
                       [? [? ->]]]]]]]]]]]]]]]]]]].
    unfold Fal.build_final_model_input, Fal.build_text_prompt,
      Fal.build_media_prompt.
    cbn.
    destruct (negb (truthy selected) || py_eq selected (VStr "text_only"));
      cbn; eexists; (split; [reflexivity|]); cbn; intro; congruence. }
  destruct Hreturns as [final_input [Hfinal Hnone]].
  exists final_input. split; [exact Hfinal|].
  split; [|split; [exact (text_model_input_nonempty _ _ _ _ Hfinal)|split]].
  - unfold Fal.build_final_model_input in Hfinal.
    destruct (Fal.build_text_prompt render plan); [|discriminate].
    destruct (Fal.build_media_prompt render plan); [|discriminate].
    cbn [bind] in Hfinal. now injection Hfinal as <-.
  - unfold Fal.build_final_model_input in Hfinal.
    destruct (Fal.build_text_prompt render plan); [|discriminate].
    destruct (Fal.build_media_prompt render plan); [|discriminate].
    cbn [bind] in Hfinal. now injection Hfinal as <-.
  - intro Hskip. apply Hnone.
    destruct Hskip as [Hf | ->]; [now rewrite Hf | reflexivity].
Qed.


End FalImageRun.

(* ================================================================== *)
(** * The requests of each node *)
(* ================================================================== *)

Section FalRequests.

Variable render : template -> dict -> string.
Variable py_str : value -> string.
Variable gemini : gemini_service.
Variable fal : fal_service.
Variable rules : rules_t.

Local Abbreviation workflow := (Fal.workflow render py_str gemini fal rules).

(** A node sends what its body sends: the handler sends nothing. *)
Lemma guarded_node_sent {A : Type} (body : M A) (recover : exn -> A)
    (h : list event) :
  snd (try_except body (fun e => ret (recover e)) h) = snd (body h).
Proof.
  unfold try_except. destruct (body h) as [[a|e] sent]; [reflexivity|].
  simpl. apply app_nil_r.
Qed.

Lemma bind_ret_sent {A B : Type} (m : M A) (f : A -> B) (h : list event) :
  snd (bindM m (fun x => ret (f x)) h) = snd (m h).
Proof.
  unfold bindM. destruct (m h) as [[a|e] sent]; [|reflexivity].
  simpl. apply app_nil_r.
Qed.

Lemma bindM_lift_raise {A B : Type} (e : exn) (k : A -> M B)
    (h : list event) :
  bindM (lift (Raise e)) k h = (Raise e, []).
Proof. reflexivity. Qed.

(** What [selected_media_type] read, when it returns. *)
Lemma selected_media_type_inv (state : Fal.AgentState) (media_type : value) :
  Fal.selected_media_type state = Ok media_type ->
  exists plan constraints,
    Fal.generation_plan state = Some plan /\
    dict_get plan "media_constraints" = Some (VDict constraints) /\
    media_type = dict_get_default constraints "selected_type" VNone.
Proof.
  unfold Fal.selected_media_type, dict_item.
  destruct (Fal.generation_plan state) as [plan|]; [|discriminate].
  cbn [state_item bind].
  destruct (dict_get plan "media_constraints") as [[| | | | |c]|] eqn:Hm;
    try discriminate.
  cbn [bind py_get]. intro H. injection H as <-.
  now exists plan, c.
Qed.

Lemma generate_image_with_fal_not_dict (prompt : string)
    (constraints reference_image : value) (h : list event) :
  match constraints with VDict _ => False | _ => True end ->
  snd (Fal.generate_image_with_fal py_str fal prompt constraints
         reference_image h) = [].
Proof.
  destruct constraints; try contradiction; intros _; reflexivity.
Qed.

(** The one request [generate_video_with_fal] sends. *)
Lemma generate_video_with_fal_request (prompt : string) (c : dict)
    (init_image : value) (h : list event) :
  exists result request,
    Fal.generate_video_with_fal py_str fal prompt (VDict c) init_image h
    = (Ok result, [request]).
Proof.
  unfold Fal.generate_video_with_fal.
  cbn [py_get]. rewrite !bindM_lift_ok. cbv zeta.
  match goal with
  | |- context [try_except (bindM (Fal.subscribe fal ?a ?args) ?k) _] =>
      destruct (subscribe_once fal a args k
                  (fun e => VStr ("Error generating video with fal.ai: "
                                    ++ str_exn e)) h) as [result Hresult]
  end.
  - intro result. destruct (dict_mem result "video"); [|apply sends_ret].
    apply sends_lift_bind; intro video. apply sends_lift.
  - eexists _, _. exact Hresult.
Qed.

Lemma generate_video_with_fal_not_dict (prompt : string)
    (constraints init_image : value) (h : list event) :
  match constraints with VDict _ => False | _ => True end ->
  snd (Fal.generate_video_with_fal py_str fal prompt constraints
         init_image h) = [].
Proof.
  destruct constraints; try contradiction; intros _; reflexivity.
Qed.

(** A loop whose turns raise before they send anything sends nothing. *)
Lemma for_each_raises {A B : Type} (xs : list A) (f : A -> M B)
    (h : list event) :
  (forall x h', exists e, f x h' = (Raise e, [])) ->
  snd (for_each xs f h) = [].
Proof.
  intro Hf. destruct xs as [|x r]; [reflexivity|].
  cbn [for_each]. destruct (Hf x h) as [e He].
  now rewrite (bindM_raise _ _ _ _ _ He).
Qed.

Lemma visual_refiner_sent (state : Fal.AgentState) (h : list event) :
  List.length (snd (Fal.visual_refiner_node py_str gemini state h))
  = visual_refiner_requests state.
Proof.
  unfold Fal.visual_refiner_node. rewrite guarded_node_sent.
  unfold Fal.visual_refiner_body, visual_refiner_requests, media_to_generate.
  destruct (Fal.selected_media_type state) as [media_type|e];
    [rewrite bindM_lift_ok | reflexivity].
  destruct (negb (truthy media_type) || py_eq media_type (VStr "text_only"));
    [reflexivity|].
  destruct (present (Fal.generated_text state)) eqn:Hp; cbn [negb];
    [|reflexivity].
  destruct (Fal.generated_text state) as [text|]; [|discriminate].
  cbn [state_item]. rewrite bindM_lift_ok. cbv zeta.
  match goal with
  | |- context [Fal.generate_text_with_gemini gemini ?q] =>
      destruct (fal_generate_text_returns gemini q h) as [refined Hr]
  end.
  rewrite (bindM_ok _ _ _ _ _ Hr). reflexivity.
Qed.

Lemma media_producer_sent (state : Fal.AgentState) (h : list event) :
  List.length (snd (Fal.media_producer_node py_str fal state h))
  = media_producer_requests state.
Proof.
  unfold Fal.media_producer_node. rewrite guarded_node_sent.
  unfold Fal.media_producer_body, media_producer_requests, media_to_generate.
  destruct (Fal.selected_media_type state) as [media_type|e] eqn:Hsel;
    [rewrite bindM_lift_ok | reflexivity].
  destruct (negb (truthy media_type) || py_eq media_type (VStr "text_only"));
    [reflexivity|].
  destruct (selected_media_type_inv state media_type Hsel)
    as [plan [constraints [Hplan [Hmedia _]]]].
  destruct (present (Fal.visual_prompt state)) eqn:Hp; cbn [negb];
    [|now destruct (Fal.uploaded_files state)].
  rewrite Hplan. cbn [state_item]. rewrite bindM_lift_ok.
  unfold dict_item. rewrite Hmedia, bindM_lift_ok.
  rewrite bind_ret_sent.
  assert (Hprompt : exists prompt,
             Fal.visual_prompt_text py_str state = Ok prompt).
  { unfold Fal.visual_prompt_text.
    destruct (Fal.visual_prompt state) as [[s|]|]; try discriminate.
    now exists s. }
  destruct Hprompt as [prompt Hprompt].
  assert (Hdict : forall key,
             constraints_are_dict state key
             = match dict_get_default constraints key (VDict []) with
               | VDict _ => true
               | _ => false
               end).
  { intro key. unfold constraints_are_dict, dict_item.
    rewrite Hplan. cbn [state_item bind]. rewrite Hmedia. reflexivity. }
  assert (Hslides :
            carousel_slides state
            = match
                (min_images <-
                   match dict_get_default constraints "image_count" (VDict [])
                   with
                   | VDict _ =>
                       py_get
                         (dict_get_default constraints "image_count"
                            (VDict [])) "min" (VInt 1)
                   | _ => Ok (VInt 1)
                   end ;;
                 py_range min_images)
              with
              | Ok turns => turns
              | Raise _ => 0%nat
              end).
  { unfold carousel_slides, dict_item.
    rewrite Hplan. cbn [state_item bind]. rewrite Hmedia. reflexivity. }
  rewrite !Hdict, Hslides.
  unfold Fal.uploaded_file.
  destruct (py_eq media_type (VStr "image")).
  { rewrite Hprompt, bindM_lift_ok. cbn [py_get]. rewrite bindM_lift_ok.
    destruct (Fal.uploaded_files state) as [files|]; [|reflexivity].
    cbn [state_item bind]. rewrite bindM_lift_ok.
    destruct (dict_get_default constraints "image" (VDict []))
      as [| | | | |c] eqn:Hc;
      try (apply length_zero_iff_nil, generate_image_with_fal_not_dict;
           exact I).
    destruct (generate_image_with_fal_request py_str fal prompt c
                (dict_get_default files "reference_image" VNone) h)
      as [result Hresult].
    now rewrite Hresult. }
  destruct (py_eq media_type (VStr "video")).
  { rewrite Hprompt, bindM_lift_ok. cbn [py_get]. rewrite bindM_lift_ok.
    destruct (Fal.uploaded_files state) as [files|]; [|reflexivity].
    cbn [state_item bind]. rewrite bindM_lift_ok.
    destruct (dict_get_default constraints "video" (VDict []))
      as [| | | | |c] eqn:Hc;
      try (apply length_zero_iff_nil, generate_video_with_fal_not_dict;
           exact I).
    destruct (generate_video_with_fal_request prompt c
                (dict_get_default files "video_init_image" VNone) h)
      as [result [request Hresult]].
    now rewrite Hresult. }
  destruct (py_eq media_type (VStr "photo_carousel"));
    [|now destruct (Fal.uploaded_files state)].
  cbn [py_get]. rewrite bindM_lift_ok.
  destruct (match dict_get_default constraints "image_count" (VDict []) with
            | VDict _ =>
                py_get (dict_get_default constraints "image_count" (VDict []))
                  "min" (VInt 1)
            | _ => Ok (VInt 1)
            end) as [min_images|e];
    [rewrite bindM_lift_ok
    | now destruct (Fal.uploaded_files state);
          destruct (dict_get_default constraints "image" (VDict []))].
  cbn [bind].
  destruct (py_range min_images) as [turns|e];
    [rewrite bindM_lift_ok
    | now destruct (Fal.uploaded_files state);
          destruct (dict_get_default constraints "image" (VDict []))].
  rewrite bind_ret_sent.
  destruct (Fal.uploaded_files state) as [files|].
  - destruct (dict_get_default constraints "image" (VDict []))
      as [| | | | |c] eqn:Hc.
    1-5: apply length_zero_iff_nil, for_each_raises; intros i h';
      rewrite Hprompt, bindM_lift_ok; cbn [py_get state_item bind];
      rewrite !bindM_lift_ok; eexists; reflexivity.
    match goal with
    | |- context [for_each ?xs ?f] =>
        destruct (for_each_requests xs f
                    (fun i =>
                       FalSubscribe "fal-ai/nano-banana"
                         (fal_image_arguments
                            (prompt ++ " - Slide "
                               ++ py_str (VInt (Z.of_nat i + 1)))
                            c
                            (dict_get_default files "reference_image"
                               VNone))))
          with (h := h) as [urls [Hloop _]]
    end.
    { intros i h'. rewrite Hprompt, bindM_lift_ok.
      cbn [py_get state_item bind]. rewrite ?Hc, !bindM_lift_ok.
      apply generate_image_with_fal_request. }
    rewrite Hloop. cbn [snd]. now rewrite length_map, length_seq.
  - destruct (dict_get_default constraints "image" (VDict []));
      apply length_zero_iff_nil, for_each_raises; intros i h';
      rewrite Hprompt, bindM_lift_ok; cbn [py_get state_item bind];
      rewrite bindM_lift_ok; eexists; reflexivity.
Qed.

(** C5 (amended).  In every run of the workflow each node's update is
    written to the state the next node runs on, and the requests a node
    sends to an external service are counted exactly: planner and
    prompt_engineer send none; copywriter sends one when [text_model_input]
    is a string that is not empty, and none otherwise; visual_refiner sends
    one when the plan selects a media type other than ["text_only"] and
    [generated_text] is not empty, and none otherwise; media_producer, when
    the plan selects such a type, [visual_prompt] is not empty and
    [uploaded_files] is set, sends one for an ["image"] or a ["video"]
    whose constraints are a dictionary and one a slide for a
    ["photo_carousel"] whose image constraints are a dictionary, and none
    otherwise. *)
Theorem workflow_service_calls (state : Fal.AgentState) (h : list event) :
  snd (Fal.planner_node rules state h) = [] /\
  snd (Fal.prompt_engineer_node render py_str state h) = [] /\
  List.length (snd (Fal.copywriter_node gemini state h))
  = match Fal.text_model_input state with
    | Some t => if String.eqb t "" then 0%nat else 1%nat
    | None => 0%nat
    end /\
  List.length (snd (Fal.visual_refiner_node py_str gemini state h))
  = visual_refiner_requests state /\
  List.length (snd (Fal.media_producer_node py_str fal state h))
  = media_producer_requests state /\
  Fal.invoke workflow state h
  = (final <~ Fal.linear_chain render py_str gemini fal rules state ;;
     ret (final, Fal.node_names)) h.
Proof.
  split; [apply sends_nothing, planner_sends|].
  split; [apply sends_nothing, prompt_engineer_sends|].
  split; [apply copywriter_sends|].
  split; [apply visual_refiner_sent|].
  split; [apply media_producer_sent|].
  apply workflow_is_linear_chain.
Qed.

End FalRequests.

Lemma workflow_service_calls_witness :
  (media_producer_requests sample_refined_state = 1%nat /\
   List.length
     (snd (Fal.media_producer_node sample_str sample_fal
             sample_refined_state [])) = 1%nat) /\
  (media_producer_requests sample_carousel_state = 2%nat /\
   List.length
     (snd (Fal.media_producer_node sample_str sample_fal
             sample_carousel_state [])) = 2%nat).
Proof.
  split; (split; [reflexivity|]).
  - exact (proj1 (proj2 (proj2 (proj2 (proj2
             (workflow_service_calls sample_render sample_str sample_gemini
                sample_fal dummy_rules sample_refined_state [])))))).
  - exact (proj1 (proj2 (proj2 (proj2 (proj2
             (workflow_service_calls sample_render sample_str sample_gemini
                sample_fal carousel_rules sample_carousel_state [])))))).
Defined.

(* ================================================================== *)
(** * The endpoint of main.py *)
(* ================================================================== *)

Section MainEndpoint.

Variable render : template -> dict -> string.
Variable py_str : value -> string.
Variable gemini : gemini_service.
Variable fal : fal_service.
Variable rules : rules_t.
Variable b64encode : string -> string.

Local Abbreviation workflow_app :=
  (Some (Main.imported_app render py_str gemini fal rules)).

(** X21.  The endpoint raises its HTTP 500 before anything else when the
    workflow could not be imported.  With the workflow imported it never
    raises: every request is answered with the status ["success"], also
    when nodes failed, and the [errors] it reports are empty or end with the
    message of the media producer. *)
Theorem generate_content_answers_success
    (platform intent content_idea description : string)
    (reference_text user_media_choice : option string)
    (reference_image video_init_image : option Main.UploadFile)
    (h : list event) :
  Main.generate_content b64encode None
    platform intent content_idea description reference_text
    user_media_choice reference_image video_init_image h
  = (Main.HTTPException 500 "Workflow app not initialized. Check imports.",
     []) /\
  exists text media errors sent,
    Main.generate_content b64encode workflow_app
      platform intent content_idea description reference_text
      user_media_choice reference_image video_init_image h
    = (Main.Response
         [("status", VStr "success");
          ("generated_text", text);
          ("generated_media_url", media);
          ("errors", VList (map VStr errors))],
       sent) /\
    (errors = [] \/
     exists old e,
       errors
       = old ++ [("Media Producer failed: " ++ str_exn e)%string]).
Proof.
  split; [reflexivity|].
  unfold Main.generate_content, Main.imported_app. cbv beta zeta.
  match goal with
  | |- context [Fal.invoke _ ?s] =>
      destruct (linear_chain_last_node render py_str gemini fal rules s h)
        as [final [sent [Hrun Hout]]]
  end.
  rewrite (bindM_ext_l _ _ _ _
             (workflow_is_linear_chain render py_str gemini fal rules _)).
  rewrite bindM_assoc.
  rewrite (bindM_ok _ _ _ _ _ Hrun), !bindM_ret.
  cbn [ret fst snd].
  eexists _, _, _, _. split; [reflexivity|].
  destruct Hout as [[He _] | [_ [old [e He]]]]; rewrite He.
  - now left.
  - right. now exists old, e.
Qed.

(** X22.  A request whose platform or intent is not in the rules, so that
    [build_generation_plan] raises, is answered with the status
    ["success"], no text, no media and the five error messages, and no
    request is sent to Gemini or fal.ai. *)
Theorem generate_content_planning_failure
    (platform intent content_idea description : string)
    (reference_text user_media_choice : option string)
    (reference_image video_init_image : option Main.UploadFile)
    (h : list event) (e : exn)
    (Hfail : build_generation_plan rules platform intent = Raise e) :
  Main.generate_content b64encode workflow_app
    platform intent content_idea description reference_text
    user_media_choice reference_image video_init_image h
  = (Main.Response
       [("status", VStr "success");
        ("generated_text", VNone);
        ("generated_media_url", VNone);
        ("errors",
          VList [VStr ("Planner failed: " ++ str_exn e);
                 VStr "Prompt Engineer failed: 'generation_plan'";
                 VStr "Copywriter failed: Text model input missing.";
                 VStr "Visual Refiner failed: 'generation_plan'";
                 VStr "Media Producer failed: 'generation_plan'"])],
     []).
Proof.
  unfold Main.generate_content, Main.imported_app. cbv beta zeta.
  match goal with
  | |- context [Fal.invoke _ ?s] =>
      assert (Hplanner : fst (Fal.planner_body rules s h) = Raise e)
        by (unfold Fal.planner_body;
            cbn [Fal.platform Fal.intent state_item];
            rewrite !bindM_lift_ok, Hfail; reflexivity);
      pose proof (linear_chain_after_planner_failure
                    render py_str gemini fal rules s h e
                    eq_refl (or_introl eq_refl) Hplanner) as Hrun
  end.
  rewrite (bindM_ext_l _ _ _ _
             (workflow_is_linear_chain render py_str gemini fal rules _)).
  rewrite bindM_assoc.
  rewrite (bindM_ok _ _ _ _ _ Hrun), !bindM_ret.
  reflexivity.
Qed.

(** X23.  An upload that cannot be read is treated as no upload: the
    reply and the requests sent are those of the same call without the
    file, for the reference image and for the initial video frame. *)
Theorem generate_content_unreadable_upload
    (app : option (Fal.AgentState -> M Fal.AgentState))
    (platform intent content_idea description : string)
    (reference_text user_media_choice : option string)
    (upload : Main.UploadFile) (other : option Main.UploadFile)
    (h : list event) (e : exn)
    (Hread : Main.read upload = Raise e) :
  Main.generate_content b64encode app
    platform intent content_idea description reference_text
    user_media_choice (Some upload) other h
  = Main.generate_content b64encode app
      platform intent content_idea description reference_text
      user_media_choice None other h /\
  Main.generate_content b64encode app
    platform intent content_idea description reference_text
    user_media_choice other (Some upload) h
  = Main.generate_content b64encode app
      platform intent content_idea description reference_text
      user_media_choice other None h.
Proof.
  unfold Main.generate_content, Main.file_to_data_uri.
  rewrite Hread. cbn [bind].
  destruct app as [invoke|]; [|split; reflexivity].
  destruct other as [f|]; split; reflexivity.
Qed.

End MainEndpoint.

(* ================================================================== *)
(** * The further properties on sample runs *)
(* ================================================================== *)

Lemma planner_failure_fails_every_node_witness :
  Fal.invoke
    (Fal.workflow sample_render sample_str sample_gemini sample_fal
       dummy_rules)
    {| Fal.platform := Some "Instagram"; Fal.intent := Some "DEFAULT";
       Fal.user_inputs := Some sample_user_inputs;
       Fal.uploaded_files := Some sample_uploaded_files;
       Fal.user_media_choice := Some None;
       Fal.generation_plan := None; Fal.text_model_input := None;
       Fal.media_payload := None; Fal.visual_prompt := None;
       Fal.generated_text := None; Fal.generated_media_url := None;
       Fal.status := None; Fal.errors := Some [] |} []
  = (Ok ({| Fal.platform := Some "Instagram"; Fal.intent := Some "DEFAULT";
            Fal.user_inputs := Some sample_user_inputs;
            Fal.uploaded_files := Some sample_uploaded_files;
            Fal.user_media_choice := Some None;
            Fal.generation_plan := None; Fal.text_model_input := None;
            Fal.media_payload := None; Fal.visual_prompt := None;
            Fal.generated_text := None; Fal.generated_media_url := None;
            Fal.status := Some "failed";
            Fal.errors :=
              Some ["Planner failed: Platform INSTAGRAM not found";
                    "Prompt Engineer failed: 'generation_plan'";
                    "Copywriter failed: Text model input missing.";
                    "Visual Refiner failed: 'generation_plan'";
                    "Media Producer failed: 'generation_plan'"] |},
         Fal.node_names), []).
Proof.
  apply (planner_failure_fails_every_node
           sample_render sample_str sample_gemini sample_fal dummy_rules
           {| Fal.platform := Some "Instagram"; Fal.intent := Some "DEFAULT";
              Fal.user_inputs := Some sample_user_inputs;
              Fal.uploaded_files := Some sample_uploaded_files;
              Fal.user_media_choice := Some None;
              Fal.generation_plan := None; Fal.text_model_input := None;
              Fal.media_payload := None; Fal.visual_prompt := None;
              Fal.generated_text := None; Fal.generated_media_url := None;
              Fal.status := None; Fal.errors := Some [] |} []
           (ValueError "Platform INSTAGRAM not found")).
  - reflexivity.
  - left. reflexivity.
  - reflexivity.
Defined.

Lemma workflow_hides_earlier_failures_witness :
  exists plan,
    Fal.invoke
      (Fal.workflow sample_render sample_str sample_gemini sample_fal
         text_only_rules)
      {| Fal.platform := Some "LinkedIn"; Fal.intent := Some "DEFAULT";
         Fal.user_inputs := None;
         Fal.uploaded_files := Some sample_uploaded_files;
         Fal.user_media_choice := Some None;
         Fal.generation_plan := None; Fal.text_model_input := None;
         Fal.media_payload := None; Fal.visual_prompt := None;
         Fal.generated_text := None; Fal.generated_media_url := None;
         Fal.status := None; Fal.errors := Some [] |} []
    = (Ok ({| Fal.platform := Some "LinkedIn"; Fal.intent := Some "DEFAULT";
              Fal.user_inputs := None;
              Fal.uploaded_files := Some sample_uploaded_files;
              Fal.user_media_choice := Some None;
              Fal.generation_plan := Some plan;
              Fal.text_model_input := None;
              Fal.media_payload := None; Fal.visual_prompt := Some None;
              Fal.generated_text := None;
              Fal.generated_media_url := Some VNone;
              Fal.status := Some "media_producer_skipped";
              Fal.errors := Some [] |},
           Fal.node_names), []).
Proof.
  pose (raw := match build_generation_plan text_only_rules "LinkedIn"
                       "DEFAULT" with
               | Ok raw => raw
               | Raise _ => []
               end).
  pose (plan := match Fal.normalize_plan raw None with
                | Ok plan => plan
                | Raise _ => []
                end).
  exists plan.
  exact (workflow_hides_earlier_failures
           sample_render sample_str sample_gemini sample_fal text_only_rules
           {| Fal.platform := Some "LinkedIn"; Fal.intent := Some "DEFAULT";
              Fal.user_inputs := None;
              Fal.uploaded_files := Some sample_uploaded_files;
              Fal.user_media_choice := Some None;
              Fal.generation_plan := None; Fal.text_model_input := None;
              Fal.media_payload := None; Fal.visual_prompt := None;
              Fal.generated_text := None; Fal.generated_media_url := None;
              Fal.status := None; Fal.errors := Some [] |} []
           "LinkedIn" "DEFAULT" None raw plan (VStr "text_only")
           eq_refl eq_refl eq_refl eq_refl eq_refl eq_refl
           (or_intror eq_refl) eq_refl eq_refl).
Defined.


Lemma fal_build_final_model_input_after_planning_witness :
  exists plan final_input,
    Fal.normalize_plan
      [("content_type", VStr "post");
       ("media_constraints", VDict [("type", VStr "text_only")])] None
    = Ok plan /\
    Fal.build_final_model_input sample_render sample_str
      plan sample_user_inputs sample_uploaded_files = Ok final_input /\
    Fal.fi_generation_plan final_input = plan /\
    Fal.fi_text_model_input final_input <> "" /\
    Fal.fi_media_payload final_input
    = [("reference_image", VNone); ("video_init_image", VNone)] /\
    (truthy (VStr "text_only") = false \/
     VStr "text_only" = VStr "text_only" ->
     Fal.fi_media_model_input final_input = None).
Proof.
  eexists.
  destruct (fal_build_final_model_input_after_planning
              sample_render sample_str
              [("content_type", VStr "post");
               ("media_constraints", VDict [("type", VStr "text_only")])]
              _ sample_user_inputs sample_uploaded_files None
              (VStr "text_only") eq_refl eq_refl)
    as [final_input H].
  exists final_input. split; [reflexivity | exact H].
Defined.


Lemma generate_content_planning_failure_witness :
  Main.generate_content sample_b64encode
    (Some (Main.imported_app sample_render sample_str sample_gemini
             sample_fal dummy_rules))
    "Instagram" "DEFAULT" "ads about chipsy" "Crunch into happiness!"
    None (Some "image") (Some sample_upload) None []
  = (Main.Response
       [("status", VStr "success");
        ("generated_text", VNone);
        ("generated_media_url", VNone);
        ("errors",
          VList [VStr "Planner failed: Platform INSTAGRAM not found";
                 VStr "Prompt Engineer failed: 'generation_plan'";
                 VStr "Copywriter failed: Text model input missing.";
                 VStr "Visual Refiner failed: 'generation_plan'";
                 VStr "Media Producer failed: 'generation_plan'"])],
     []).
Proof.
  apply (generate_content_planning_failure
           sample_render sample_str sample_gemini sample_fal dummy_rules
           sample_b64encode
           "Instagram" "DEFAULT" "ads about chipsy" "Crunch into happiness!"
           None (Some "image") (Some sample_upload) None []
           (ValueError "Platform INSTAGRAM not found")).
  reflexivity.
Defined.

Lemma generate_content_unreadable_upload_witness :
  Main.generate_content sample_b64encode
    (Some (Main.imported_app sample_render sample_str sample_gemini
             sample_fal dummy_rules))
    "X" "DEFAULT" "ads about chipsy" "Crunch into happiness!"
    None (Some "image") (Some broken_upload) (Some sample_upload) []
  = Main.generate_content sample_b64encode
      (Some (Main.imported_app sample_render sample_str sample_gemini
               sample_fal dummy_rules))
      "X" "DEFAULT" "ads about chipsy" "Crunch into happiness!"
      None (Some "image") None (Some sample_upload) [] /\
  Main.generate_content sample_b64encode
    (Some (Main.imported_app sample_render sample_str sample_gemini
             sample_fal dummy_rules))
    "X" "DEFAULT" "ads about chipsy" "Crunch into happiness!"
    None (Some "image") (Some sample_upload) (Some broken_upload) []
  = Main.generate_content sample_b64encode
      (Some (Main.imported_app sample_render sample_str sample_gemini
               sample_fal dummy_rules))
      "X" "DEFAULT" "ads about chipsy" "Crunch into happiness!"
      None (Some "image") (Some sample_upload) None [].
Proof.
  apply (generate_content_unreadable_upload sample_b64encode
           (Some (Main.imported_app sample_render sample_str sample_gemini
                    sample_fal dummy_rules))
           "X" "DEFAULT" "ads about chipsy" "Crunch into happiness!"
           None (Some "image") broken_upload (Some sample_upload) []
           (ValueError "I/O operation on closed file.")).
  reflexivity.
Defined.

(** The endpoint on the sample services: an upload becomes a data URI and
    is sent to fal.ai as the reference image. *)
Example generate_content_demo :
  Main.generate_content sample_b64encode
    (Some (Main.imported_app sample_render sample_str sample_gemini
             sample_fal dummy_rules))
    "X" "DEFAULT" "ads about chipsy" "Crunch into happiness!"
    None (Some "image") (Some sample_upload) None []
  = (Main.Response
       [("status", VStr "success");
        ("generated_text", VStr "Crunch into happiness!");
        ("generated_media_url", VStr "https://fal.media/out.png");
        ("errors", VList [])],
     [GeminiGenerateContent "gemini-2.5-flash"
        (Fal.fi_text_model_input
           {| Fal.fi_text_model_input :=
                "write the post" ++ nl ++ nl ++
                Fal.build_text_user_data_block sample_str
                  [("content_idea", VStr "ads about chipsy");
                   ("description", VStr "Crunch into happiness!");
                   ("reference_text", VStr EmptyString)];
              Fal.fi_media_model_input := None;
              Fal.fi_media_payload := [];
              Fal.fi_generation_plan := [] |});
      GeminiGenerateContent "gemini-2.5-flash"
        (visual_prompt_request sample_str "Crunch into happiness!"
           (VStr "image"));
      FalSubscribe "fal-ai/nano-banana"
        (fal_image_arguments "Crunch into happiness!" []
           (VStr "data:image/png;base64,TWFu"))]).
Proof. vm_compute. reflexivity. Qed.
